(** * Phara chatbot core: guardrails, provider adapters, configuration, orchestrator

    A shallow embedding of the conversational core of the repository
    ([guardrails.py], [ai_providers.py], [config.py], [brain.py],
    [file_processor.py], [read.py] and the handlers of [main.py]), followed
    by the properties of the specification that are settled against it.

    Conventions of the embedding.
    - A Python [str] is a [string]; each [ascii] is read as the code point
      U+0000..U+00FF it numbers (the Latin-1 range of Unicode).  The tables
      of [str.lower], [str.isspace], [str.isdigit] and [\w], and the
      blindness of [re.IGNORECASE] to letter case, are those of that
      range.  Text with code points beyond it is outside the embedding:
      there [str.lower] can change the length (U+0130 becomes two code
      points) and [re.IGNORECASE] lets U+0130 and U+0131 match i and
      U+017F match s.  The guardrails are therefore described on the
      lower-cased input, the text the code matches its patterns against.
    - An exception is a value [exn] carrying its class and the text [str(e)]
      gives; fallible code returns [result].  Only instances of [Exception]
      are modelled (the class [except Exception] catches).
    - Calls that leave the process (package imports, SDK clients, HTTP
      requests, model completions) are answered by an environment [Env] of
      recorded outcomes; a backend either raises or delivers a response,
      whose text may be missing ([None], an absent entry).  Every
      request sent to a backend is appended to the trace of the [World],
      every [print] to its console, and a spy counts the entries of
      [generate_response].
    - [random.choice] takes the draw as an explicit natural number. *)

From Stdlib Require Import Bool Arith Lia List NArith ZArith QArith Ascii String.
From Stdlib Require Import DecimalString.
Import ListNotations.

Close Scope Q_scope.
Local Open Scope nat_scope.
Local Open Scope list_scope.
Local Open Scope string_scope.

(* ================================================================= *)
(** ** Exceptions and fallible results *)

Inductive exn_class : Type :=
| ImportError | ValueError | ConnectionError | IndexError | KeyError
| TypeError | AttributeError | RuntimeError
| OtherException (name : string).

Record exn : Type := mkExn { exn_kind : exn_class; exn_str : string }.

Inductive result (A : Type) : Type :=
| Ok (a : A)
| Raise (e : exn).

Arguments Ok {A} a.
Arguments Raise {A} e.

Definition bind {A B : Type} (m : result A) (f : A -> result B) : result B :=
  match m with
  | Ok a => f a
  | Raise e => Raise e
  end.

Notation "x <- m ;; k" := (bind m (fun x => k))
  (at level 61, m at next level, right associativity).

(* ================================================================= *)
(** ** Python string operations *)

Module PyStr.

Definition newline : ascii := ascii_of_nat 10.
Definition nl : string := String newline "".

Definition in_range (lo hi n : N) : bool := (lo <=? n)%N && (n <=? hi)%N.

(** [str.lower] on one code point of the Latin-1 range: A-Z, and the
    accented capitals U+00C0..U+00DE except the multiplication sign. *)
Definition lower_char (c : ascii) : ascii :=
  let n := N_of_ascii c in
  if in_range 65 90 n || in_range 192 214 n || in_range 216 222 n
  then ascii_of_N (n + 32)
  else c.

(** [s.lower()] *)
Fixpoint lower (s : string) : string :=
  match s with
  | EmptyString => EmptyString
  | String c s' => String (lower_char c) (lower s')
  end.

(** The class [\w] of [re] on [str] patterns: alphanumeric code points and
    the underscore. *)
Definition is_word_char (c : ascii) : bool :=
  let n := N_of_ascii c in
  in_range 48 57 n || in_range 65 90 n || (n =? 95)%N || in_range 97 122 n
  || (n =? 170)%N || in_range 178 179 n || (n =? 181)%N
  || in_range 185 186 n || in_range 188 190 n
  || in_range 192 214 n || in_range 216 246 n || in_range 248 255 n.

(** [hay.startswith(needle)] *)
Fixpoint startswith (needle hay : string) : bool :=
  match needle, hay with
  | EmptyString, _ => true
  | String a n', String b h' => Ascii.eqb a b && startswith n' h'
  | String _ _, EmptyString => false
  end.

(** [needle in hay] *)
Fixpoint contains (needle hay : string) : bool :=
  startswith needle hay
  || match hay with
     | EmptyString => false
     | String _ h' => contains needle h'
     end.

(** [sep.join(parts)] *)
Fixpoint join (sep : string) (parts : list string) : string :=
  match parts with
  | [] => ""
  | [p] => p
  | p :: rest => p ++ sep ++ join sep rest
  end.

(** [s.replace(old, "")] for a non-empty [old]: every occurrence, scanned
    left to right without overlap, is dropped.  [skip] counts the
    characters of the occurrence being dropped that are still ahead. *)
Fixpoint remove_from (old : string) (skip : nat) (s : string) : string :=
  match s with
  | EmptyString => EmptyString
  | String c s' =>
      match skip with
      | S k => remove_from old k s'
      | O => if startswith old s
             then remove_from old (String.length old - 1) s'
             else String c (remove_from old 0 s')
      end
  end.

Definition remove_all (old s : string) : string := remove_from old 0 s.

(** [str(n)] for an integer *)
Definition of_Z (z : Z) : string := NilZero.string_of_int (Z.to_int z).
Definition of_nat (n : nat) : string := of_Z (Z.of_nat n).

(** Truth value of a string: empty is false. *)
Definition truthy (s : string) : bool :=
  match s with EmptyString => false | String _ _ => true end.

(** The text an f-string gives for a value that is a [str] or [None]. *)
Definition str_of (v : option string) : string :=
  match v with
  | Some s => s
  | None => "None"
  end.

Definition head (s : string) : option ascii :=
  match s with EmptyString => None | String c _ => Some c end.

(** [xs.append(x)] *)
Definition append {A : Type} (xs : list A) (x : A) : list A := (xs ++ [x])%list.

(** [xs[-n:]]; with [n = 0] the slice is [xs[0:]], the whole list. *)
Definition last_n {A : Type} (n : nat) (xs : list A) : list A :=
  match n with
  | O => xs
  | S _ => skipn (List.length xs - n) xs
  end.

(** [c.isspace()] on a code point of the Latin-1 range. *)
Definition is_space (c : ascii) : bool :=
  let n := N_of_ascii c in
  in_range 9 13 n || in_range 28 32 n || (n =? 133)%N || (n =? 160)%N.

(** [s.lstrip()] *)
Fixpoint lstrip (s : string) : string :=
  match s with
  | EmptyString => EmptyString
  | String c s' => if is_space c then lstrip s' else s
  end.

(** [s.rstrip()] *)
Fixpoint rstrip (s : string) : string :=
  match s with
  | EmptyString => EmptyString
  | String c s' =>
      match rstrip s' with
      | EmptyString => if is_space c then EmptyString else String c EmptyString
      | String _ _ as r => String c r
      end
  end.

(** [s.strip()] *)
Definition strip (s : string) : string := rstrip (lstrip s).

(** [s.split()]: the words between runs of white space.  [word] is the
    word being read. *)
Fixpoint split_from (word : string) (s : string) : list string :=
  match s with
  | EmptyString => if truthy word then [word] else []
  | String c s' =>
      if is_space c
      then (if truthy word then word :: split_from "" s' else split_from "" s')
      else split_from (word ++ String c "") s'
  end.

Definition split (s : string) : list string := split_from "" s.

(** The word a [split(maxsplit=1)] reads first, and what is left after
    the white space that ends it. *)
Fixpoint first_split (word : string) (s : string) : list string :=
  match s with
  | EmptyString => if truthy word then [word] else []
  | String c s' =>
      if is_space c
      then (if truthy word
            then (match lstrip s' with
                  | EmptyString => [word]
                  | String _ _ as rest => [word; rest]
                  end)
            else first_split "" s')
      else first_split (word ++ String c "") s'
  end.

(** [s.split(maxsplit=1)] *)
Definition split_once (s : string) : list string := first_split "" s.

(** [s.endswith(suffix)] *)
Fixpoint endswith (suffix s : string) : bool :=
  String.eqb s suffix
  || match s with
     | EmptyString => false
     | String _ s' => endswith suffix s'
     end.

(** [c.isdigit()] on a code point of the Latin-1 range: the ten digits
    and the superscripts one, two and three. *)
Definition is_digit_char (c : ascii) : bool :=
  let n := N_of_ascii c in
  in_range 48 57 n || in_range 178 179 n || (n =? 185)%N.

Fixpoint all_chars (f : ascii -> bool) (s : string) : bool :=
  match s with
  | EmptyString => true
  | String c s' => f c && all_chars f s'
  end.

(** [s.isdigit()] *)
Definition isdigit (s : string) : bool := truthy s && all_chars is_digit_char s.

(** The value of a run of decimal digits read after [acc]; a character
    that is not one of the ten digits has no value. *)
Fixpoint digits_value (acc : Z) (s : string) : option Z :=
  match s with
  | EmptyString => Some acc
  | String c s' =>
      let n := N_of_ascii c in
      if in_range 48 57 n then digits_value (10 * acc + Z.of_N (n - 48)) s' else None
  end.

(** The number of decimal digits [s] begins with. *)
Fixpoint digits_run (s : string) : nat :=
  match s with
  | EmptyString => 0
  | String c s' => if in_range 48 57 (N_of_ascii c) then S (digits_run s') else 0
  end.

Definition int_max_str_digits : nat := 4300.

(** [int(s)] for [s] of which [isdigit] holds, as CPython 3.11 does it:
    more leading digits than the limit are refused, then a character
    that is not a decimal digit; the message shows at most 200 characters
    of [repr(s)]. *)
Definition int_of_digits (s : string) : result Z :=
  if (int_max_str_digits <? digits_run s)%nat then
    Raise (mkExn ValueError
             ("Exceeds the limit (4300 digits) for integer string conversion: value has "
              ++ of_nat (digits_run s)
              ++ " digits; use sys.set_int_max_str_digits() to increase the limit"))
  else
    match digits_value 0 s with
    | Some z => Ok z
    | None => Raise (mkExn ValueError
                       ("invalid literal for int() with base 10: "
                        ++ String.substring 0 200 ("'" ++ s ++ "'")))
    end.

End PyStr.

(* ================================================================= *)
(** ** The fragment of [re] the guardrail patterns use *)

Module Re.
Import PyStr.

Inductive regex : Type :=
| Lit (w : string)           (* a run of literal characters *)
| WordB                      (* \b *)
| DotStar                    (* .* *)
| Alt (r1 r2 : regex)        (* r1|r2 *)
| Cat (r1 r2 : regex)        (* r1 r2 *)
| NegAhead (r : regex).      (* (?!r) *)

(** (w1|w2|...|wn) *)
Fixpoint words (ws : list string) : regex :=
  match ws with
  | [] => Lit ""
  | [w] => Lit w
  | w :: rest => Alt (Lit w) (words rest)
  end.

Definition is_word_opt (c : option ascii) : bool :=
  match c with Some a => is_word_char a | None => false end.

(** [\b] holds between the character before the position and the one at
    it when exactly one of them is a word character; outside the string
    counts as a non-word character. *)
Definition at_boundary (prev : option ascii) (s : string) : bool :=
  xorb (is_word_opt prev) (is_word_opt (head s)).

(** Literal run under [re.IGNORECASE]: the pattern's characters are
    compared with the lower-cased subject.  On success the continuation
    receives the last character consumed and the rest. *)
Fixpoint lit (w : string) (prev : option ascii) (s : string)
         (k : option ascii -> string -> bool) : bool :=
  match w with
  | EmptyString => k prev s
  | String a w' =>
      match s with
      | EmptyString => false
      | String c s' =>
          if Ascii.eqb (lower_char a) (lower_char c) then lit w' (Some c) s' k else false
      end
  end.

(** [.*]: any run of characters other than the line feed. *)
Fixpoint dotstar (prev : option ascii) (s : string)
         (k : option ascii -> string -> bool) : bool :=
  k prev s
  || match s with
     | EmptyString => false
     | String c s' => if Ascii.eqb c newline then false else dotstar (Some c) s' k
     end.

(** Backtracking match of [r] at the current position: [prev] is the
    character just before it, [s] the rest of the subject, [k] what must
    match after [r]. *)
Fixpoint accept (r : regex) (prev : option ascii) (s : string)
         (k : option ascii -> string -> bool) : bool :=
  match r with
  | Lit w => lit w prev s k
  | WordB => if at_boundary prev s then k prev s else false
  | DotStar => dotstar prev s k
  | Alt r1 r2 => accept r1 prev s k || accept r2 prev s k
  | Cat r1 r2 => accept r1 prev s (fun p' s' => accept r2 p' s' k)
  | NegAhead r1 => if accept r1 prev s (fun _ _ => true) then false else k prev s
  end.

Definition match_here (r : regex) (prev : option ascii) (s : string) : bool :=
  accept r prev s (fun _ _ => true).

(** Try every start position from the current one to the end of the
    subject, the end included. *)
Fixpoint scan (r : regex) (prev : option ascii) (s : string) : bool :=
  match_here r prev s
  || match s with
     | EmptyString => false
     | String c s' => scan r (Some c) s'
     end.

(** [re.search(r, s, re.IGNORECASE) is not None] *)
Definition search (r : regex) (s : string) : bool := scan r None s.

End Re.

(* ================================================================= *)
(** ** [file_processor.py]: what the core reads of the loaded files *)

Module FileProcessor.

(** A column label of a data frame: a string, or a value of another
    Python type (pandas labels may be numbers), of which only the type
    name is kept. *)
Inductive label : Type :=
| LStr (s : string)
| LOther (type_name : string).

Record DataFrame : Type := mkDataFrame { columns : list label; rows : nat }.

Definition shape (df : DataFrame) : nat * nat := (rows df, List.length (columns df)).

(** [loaded_files] is the dict filename -> frame, in insertion order. *)
Record t : Type := mkFileProcessor {
  loaded_files : list (string * DataFrame);
  current_file_context : option string
}.

Fixpoint lookup (filename : string) (d : list (string * DataFrame)) : option DataFrame :=
  match d with
  | [] => None
  | (k, v) :: rest => if String.eqb k filename then Some v else lookup filename rest
  end.

(** The entries of the dict of [get_file_info] that the core reads. *)
Record FileInfo : Type := mkFileInfo {
  fi_filename : string;
  fi_shape : nat * nat;
  fi_columns : list label
}.

Definition get_file_info (fp : t) (filename : string) : option FileInfo :=
  match lookup filename (loaded_files fp) with
  | None => None
  | Some df => Some (mkFileInfo filename (shape df) (columns df))
  end.

Definition get_current_context (fp : t) : option string := current_file_context fp.

Definition list_loaded_files (fp : t) : list string := map fst (loaded_files fp).

End FileProcessor.

(* ================================================================= *)
(** ** [guardrails.py] *)

Module DataGuardrails.
Import PyStr Re.

Definition data_keywords : list string :=
  [ "data"; "column"; "row"; "table"; "csv"; "excel"; "file";
    "analyze"; "analysis"; "statistics"; "stats"; "summary";
    "count"; "sum"; "average"; "mean"; "median"; "max"; "min";
    "trend"; "pattern"; "correlation"; "distribution";
    "filter"; "sort"; "group"; "aggregate"; "pivot";
    "chart"; "graph"; "plot"; "visualization";
    "missing"; "null"; "duplicate"; "unique";
    "sales"; "revenue"; "product"; "customer"; "region" ].

(** \b(w1|...|wn)\b *)
Definition whole_word (ws : list string) : regex :=
  Cat WordB (Cat (words ws) WordB).

Definition programming_terms : list string :=
  [ "programming"; "code"; "software"; "development" ].

(** (?!.*data) *)
Definition no_data_ahead : regex := NegAhead (Cat DotStar (Lit "data")).

(** \b(programming|code|software|development)\b(?!.*data) *)
Definition programming_pattern : regex :=
  Cat (whole_word programming_terms) no_data_ahead.

Definition off_topic_patterns : list regex :=
  [ whole_word [ "weather"; "news"; "politics"; "sports"; "entertainment"; "movies"; "music" ];
    whole_word [ "recipe"; "cooking"; "food"; "restaurant" ];
    whole_word [ "travel"; "vacation"; "hotel"; "flight" ];
    whole_word [ "health"; "medical"; "doctor"; "medicine" ];
    programming_pattern;
    whole_word [ "personal"; "family"; "relationship"; "dating" ];
    whole_word [ "joke"; "funny"; "humor"; "meme" ] ].

Definition redirect_responses : list string :=
  [ "I'm here to help you analyze and understand your data files. Let's focus on the data you've loaded.";
    "I specialize in data analysis. Would you like to explore the information in your files instead?";
    "Let's keep our conversation focused on your data. What would you like to know about the loaded files?";
    "I'm designed to help with data analysis and file exploration. How can I assist you with your data?" ].

Definition no_data_responses : list string :=
  [ "I don't see any data files loaded yet. Would you like to load a file from the data folder?";
    "To get started, please load a data file using the 'load' command. I can then help you analyze it.";
    "No data files are currently loaded. Use 'files' to see available files or 'load <filename>' to load one." ].

(** [random.choice(pool)] with the draw [rnd]; an empty pool raises. *)
Definition random_choice (rnd : nat) (pool : list string) : result string :=
  match nth_error pool (rnd mod List.length pool) with
  | Some x => Ok x
  | None => Raise (mkExn IndexError "Cannot choose from an empty sequence")
  end.

(** [any(keyword in text for keyword in keywords)] *)
Definition any_keyword (keywords : list string) (text : string) : bool :=
  existsb (fun keyword => contains keyword text) keywords.

Definition bootstrap_keywords : list string := [ "load"; "file"; "data" ].

(** The loop over [off_topic_patterns] returns at the first pattern that
    [re.search] finds; every such return is the same statement. *)
Definition off_topic (text : string) : bool :=
  existsb (fun pattern => search pattern text) off_topic_patterns.

Definition non_empty {A : Type} (l : list A) : bool :=
  match l with [] => false | _ :: _ => true end.

Definition check_query_relevance (fp : FileProcessor.t) (rnd : nat) (user_input : string)
  : result (bool * option string) :=
  let user_input_lower := lower user_input in
  let loaded_files := FileProcessor.list_loaded_files fp in
  if negb (non_empty loaded_files) && negb (any_keyword bootstrap_keywords user_input_lower)
  then m <- random_choice rnd no_data_responses ;; Ok (false, Some m)
  else if off_topic user_input_lower
  then m <- random_choice rnd redirect_responses ;; Ok (false, Some m)
  else
    let has_data_keywords := any_keyword data_keywords user_input_lower in
    if has_data_keywords || non_empty loaded_files
    then Ok (true, None)
    else m <- random_choice rnd redirect_responses ;; Ok (false, Some m).

(** [sep.join(labels)]: a label that is not a string raises [TypeError]. *)
Fixpoint labels_text (i : nat) (ls : list FileProcessor.label) : result (list string) :=
  match ls with
  | [] => Ok []
  | FileProcessor.LStr s :: rest => tl <- labels_text (S i) rest ;; Ok (s :: tl)
  | FileProcessor.LOther ty :: _ =>
      Raise (mkExn TypeError
               ("sequence item " ++ of_nat i ++ ": expected str instance, " ++ ty ++ " found"))
  end.

Definition join_labels (sep : string) (ls : list FileProcessor.label) : result string :=
  parts <- labels_text 0 ls ;; Ok (join sep parts).

Definition times_sign : string := String (ascii_of_nat 215) "".

Definition system_context : string :=
  "You are a data analysis assistant. Your role is to help users understand and analyze their data files.".

Definition guidelines : list string :=
  [ nl ++ "Guidelines:";
    "- Focus only on data analysis, statistics, and insights from the loaded files";
    "- Provide specific, actionable insights about the data";
    "- If asked about non-data topics, politely redirect to data analysis";
    "- Use the actual column names and data when providing examples" ].

(** The lines added for the active file, when there is one and it is loaded. *)
Definition active_file_parts (fp : FileProcessor.t) : result (list string) :=
  match FileProcessor.get_current_context fp with
  | None => Ok []
  | Some current_file =>
      if truthy current_file then
        match FileProcessor.get_file_info fp current_file with
        | None => Ok []
        | Some file_info =>
            cols <- join_labels ", " (FileProcessor.fi_columns file_info) ;;
            Ok [ "Active file: " ++ current_file;
                 "Columns: " ++ cols;
                 "Shape: " ++ of_nat (fst (FileProcessor.fi_shape file_info)) ++ " rows "
                   ++ times_sign ++ " " ++ of_nat (snd (FileProcessor.fi_shape file_info))
                   ++ " columns" ]
        end
      else Ok []
  end.

Definition enhance_prompt_with_context (fp : FileProcessor.t) (user_input : string)
  : result string :=
  let loaded_files := FileProcessor.list_loaded_files fp in
  file_parts <-
    (if non_empty loaded_files
     then active <- active_file_parts fp ;;
          Ok ((nl ++ "Currently loaded files: " ++ join ", " loaded_files) :: active)
     else Ok []) ;;
  let question := nl ++ "User question: " ++ user_input in
  Ok (join nl (([system_context] ++ file_parts ++ guidelines ++ [question])%list)).

(* ---------- suggest_data_questions ---------- *)

(** [any(test(col.lower()) for col in columns)]: the columns are tried in
    order until one passes; a label that is not a string has no [lower]. *)
Fixpoint any_column (test : string -> bool) (columns : list FileProcessor.label)
  : result bool :=
  match columns with
  | [] => Ok false
  | FileProcessor.LStr col :: rest =>
      if test (lower col) then Ok true else any_column test rest
  | FileProcessor.LOther ty :: _ =>
      Raise (mkExn AttributeError ("'" ++ ty ++ "' object has no attribute 'lower'"))
  end.

Definition sales_like (col : string) : bool :=
  contains "sales" col || contains "amount" col || contains "revenue" col.

Definition date_like (col : string) : bool :=
  contains "date" col || contains "time" col.

Definition category_like (col : string) : bool :=
  contains "category" col || contains "type" col.

Definition no_file_suggestions : list string :=
  [ "Load a data file to get started";
    "Use 'files' to see available data files";
    "Try 'load sales_data.csv' to load the sample file" ].

Definition generic_suggestions (filename : string) : list string :=
  [ "What are the main insights from " ++ filename ++ "?";
    "Show me a summary of the data";
    "What columns have missing values?";
    "Describe the data distribution" ].

Definition sales_suggestions : list string :=
  [ "What are the total sales?";
    "Which products sell the most?";
    "Show sales trends over time" ].

(** The text an f-string gives for a label; [other_text] is what [str]
    gives for a label that is not a string, known by its type name only. *)
Definition label_text (other_text : string -> string) (l : FileProcessor.label) : string :=
  match l with
  | FileProcessor.LStr s => s
  | FileProcessor.LOther ty => other_text ty
  end.

Definition column_suggestion (other_text : string -> string)
           (columns : list FileProcessor.label) : list string :=
  match columns with
  | [] => []
  | first :: _ => [ "Tell me about the '" ++ label_text other_text first ++ "' column" ]
  end.

(** [filename] is the optional argument; [None] is its default. *)
Definition suggest_data_questions (other_text : string -> string) (fp : FileProcessor.t)
           (filename : option string) : result (list string) :=
  let filename :=
    match filename with
    | Some f => if truthy f then Some f else FileProcessor.get_current_context fp
    | None => FileProcessor.get_current_context fp
    end in
  match filename with
  | None => Ok no_file_suggestions
  | Some f =>
      if truthy f then
        match FileProcessor.get_file_info fp f with
        | None => Ok [ "File information not available" ]
        | Some file_info =>
            let columns := FileProcessor.fi_columns file_info in
            let suggestions :=
              (generic_suggestions f ++ column_suggestion other_text columns)%list in
            sales <- any_column sales_like columns ;;
            let suggestions :=
              if sales then (suggestions ++ sales_suggestions)%list else suggestions in
            dated <- any_column date_like columns ;;
            let suggestions :=
              if dated then append suggestions "Show me data trends over time"
              else suggestions in
            categorised <- any_column category_like columns ;;
            let suggestions :=
              if categorised then append suggestions "Break down the data by category"
              else suggestions in
            Ok (firstn 6 suggestions)
        end
      else Ok no_file_suggestions
  end.

(* ---------- is_data_command ---------- *)

Definition data_commands : list string :=
  [ "load"; "files"; "describe"; "summary"; "head"; "tail";
    "columns"; "info"; "stats"; "analyze" ].

(** [x in xs] for a list of strings *)
Definition str_in (x : string) (xs : list string) : bool :=
  existsb (String.eqb x) xs.

Definition is_data_command (user_input : string) : result bool :=
  match split (strip user_input) with
  | [] => Raise (mkExn IndexError "list index out of range")
  | first :: _ => let first_word := lower first in Ok (str_in first_word data_commands)
  end.

End DataGuardrails.

(* ================================================================= *)
(** ** [file_processor.py]: the methods that reach the disk and pandas *)

Module FileOps.
Import PyStr.

(** The value of a keyword argument: an [int], or an object of another
    type, known by the name of its type. *)
Inductive Arg : Type :=
| IntArg (z : Z)
| OtherArg (type_name : string).

(** The dict [**kwargs] collects, as its items in order. *)
Definition Kwargs : Type := list (string * Arg).

(** [kwargs.get(key, default)] *)
Fixpoint kwargs_get (key : string) (default : Arg) (kwargs : Kwargs) : Arg :=
  match kwargs with
  | [] => default
  | (k, v) :: rest => if String.eqb k key then v else kwargs_get key default rest
  end.

(** Passing [**kwargs] to a method whose parameters [params] are given by
    position: the first keyword that names one of them is refused (the
    text is that of CPython 3.10 and later). *)
Fixpoint bind_kwargs (method : string) (params : list string) (kwargs : Kwargs)
  : result unit :=
  match kwargs with
  | [] => Ok tt
  | (k, _) :: rest =>
      if DataGuardrails.str_in k params
      then Raise (mkExn TypeError
                    (method ++ "() got multiple values for argument '" ++ k ++ "'"))
      else bind_kwargs method params rest
  end.

(** What the disk and pandas answer.  [listing] is what [iterdir] yields
    for the data folder, each name with whether it is a regular file;
    [file_exists] is [Path.exists] on a name in the folder; the readers,
    the summary of a frame and its renderings either return or raise. *)
Record Disk : Type := mkDisk {
  make_folder : option exn;          (* [mkdir] of the data folder raises *)
  listing : list (string * bool);
  file_exists : string -> bool;
  read_csv : string -> result FileProcessor.DataFrame;
  read_excel : string -> result FileProcessor.DataFrame;
  file_summary : FileProcessor.DataFrame -> string -> result string;
  df_describe : FileProcessor.DataFrame -> result string;
  df_head : FileProcessor.DataFrame -> Arg -> result string;
  df_tail : FileProcessor.DataFrame -> Arg -> result string;
  df_info : FileProcessor.DataFrame -> result string
}.

(* ---------- __init__ ---------- *)

(** [FileProcessor()]: the folder is made if it is not there, nothing is
    loaded and no file is current. *)
Definition new (disk : Disk) : result FileProcessor.t :=
  match make_folder disk with
  | Some e => Raise e
  | None => Ok (FileProcessor.mkFileProcessor [] None)
  end.

(* ---------- scan_data_folder ---------- *)

Definition dot : ascii := "."%char.

(** The part of [s] from its last dot on, when it has one. *)
Fixpoint from_last_dot (s : string) : option string :=
  match s with
  | EmptyString => None
  | String c s' =>
      match from_last_dot s' with
      | Some x => Some x
      | None => if Ascii.eqb c dot then Some s else None
      end
  end.

(** [Path(name).suffix]: the name from its last dot on, unless that dot
    begins or ends the name. *)
Definition suffix (name : string) : string :=
  match name with
  | EmptyString => EmptyString
  | String _ rest =>
      match from_last_dot rest with
      | Some x => if (1 <? String.length x)%nat then x else EmptyString
      | None => EmptyString
      end
  end.

Definition supported_extensions : list string := [ ".csv"; ".xlsx"; ".xls" ].

Fixpoint insert_sorted (x : string) (xs : list string) : list string :=
  match xs with
  | [] => [x]
  | y :: rest => if String.leb x y then x :: xs else y :: insert_sorted x rest
  end.

(** [sorted(xs)] for strings, which compare by code point. *)
Fixpoint sorted (xs : list string) : list string :=
  match xs with
  | [] => []
  | x :: rest => insert_sorted x (sorted rest)
  end.

Definition scan_data_folder (disk : Disk) : list string :=
  let files :=
    map fst
      (filter (fun entry : string * bool =>
                 snd entry
                 && DataGuardrails.str_in (lower (suffix (fst entry))) supported_extensions)
              (listing disk)) in
  sorted files.

(* ---------- load_file ---------- *)

(** [d[key] = value] on a dict kept in insertion order. *)
Fixpoint store (key : string) (value : FileProcessor.DataFrame)
         (d : list (string * FileProcessor.DataFrame))
  : list (string * FileProcessor.DataFrame) :=
  match d with
  | [] => [(key, value)]
  | (k, v) :: rest =>
      if String.eqb k key then (key, value) :: rest else (k, v) :: store key value rest
  end.

(** What [load_file] returns: success, message, frame. *)
Definition Loaded : Type := (bool * string * option FileProcessor.DataFrame)%type.

Definition load_file (disk : Disk) (fp : FileProcessor.t) (filename : string)
  : Loaded * FileProcessor.t :=
  if negb (file_exists disk filename)
  then ((false, "File '" ++ filename ++ "' not found in data folder", None), fp)
  else
    let failed (e : exn) (fp' : FileProcessor.t) : Loaded * FileProcessor.t :=
      ((false, "Error loading file '" ++ filename ++ "': " ++ exn_str e, None), fp') in
    let stored (df : FileProcessor.DataFrame) : Loaded * FileProcessor.t :=
      let fp' := FileProcessor.mkFileProcessor
                   (store filename df (FileProcessor.loaded_files fp)) (Some filename) in
      match file_summary disk df filename with
      | Ok summary => ((true, summary, Some df), fp')
      | Raise e => failed e fp'
      end in
    if endswith ".csv" (lower filename) then
      match read_csv disk filename with
      | Ok df => stored df
      | Raise e => failed e fp
      end
    else if endswith ".xlsx" (lower filename) || endswith ".xls" (lower filename) then
      match read_excel disk filename with
      | Ok df => stored df
      | Raise e => failed e fp
      end
    else ((false, "Unsupported file format: " ++ filename, None), fp).

(* ---------- query_data ---------- *)

(** The body of the method, once its arguments are bound. *)
Definition run_query (disk : Disk) (fp : FileProcessor.t)
           (filename query_type : string) (kwargs : Kwargs) : option string :=
  match FileProcessor.lookup filename (FileProcessor.loaded_files fp) with
  | None => None
  | Some df =>
      let attempt : result (option string) :=
        if String.eqb query_type "describe" then
          text <- df_describe disk df ;; Ok (Some text)
        else if String.eqb query_type "head" then
          let n := kwargs_get "n" (IntArg 5) kwargs in
          text <- df_head disk df n ;; Ok (Some text)
        else if String.eqb query_type "tail" then
          let n := kwargs_get "n" (IntArg 5) kwargs in
          text <- df_tail disk df n ;; Ok (Some text)
        else if String.eqb query_type "info" then
          text <- df_info disk df ;; Ok (Some text)
        else if String.eqb query_type "columns" then
          names <- DataGuardrails.join_labels ", " (FileProcessor.columns df) ;;
          Ok (Some ("Columns: " ++ names))
        else if String.eqb query_type "shape" then
          Ok (Some ("Shape: " ++ of_nat (fst (FileProcessor.shape df)) ++ " rows x "
                      ++ of_nat (snd (FileProcessor.shape df)) ++ " columns"))
        else Ok None in
      match attempt with
      | Ok answer => answer
      | Raise e => Some ("Error executing query: " ++ exn_str e)
      end
  end.

(** [query_data(filename, query_type, **kwargs)]: the call raises when a
    keyword names a parameter that is already given. *)
Definition query_data (disk : Disk) (fp : FileProcessor.t)
           (filename query_type : string) (kwargs : Kwargs) : result (option string) :=
  _ <- bind_kwargs "FileProcessor.query_data" [ "self"; "filename"; "query_type" ] kwargs ;;
  Ok (run_query disk fp filename query_type kwargs).

End FileOps.


(* ================================================================= *)
(** ** Stateful code: a state threaded through fallible steps *)

(** A computation reads and updates a state [S] and either returns or
    raises; the state reached when it raises is kept, as the mutations a
    Python block made before raising are. *)
Definition M (S A : Type) : Type := S -> result A * S.

Definition ret {S A : Type} (a : A) : M S A := fun s => (Ok a, s).

Definition raise {S A : Type} (e : exn) : M S A := fun s => (Raise e, s).

Definition mbind {S A B : Type} (m : M S A) (f : A -> M S B) : M S B :=
  fun s => match m s with
           | (Ok a, s') => f a s'
           | (Raise e, s') => (Raise e, s')
           end.

Notation "x <~ m ;; k" := (mbind m (fun x => k))
  (at level 61, m at next level, right associativity).
Notation "m >> k" := (mbind m (fun _ => k))
  (at level 61, right associativity).

(** [try: m except Exception as e: h e] *)
Definition catch {S A : Type} (m : M S A) (h : exn -> M S A) : M S A :=
  fun s => match m s with
           | (Ok a, s') => (Ok a, s')
           | (Raise e, s') => h e s'
           end.

Definition get {S : Type} : M S S := fun s => (Ok s, s).
Definition modify {S : Type} (f : S -> S) : M S unit := fun s => (Ok tt, f s).

(** A pure fallible step inside a stateful computation. *)
Definition lift {S A : Type} (r : result A) : M S A := fun s => (r, s).

(** Run a computation on a part of the state. *)
Definition zoom {S T A : Type} (proj : S -> T) (inj : T -> S -> S) (m : M T A) : M S A :=
  fun s => let (r, t') := m (proj s) in (r, inj t' s).

(* ================================================================= *)
(** ** [config.py] *)

Inductive AIProvider : Type := GEMINI | OPENAI | ANTHROPIC | OLLAMA.

Module AIProviderEnum.

(** [provider.value] *)
Definition value (p : AIProvider) : string :=
  match p with
  | GEMINI => "gemini"
  | OPENAI => "openai"
  | ANTHROPIC => "anthropic"
  | OLLAMA => "ollama"
  end.

(** [str(provider)] *)
Definition str (p : AIProvider) : string :=
  match p with
  | GEMINI => "AIProvider.GEMINI"
  | OPENAI => "AIProvider.OPENAI"
  | ANTHROPIC => "AIProvider.ANTHROPIC"
  | OLLAMA => "AIProvider.OLLAMA"
  end.

(** [repr(provider)], the text of a [KeyError] on it *)
Definition repr (p : AIProvider) : string :=
  "<" ++ str p ++ ": '" ++ value p ++ "'>".

Definition eqb (p q : AIProvider) : bool :=
  match p, q with
  | GEMINI, GEMINI | OPENAI, OPENAI | ANTHROPIC, ANTHROPIC | OLLAMA, OLLAMA => true
  | _, _ => false
  end.

(** [AIProvider(text)]: the member with that value. *)
Definition of_value (text : string) : result AIProvider :=
  if String.eqb text "gemini" then Ok GEMINI
  else if String.eqb text "openai" then Ok OPENAI
  else if String.eqb text "anthropic" then Ok ANTHROPIC
  else if String.eqb text "ollama" then Ok OLLAMA
  else Raise (mkExn ValueError ("'" ++ text ++ "' is not a valid AIProvider")).

End AIProviderEnum.

(** The temperature is a decimal fraction; it is only stored and passed on. *)
Record ModelConfig : Type := mkModelConfig {
  provider : AIProvider;
  model_name : string;
  api_key : option string;
  base_url : option string;
  max_tokens : option Z;
  temperature : Q;
  additional_params : list (string * string)
}.

Module Config.

Definition API_KEYS (p : AIProvider) : option string :=
  match p with
  | GEMINI => Some "your-gemini-api-key-here"
  | OPENAI => Some "your-openai-api-key-here"
  | ANTHROPIC => Some "your-anthropic-api-key-here"
  | OLLAMA => None
  end.

(** The class attributes that change at run time: the active model and
    the dict of model configurations. *)
Record t : Type := mkConfig {
  ACTIVE_MODEL : AIProvider;
  MODEL_CONFIGS : list (AIProvider * ModelConfig)
}.

Definition default_temperature : Q := (7 # 10)%Q.

Definition initial : t :=
  mkConfig OPENAI
    [ (GEMINI, mkModelConfig GEMINI "gemini-pro" (API_KEYS GEMINI) None
                 (Some 2048%Z) default_temperature []);
      (OPENAI, mkModelConfig OPENAI "gpt-3.5-turbo" (API_KEYS OPENAI) None
                 (Some 2048%Z) default_temperature []);
      (ANTHROPIC, mkModelConfig ANTHROPIC "claude-3-sonnet-20240229" (API_KEYS ANTHROPIC) None
                    (Some 2048%Z) default_temperature []);
      (OLLAMA, mkModelConfig OLLAMA "llama2" None (Some "http://localhost:11434")
                 (Some 2048%Z) default_temperature []) ].

Fixpoint lookup (p : AIProvider) (d : list (AIProvider * ModelConfig)) : option ModelConfig :=
  match d with
  | [] => None
  | (k, v) :: rest => if AIProviderEnum.eqb k p then Some v else lookup p rest
  end.

(** [cls.MODEL_CONFIGS[cls.ACTIVE_MODEL]] *)
Definition get_active_config : M t ModelConfig :=
  cls <~ get ;;
  match lookup (ACTIVE_MODEL cls) (MODEL_CONFIGS cls) with
  | Some c => ret c
  | None => raise (mkExn KeyError (AIProviderEnum.repr (ACTIVE_MODEL cls)))
  end.

Definition switch_model (p : AIProvider) : M t unit :=
  cls <~ get ;;
  match lookup p (MODEL_CONFIGS cls) with
  | None => raise (mkExn ValueError ("Unsupported AI provider: " ++ AIProviderEnum.str p))
  | Some _ => modify (fun cls => mkConfig p (MODEL_CONFIGS cls))
  end.

End Config.

(* ================================================================= *)
(** ** The world outside the process *)

Record Message : Type := mkMessage { role : string; content : string }.

(** A request that leaves the process. *)
Inductive Request : Type :=
| GenerateContent (model : string) (full_prompt : string)
| ChatCompletion (model : string) (messages : list Message)
                 (max_tok : option Z) (temp : Q)
| MessagesCreate (model : string) (max_tok : option Z) (temp : Q)
                 (messages : list Message)
| HttpGet (url : string)
| HttpPost (url : string) (model : string) (prompt : string)
           (temp : Q) (num_predict : option Z).

(** What comes back: the call raises; a Gemini response, whose [text]
    accessor may itself raise; the contents of the choices of a chat
    completion, or of the content blocks of an Anthropic message, each a
    [str] or [None] (the SDK declares [message.content] optional); an HTTP
    response with its status code and what [json()] gives, reduced to the
    entry under the key "response": no such entry, or its value, a [str]
    or [None] (a JSON null). *)
Inductive Outcome : Type :=
| Raises (e : exn)
| Text (t : result string)
| Choices (texts : list (option string))
| Http (status_code : Z) (json : result (option (option string))).

Record Env : Type := mkEnv {
  importable : AIProvider -> bool;          (* the provider's package imports *)
  client_setup : AIProvider -> option exn;  (* the SDK client constructor raises *)
  backend : Request -> Outcome
}.

(** [generate_calls] is a spy on the adapters: the number of times a
    [generate_response] method has been entered. *)
Record World : Type := mkWorld {
  trace : list Request;      (* requests sent so far, oldest first *)
  console : list string;     (* lines printed so far, oldest first *)
  generate_calls : nat
}.

Definition print {S : Type} (on : (World -> World) -> S -> S) (line : string) : M S unit :=
  modify (on (fun w => mkWorld (trace w) (PyStr.append (console w) line) (generate_calls w))).

(* ================================================================= *)
(** ** [ai_providers.py] *)

Module Providers.
Import PyStr.

(** An adapter object.  [kind] is its class; [handle] tells whether
    [self.model] (Gemini) or [self.client] (OpenAI, Anthropic) has been
    set by [initialize]; [url] is [self.base_url] of the Ollama class. *)
Record Adapter : Type := mkAdapter {
  kind : AIProvider;
  config : ModelConfig;
  conversation_history : list string;
  handle : bool;
  url : string
}.

(** The state a method of an adapter runs in: the object and the world. *)
Definition PState : Type := (Adapter * World)%type.

Definition self : M PState Adapter := fun s => (Ok (fst s), s).

Definition set_history (h : list string) : M PState unit :=
  modify (fun s : PState =>
            let a := fst s in
            (mkAdapter (kind a) (config a) h (handle a) (url a), snd s)).

Definition set_handle : M PState unit :=
  modify (fun s : PState =>
            let a := fst s in
            (mkAdapter (kind a) (config a) (conversation_history a) true (url a), snd s)).

(** Send a request: it is recorded, and the environment answers. *)
Definition send (env : Env) (req : Request) : M PState Outcome :=
  fun s => (Ok (backend env req),
            (fst s, mkWorld (PyStr.append (trace (snd s)) req) (console (snd s))
                          (generate_calls (snd s)))).

(** A call into a library: an outcome [Raises e] is the call raising [e]. *)
Definition call (env : Env) (req : Request) : M PState Outcome :=
  o <~ send env req ;;
  match o with
  | Raises e => raise e
  | _ => ret o
  end.

(* ---------- BaseAIProvider ---------- *)

Definition default_url : string := "http://localhost:11434".

(** [__init__] of the class [k]; the Ollama class also sets [base_url]. *)
Definition new (k : AIProvider) (c : ModelConfig) : Adapter :=
  mkAdapter k c [] false
    (match k with
     | OLLAMA => match base_url c with
                 | Some u => if truthy u then u else default_url
                 | None => default_url
                 end
     | _ => ""
     end).

(** [ai_response] is whatever the backend handed over, a [str] or [None];
    the f-string takes its text. *)
Definition add_to_history (user_input : string) (ai_response : option string)
  : M PState unit :=
  a <~ self ;;
  set_history (append (conversation_history a) ("User: " ++ user_input)) >>
  a <~ self ;;
  set_history (append (conversation_history a) ("Assistant: " ++ str_of ai_response)).

Definition clear_history : M PState unit := set_history [].

Definition get_history : M PState (list string) :=
  a <~ self ;; ret (conversation_history a).

Definition get_context (limit : nat) : M PState string :=
  a <~ self ;;
  ret (match conversation_history a with
       | [] => ""
       | _ :: _ => join nl (last_n limit (conversation_history a))
       end).

(** The prompt of the completion-style providers. *)
Definition with_context (context prompt : string) : string :=
  if truthy context
  then "Previous conversation:" ++ nl ++ context ++ nl ++ nl
       ++ "Current user input: " ++ prompt ++ nl ++ nl
       ++ "Please respond naturally and helpfully:"
  else prompt.

Definition apology (who : string) (e : exn) : string :=
  let error_msg := "Error with " ++ who ++ ": " ++ exn_str e in
  "I'm sorry, I encountered an error: " ++ error_msg.

(** Using [self.model] or [self.client] while it is still [None]. *)
Definition require_handle (attr : string) : M PState unit :=
  a <~ self ;;
  if handle a then ret tt
  else raise (mkExn AttributeError
                ("'NoneType' object has no attribute '" ++ attr ++ "'")).

Definition unexpected_shape {A : Type} (attr : string) : M PState A :=
  raise (mkExn AttributeError ("response object has no attribute '" ++ attr ++ "'")).

(** [xs[0]] *)
Definition first_item (xs : list (option string)) : M PState (option string) :=
  match xs with
  | x :: _ => ret x
  | [] => raise (mkExn IndexError "list index out of range")
  end.

Definition truthy_opt (o : option string) : bool :=
  match o with Some s => truthy s | None => false end.

Definition is_import_error (e : exn) : bool :=
  match exn_kind e with ImportError => true | _ => false end.

(** [import <package of k>] *)
Definition import (env : Env) (k : AIProvider) (package : string) : M PState unit :=
  if importable env k then ret tt
  else raise (mkExn ImportError ("No module named '" ++ package ++ "'")).

(** Construction of the SDK model or client object. *)
Definition setup_client (env : Env) (k : AIProvider) : M PState unit :=
  match client_setup env k with
  | Some e => raise e
  | None => set_handle
  end.

(** [except ImportError: raise ImportError(msg)] *)
Definition reraise_import (msg : string) (e : exn) : M PState unit :=
  if is_import_error e then raise (mkExn ImportError msg) else raise e.

(** [initialize] of the three SDK-backed classes. *)
Definition initialize_sdk (env : Env) (k : AIProvider)
           (package key_error import_error : string) : M PState unit :=
  catch
    (import env k package >>
     a <~ self ;;
     (if truthy_opt (api_key (config a)) then ret tt
      else raise (mkExn ValueError key_error)) >>
     setup_client env k)
    (reraise_import import_error).

Definition http_status (o : Outcome) : M PState Z :=
  match o with
  | Http status_code _ => ret status_code
  | _ => unexpected_shape "status_code"
  end.

Definition initialize_ollama (env : Env) : M PState unit :=
  catch
    (import env OLLAMA "requests" >>
     a <~ self ;;
     response <~ call env (HttpGet (url a ++ "/api/tags")) ;;
     status_code <~ http_status response ;;
     if (status_code =? 200)%Z then ret tt
     else raise (mkExn ConnectionError "Cannot connect to Ollama server"))
    (fun e =>
       if is_import_error e
       then raise (mkExn ImportError "requests package is required for Ollama provider")
       else raise (mkExn ConnectionError ("Failed to connect to Ollama: " ++ exn_str e))).

Definition initialize (env : Env) : M PState unit :=
  a <~ self ;;
  match kind a with
  | GEMINI => initialize_sdk env GEMINI "google.generativeai"
                "Gemini API key is required"
                "google-generativeai package is required for Gemini provider"
  | OPENAI => initialize_sdk env OPENAI "openai"
                "OpenAI API key is required"
                "openai package is required for OpenAI provider"
  | ANTHROPIC => initialize_sdk env ANTHROPIC "anthropic"
                   "Anthropic API key is required"
                   "anthropic package is required for Anthropic provider"
  | OLLAMA => initialize_ollama env
  end.

(* ---------- GeminiProvider ---------- *)

Definition response_text (o : Outcome) : M PState string :=
  match o with
  | Text t => lift t
  | _ => unexpected_shape "text"
  end.

Definition no_response : string := "I'm sorry, I couldn't generate a response.".

(** The [try] block of [GeminiProvider.generate_response].  What a
    [generate_response] method returns is a [str] or [None]. *)
Definition generate_try_gemini (env : Env) (prompt : string) : M PState (option string) :=
  context <~ get_context 20 ;;
  let full_prompt := with_context context prompt in
  require_handle "generate_content" >>
  a <~ self ;;
  response <~ call env (GenerateContent (model_name (config a)) full_prompt) ;;
  text <~ response_text response ;;
  let ai_response := if truthy text then text else no_response in
  add_to_history prompt (Some ai_response) >>
  ret (Some ai_response).

Definition generate_response_gemini (env : Env) (prompt : string)
  : M PState (option string) :=
  catch (generate_try_gemini env prompt) (fun e => ret (Some (apology "Gemini" e))).

(* ---------- OpenAIProvider ---------- *)

(** [range(0, n, 2)] *)
Definition range_step2 (n : nat) : list nat :=
  map (fun j => 2 * j) (seq 0 (Nat.div2 (n + 1))).

(** [h[i]] *)
Definition item (h : list string) (i : nat) : result string :=
  match nth_error h i with
  | Some x => Ok x
  | None => Raise (mkExn IndexError "list index out of range")
  end.

(** The body of the loop over the stored history, run for the indices
    [is] on the messages built so far. *)
Fixpoint replay (h : list string) (indices : list nat) (messages : list Message)
  : result (list Message) :=
  match indices with
  | [] => Ok messages
  | i :: rest =>
      if (i + 1 <? List.length h)%nat then
        hi <- item h i ;;
        let user_msg := remove_all "User: " hi in
        hi1 <- item h (i + 1) ;;
        let assistant_msg := remove_all "Assistant: " hi1 in
        replay h rest
          (append (append messages (mkMessage "user" user_msg))
                  (mkMessage "assistant" assistant_msg))
      else replay h rest messages
  end.

Definition system_message : Message :=
  mkMessage "system" "You are a helpful AI assistant.".

(** The message list sent to the chat API. *)
Definition build_messages (h : list string) (prompt : string) : result (list Message) :=
  messages <- replay h (range_step2 (List.length h)) [system_message] ;;
  Ok (append messages (mkMessage "user" prompt)).

Definition choices (attr : string) (o : Outcome) : M PState (list (option string)) :=
  match o with
  | Choices texts => ret texts
  | _ => unexpected_shape attr
  end.

(** The [try] block of [OpenAIProvider.generate_response]. *)
Definition generate_try_openai (env : Env) (prompt : string) : M PState (option string) :=
  a <~ self ;;
  messages <~ lift (build_messages (conversation_history a) prompt) ;;
  require_handle "chat" >>
  response <~ call env (ChatCompletion (model_name (config a)) messages
                          (max_tokens (config a)) (temperature (config a))) ;;
  texts <~ choices "choices" response ;;
  ai_response <~ first_item texts ;;
  add_to_history prompt ai_response >>
  ret ai_response.

Definition generate_response_openai (env : Env) (prompt : string)
  : M PState (option string) :=
  catch (generate_try_openai env prompt) (fun e => ret (Some (apology "OpenAI" e))).

(* ---------- AnthropicProvider ---------- *)

(** The [try] block of [AnthropicProvider.generate_response]. *)
Definition generate_try_anthropic (env : Env) (prompt : string)
  : M PState (option string) :=
  context <~ get_context 20 ;;
  let full_prompt := with_context context prompt in
  require_handle "messages" >>
  a <~ self ;;
  response <~ call env (MessagesCreate (model_name (config a)) (max_tokens (config a))
                          (temperature (config a)) [mkMessage "user" full_prompt]) ;;
  texts <~ choices "content" response ;;
  ai_response <~ first_item texts ;;
  add_to_history prompt ai_response >>
  ret ai_response.

Definition generate_response_anthropic (env : Env) (prompt : string)
  : M PState (option string) :=
  catch (generate_try_anthropic env prompt) (fun e => ret (Some (apology "Anthropic" e))).

(* ---------- OllamaProvider ---------- *)

Definition status_error (status_code : Z) : string :=
  "Error: Ollama server returned status " ++ of_Z status_code.

(** [response.json()] *)
Definition response_json (o : Outcome) : M PState (option (option string)) :=
  match o with
  | Http _ json => lift json
  | _ => unexpected_shape "json"
  end.

(** [result.get("response", "No response generated")] *)
Definition response_entry (result : option (option string)) : option string :=
  match result with
  | Some r => r
  | None => Some "No response generated"
  end.

(** The [try] block of [OllamaProvider.generate_response]. *)
Definition generate_try_ollama (env : Env) (prompt : string) : M PState (option string) :=
  import env OLLAMA "requests" >>
  context <~ get_context 20 ;;
  let full_prompt := with_context context prompt in
  a <~ self ;;
  response <~ call env (HttpPost (url a ++ "/api/generate") (model_name (config a))
                          full_prompt (temperature (config a)) (max_tokens (config a))) ;;
  status_code <~ http_status response ;;
  if (status_code =? 200)%Z then
    result <~ response_json response ;;
    let ai_response := response_entry result in
    add_to_history prompt ai_response >>
    ret ai_response
  else ret (Some (status_error status_code)).

Definition generate_response_ollama (env : Env) (prompt : string)
  : M PState (option string) :=
  catch (generate_try_ollama env prompt) (fun e => ret (Some (apology "Ollama" e))).

(** The name each class gives itself in its error text. *)
Definition who (k : AIProvider) : string :=
  match k with
  | GEMINI => "Gemini"
  | OPENAI => "OpenAI"
  | ANTHROPIC => "Anthropic"
  | OLLAMA => "Ollama"
  end.

(** The [try] block of the method of the object's class. *)
Definition generate_try (env : Env) (prompt : string) : M PState (option string) :=
  a <~ self ;;
  match kind a with
  | GEMINI => generate_try_gemini env prompt
  | OPENAI => generate_try_openai env prompt
  | ANTHROPIC => generate_try_anthropic env prompt
  | OLLAMA => generate_try_ollama env prompt
  end.

(** The spy counts one more entry. *)
Definition entered (w : World) : World :=
  mkWorld (trace w) (console w) (S (generate_calls w)).

Definition enter : M PState unit :=
  modify (fun s : PState => (fst s, entered (snd s))).

(** The method of the object's class. *)
Definition generate_response (env : Env) (prompt : string) : M PState (option string) :=
  enter >>
  a <~ self ;;
  match kind a with
  | GEMINI => generate_response_gemini env prompt
  | OPENAI => generate_response_openai env prompt
  | ANTHROPIC => generate_response_anthropic env prompt
  | OLLAMA => generate_response_ollama env prompt
  end.

(* ---------- AIProviderFactory ---------- *)

Definition _providers : list AIProvider := [GEMINI; OPENAI; ANTHROPIC; OLLAMA].

Definition create_provider (env : Env) (c : ModelConfig) : M World Adapter :=
  if existsb (AIProviderEnum.eqb (provider c)) _providers then
    fun w =>
      match initialize env (new (provider c) c, w) with
      | (Ok _, (p, w')) => (Ok p, w')
      | (Raise e, (_, w')) => (Raise e, w')
      end
  else raise (mkExn ValueError
                ("Unsupported AI provider: " ++ AIProviderEnum.str (provider c))).

End Providers.

(* ================================================================= *)
(** ** [brain.py] *)

Module Brain.
Import PyStr.

Record t : Type := mkBrain {
  config : ModelConfig;
  ai_provider : Providers.Adapter;
  file_processor : FileProcessor.t    (* shared with [self.guardrails] *)
}.

(** Everything a method of the orchestrator can read or change: the
    object, the class attributes of [Config], and the world. *)
Record Machine : Type := mkMachine {
  brain : t;
  Config_class : Config.t;
  world : World
}.

Definition on_world (f : World -> World) (m : Machine) : Machine :=
  mkMachine (brain m) (Config_class m) (f (world m)).

Definition in_config {A : Type} : M Config.t A -> M Machine A :=
  zoom Config_class (fun c m => mkMachine (brain m) c (world m)).

Definition in_world {A : Type} : M World A -> M Machine A :=
  zoom world (fun w m => mkMachine (brain m) (Config_class m) w).

(** A method call on [self.ai_provider]. *)
Definition in_provider {A : Type} : M Providers.PState A -> M Machine A :=
  zoom (fun m => (ai_provider (brain m), world m))
       (fun s m => mkMachine (mkBrain (config (brain m)) (fst s) (file_processor (brain m)))
                             (Config_class m) (snd s)).

Definition set_config (c : ModelConfig) : M Machine unit :=
  modify (fun m => mkMachine (mkBrain c (ai_provider (brain m)) (file_processor (brain m)))
                             (Config_class m) (world m)).

Definition set_ai_provider (p : Providers.Adapter) : M Machine unit :=
  modify (fun m => mkMachine (mkBrain (config (brain m)) p (file_processor (brain m)))
                             (Config_class m) (world m)).

Definition sorry : string :=
  "I'm sorry, I encountered an error while processing your request. Please try again.".

(** The [try] block of [think]; [rnd] is the draw [random.choice] makes
    if it is reached.  What [think] returns is a [str], or the [None] the
    adapter has returned. *)
Definition think_try (env : Env) (rnd : nat) (user_prompt : string)
  : M Machine (option string) :=
  m <~ get ;;
  decision <~ lift (DataGuardrails.check_query_relevance
                      (file_processor (brain m)) rnd user_prompt) ;;
  let (is_relevant, redirect_message) := decision : bool * option string in
  let answer : M Machine (option string) :=
    enhanced_prompt <~ lift (DataGuardrails.enhance_prompt_with_context
                               (file_processor (brain m)) user_prompt) ;;
    in_provider (Providers.generate_response env enhanced_prompt) in
  match redirect_message with
  | Some text => if negb is_relevant && truthy text then ret (Some text) else answer
  | None => answer
  end.

Definition think (env : Env) (rnd : nat) (user_prompt : string)
  : M Machine (option string) :=
  catch (think_try env rnd user_prompt)
    (fun e =>
       m <~ get ;;
       let error_message := "Error processing prompt with "
                            ++ AIProviderEnum.value (provider (config (brain m)))
                            ++ ": " ++ exn_str e in
       print on_world ("Brain error: " ++ error_message) >>
       ret (Some sorry)).

Definition clear_history : M Machine unit := in_provider Providers.clear_history.

Definition get_history : M Machine (list string) := in_provider Providers.get_history.

Definition switch_model (env : Env) (p : AIProvider) : M Machine string :=
  catch
    (in_config (Config.switch_model p) >>
     c <~ in_config Config.get_active_config ;;
     set_config c >>
     new_provider <~ in_world (Providers.create_provider env c) ;;
     set_ai_provider new_provider >>
     ret ("Switched to " ++ AIProviderEnum.value p ++ " model: " ++ model_name c))
    (fun e => ret ("Failed to switch to " ++ AIProviderEnum.value p ++ ": " ++ exn_str e)).

Record ModelInfo : Type := mkModelInfo {
  info_provider : string;
  info_model_name : string;
  info_temperature : Q;
  info_max_tokens : option Z
}.

Definition get_current_model_info : M Machine ModelInfo :=
  m <~ get ;;
  let c := config (brain m) in
  ret (mkModelInfo (AIProviderEnum.value (provider c)) (model_name c)
                   (temperature c) (max_tokens c)).

(* ---------- the methods that pass to the file processor ---------- *)

Definition set_file_processor (fp : FileProcessor.t) : M Machine unit :=
  modify (fun m => mkMachine (mkBrain (config (brain m)) (ai_provider (brain m)) fp)
                             (Config_class m) (world m)).

Definition load_data_file (disk : FileOps.Disk) (filename : string)
  : M Machine (bool * string) :=
  m <~ get ;;
  let (loaded, fp) := FileOps.load_file disk (file_processor (brain m)) filename in
  let '(success, message, df) := loaded in
  set_file_processor fp >>
  ret (success, message).

Definition get_available_files (disk : FileOps.Disk) : M Machine (list string) :=
  ret (FileOps.scan_data_folder disk).

Definition get_loaded_files : M Machine (list string) :=
  m <~ get ;;
  ret (FileProcessor.list_loaded_files (file_processor (brain m))).

Definition no_file_loaded : string :=
  "No data file is currently loaded. Use 'load <filename>' to load a file first.".

(** [query_data(query_type, **kwargs)]: the call raises when a keyword
    names a parameter that is already given; the keywords are passed on
    to the file processor, outside any [try]. *)
Definition query_data (disk : FileOps.Disk) (query_type : string)
           (kwargs : FileOps.Kwargs) : M Machine string :=
  lift (FileOps.bind_kwargs "Brain.query_data" [ "self"; "query_type" ] kwargs) >>
  m <~ get ;;
  let unable := "Unable to execute query: " ++ query_type in
  match FileProcessor.get_current_context (file_processor (brain m)) with
  | None => ret no_file_loaded
  | Some current_file =>
      if truthy current_file then
        result <~ lift (FileOps.query_data disk (file_processor (brain m)) current_file
                          query_type kwargs) ;;
        match result with
        | Some text => ret (if truthy text then text else unable)
        | None => ret unable
        end
      else ret no_file_loaded
  end.

Definition get_data_suggestions (other_text : string -> string)
  : M Machine (list string) :=
  m <~ get ;;
  lift (DataGuardrails.suggest_data_questions other_text (file_processor (brain m)) None).

(* ---------- __init__ ---------- *)

(** [Brain()], on the class attributes of [Config] and the world it is
    built in. *)
Definition new (env : Env) (disk : FileOps.Disk) : M (Config.t * World) t :=
  c <~ zoom fst (fun cls s => (cls, snd s)) Config.get_active_config ;;
  p <~ catch (zoom snd (fun w s => (fst s, w)) (Providers.create_provider env c))
         (fun e => raise (mkExn RuntimeError
                            ("Failed to initialize AI provider ("
                             ++ AIProviderEnum.value (provider c) ++ "): " ++ exn_str e))) ;;
  fp <~ lift (FileOps.new disk) ;;
  ret (mkBrain c p fp).

End Brain.

(* ================================================================= *)
(** ** [read.py] *)

Module Reader.
Import PyStr.

Record t : Type := mkReader { input_history : list string }.

(** What a call of [input()] meets: a line typed, given without its line
    end, the end of the input, or an interrupt from the keyboard. *)
Inductive Typed : Type :=
| Line (text : string)
| EndOfInput
| Interrupt.

(** How a call that does not raise ends: it returns, or [sys.exit] ends
    the process with a status. *)
Inductive Ending (A : Type) : Type :=
| Returns (a : A)
| Exits (status : Z).

Arguments Returns {A} a.
Arguments Exits {A} status.

Definition new : t := mkReader [].

Definition on_world (f : World -> World) (s : t * World) : t * World := (fst s, f (snd s)).

Definition on_self (f : t -> t) (s : t * World) : t * World := (f (fst s), snd s).

Definition get_user_input (typed : Typed) : M (t * World) (Ending string) :=
  match typed with
  | Line text =>
      let user_input := strip text in
      (if truthy user_input
       then modify (on_self (fun r => mkReader (append (input_history r) user_input)))
       else ret tt) >>
      ret (Returns user_input)
  | Interrupt => print on_world (nl ++ "Goodbye!") >> ret (Exits 0%Z)
  | EndOfInput => print on_world (nl ++ "Input ended.") >> ret (Returns "")
  end.

Definition get_input_history : M (t * World) (list string) :=
  s <~ get ;; ret (input_history (fst s)).

Definition clear_history : M (t * World) unit := modify (on_self (fun _ => mkReader [])).

Definition dangerous_patterns : list string :=
  [ "<script>"; "javascript:"; "eval("; "exec(" ].

Definition validate_input (user_input : string) : bool :=
  if negb (truthy user_input) || negb (truthy (strip user_input)) then false
  else
    let user_input_lower := lower user_input in
    negb (existsb (fun pattern => contains pattern user_input_lower) dangerous_patterns).

(** The command type [get_command_input] gives an input that is not
    empty. *)
Definition command_type (user_input : string) : string :=
  let l := lower user_input in
  if DataGuardrails.str_in l [ "quit"; "exit"; "bye"; "goodbye" ] then "quit"
  else if DataGuardrails.str_in l [ "clear"; "reset" ] then "clear"
  else if DataGuardrails.str_in l [ "history"; "show history" ] then "history"
  else if DataGuardrails.str_in l [ "help"; "?" ] then "help"
  else if startswith "model" l then "model"
  else if startswith "load " l then "load"
  else if DataGuardrails.str_in l [ "files"; "list files" ] then "files"
  else if DataGuardrails.str_in l [ "describe"; "summary"; "info" ] then "data_query"
  else if startswith "head" l || startswith "tail" l || startswith "columns" l
       then "data_query"
  else if DataGuardrails.str_in l [ "suggestions"; "suggest" ] then "suggestions"
  else "normal".

Definition get_command_input (typed : Typed) : M (t * World) (Ending (string * string)) :=
  got <~ get_user_input typed ;;
  match got with
  | Exits status => ret (Exits status)
  | Returns user_input =>
      if negb (truthy user_input) then ret (Returns ("empty", ""))
      else ret (Returns (command_type user_input, user_input))
  end.

End Reader.

(* ================================================================= *)
(** ** [voice.py], as [main.py] uses it *)

Module Voice.

(** The calls the chatbot makes on its voice.  What each prints, with
    what delays and line wrapping, is the business of [voice.py] and is
    not modelled: a call is recorded with its argument. *)
Inductive call : Type :=
| speak (message : string)
| speak_multiline (message : string)
| speak_error (error_message : string)
| speak_info (info_message : string)
| speak_success (success_message : string)
| show_thinking (duration : Z)
| display_welcome
| display_help
| clear_history.

End Voice.

(* ================================================================= *)
(** ** [main.py] *)

Module Phara.
Import PyStr.
Import Reader.

(** The chatbot object, with the process it runs in. *)
Record t : Type := mkPhara {
  machine : Brain.Machine;   (* [self.brain], the [Config] class and the world *)
  reader : Reader.t;
  voice : list Voice.call;   (* the calls on [self.voice] so far, oldest first *)
  running : bool
}.

Definition in_machine {A : Type} : M Brain.Machine A -> M t A :=
  zoom machine (fun m s => mkPhara m (reader s) (voice s) (running s)).

Definition in_reader {A : Type} : M (Reader.t * World) A -> M t A :=
  zoom (fun s => (reader s, Brain.world (machine s)))
       (fun rw s => mkPhara (Brain.mkMachine (Brain.brain (machine s))
                                             (Brain.Config_class (machine s)) (snd rw))
                            (fst rw) (voice s) (running s)).

Definition on_world (f : World -> World) (s : t) : t :=
  mkPhara (Brain.on_world f (machine s)) (reader s) (voice s) (running s).

(** A call on [self.voice]. *)
Definition say (c : Voice.call) : M t unit :=
  modify (fun s => mkPhara (machine s) (reader s) (append (voice s) c) (running s)).

Definition set_running (b : bool) : M t unit :=
  modify (fun s => mkPhara (machine s) (reader s) (voice s) b).

(** [for x in xs: f x] *)
Fixpoint each {A : Type} (f : A -> M t unit) (xs : list A) : M t unit :=
  match xs with
  | [] => ret tt
  | x :: rest => f x >> each f rest
  end.

(** [for i, x in enumerate(xs, i): f i x] *)
Fixpoint each_numbered {A : Type} (f : nat -> A -> M t unit) (i : nat) (xs : list A)
  : M t unit :=
  match xs with
  | [] => ret tt
  | x :: rest => f i x >> each_numbered f (S i) rest
  end.

Definition available_providers : string :=
  "Available providers: gemini, openai, anthropic, ollama".

Section Handlers.

Variable env : Env.
Variable disk : FileOps.Disk.
(** The text [str] gives a column label that is not a string, and the text
    an f-string gives a float. *)
Variable other_text : string -> string.
Variable float_text : Q -> string.

Definition handle_normal_input (rnd : nat) (user_input : string) : M t unit :=
  if negb (validate_input user_input)
  then say (Voice.speak_error "Invalid input. Please try again.")
  else
    say (Voice.show_thinking 1) >>
    catch
      (response <~ in_machine (Brain.think env rnd user_input) ;;
       match response with
       | None => raise (mkExn TypeError "object of type 'NoneType' has no len()")
       | Some text =>
           if (100 <? String.length text)%nat
           then say (Voice.speak_multiline text)
           else say (Voice.speak text)
       end)
      (fun e => say (Voice.speak_error ("Failed to process your message: " ++ exn_str e))).

Definition handle_quit : M t (Ending unit) :=
  say (Voice.speak_info "Goodbye! Thanks for chatting with Phara!") >>
  set_running false >>
  ret (Exits 0%Z).

Definition handle_clear : M t unit :=
  in_machine Brain.clear_history >>
  in_reader Reader.clear_history >>
  say Voice.clear_history >>
  say (Voice.speak_success "Conversation history cleared!").

Definition handle_history : M t unit :=
  history <~ in_machine Brain.get_history ;;
  if negb (DataGuardrails.non_empty history)
  then say (Voice.speak_info "No conversation history yet.")
  else
    say (Voice.speak_info "Conversation History:") >>
    each (fun entry => print on_world ("  " ++ entry)) (last_n 10 history) >>
    print on_world "".

Definition handle_help : M t unit := say Voice.display_help.

Definition text_of_max_tokens (n : option Z) : string :=
  match n with
  | Some z => of_Z z
  | None => "None"
  end.

(** [key == text] for a key that may be [None] *)
Definition key_is (key : option string) (text : string) : bool :=
  match key with
  | Some k => String.eqb k text
  | None => false
  end.

(** The mark [model list] puts before a provider. *)
Definition key_status (c : ModelConfig) : string :=
  if Providers.truthy_opt (api_key c)
     && negb (key_is (api_key c) "your-openai-api-key-here")
     && negb (key_is (api_key c) "your-anthropic-api-key-here")
  then "OK" else "X".

Definition handle_model_command (command : string) : M t unit :=
  let parts := split (strip command) in
  if (List.length parts =? 1)%nat then
    info <~ in_machine Brain.get_current_model_info ;;
    say (Voice.speak_info "Current AI Model:") >>
    say (Voice.speak_info ("  Provider: " ++ Brain.info_provider info)) >>
    say (Voice.speak_info ("  Model: " ++ Brain.info_model_name info)) >>
    say (Voice.speak_info ("  Temperature: " ++ float_text (Brain.info_temperature info))) >>
    say (Voice.speak_info ("  Max Tokens: "
                           ++ text_of_max_tokens (Brain.info_max_tokens info)))
  else if (List.length parts =? 2)%nat && String.eqb (nth 1 parts "") "list" then
    say (Voice.speak_info "Available AI Models:") >>
    each (fun p =>
            s <~ get ;;
            match Config.lookup p (Config.MODEL_CONFIGS (Brain.Config_class (machine s))) with
            | None => raise (mkExn KeyError (AIProviderEnum.repr p))
            | Some c =>
                say (Voice.speak_info ("  " ++ key_status c ++ " " ++ AIProviderEnum.value p
                                       ++ ": " ++ model_name c))
            end)
         [GEMINI; OPENAI; ANTHROPIC; OLLAMA] >>
    say (Voice.speak_info (nl ++ "To switch models, use: model switch <provider>")) >>
    say (Voice.speak_info available_providers)
  else if (List.length parts =? 3)%nat && String.eqb (nth 1 parts "") "switch" then
    let provider_name := lower (nth 2 parts "") in
    catch
      (p <~ lift (AIProviderEnum.of_value provider_name) ;;
       result <~ in_machine (Brain.switch_model env p) ;;
       say (Voice.speak_success result))
      (fun e =>
         match exn_kind e with
         | ValueError =>
             say (Voice.speak_error ("Unknown provider: " ++ provider_name)) >>
             say (Voice.speak_info available_providers)
         | _ => say (Voice.speak_error ("Failed to switch model: " ++ exn_str e))
         end)
  else
    say (Voice.speak_error "Invalid model command. Use:") >>
    say (Voice.speak_info "  model - Show current model info") >>
    say (Voice.speak_info "  model list - Show available models") >>
    say (Voice.speak_info "  model switch <provider> - Switch to different model").

(** The three suggestions shown after a file has loaded. *)
Definition show_suggestions : M t unit :=
  suggestions <~ in_machine (Brain.get_data_suggestions other_text) ;;
  if DataGuardrails.non_empty suggestions then
    say (Voice.speak_info "Try asking:") >>
    each (fun suggestion => say (Voice.speak_info ("  - " ++ suggestion)))
         (firstn 3 suggestions)
  else ret tt.

Definition handle_load_command (command : string) : M t unit :=
  let parts := split_once (strip command) in
  if (List.length parts <? 2)%nat
  then say (Voice.speak_error "Please specify a filename. Usage: load <filename>")
  else
    let filename := nth 1 parts "" in
    say (Voice.speak_info ("Loading file: " ++ filename)) >>
    catch
      (loaded <~ in_machine (Brain.load_data_file disk filename) ;;
       let (success, message) := loaded : bool * string in
       if success then
         say (Voice.speak_success "File loaded successfully!") >>
         say (Voice.speak_multiline message) >>
         show_suggestions
       else say (Voice.speak_error message))
      (fun e => say (Voice.speak_error ("Failed to load file: " ++ exn_str e))).

Definition handle_files_command : M t unit :=
  catch
    (available_files <~ in_machine (Brain.get_available_files disk) ;;
     loaded_files <~ in_machine Brain.get_loaded_files ;;
     if negb (DataGuardrails.non_empty available_files) then
       say (Voice.speak_info "No data files found in the 'data' folder.") >>
       say (Voice.speak_info "Add CSV or Excel files to the 'data' folder to get started.")
     else
       say (Voice.speak_info "Available Data Files:") >>
       each (fun filename =>
               let status := if DataGuardrails.str_in filename loaded_files
                             then "Loaded" else "Available" in
               say (Voice.speak_info ("  " ++ status ++ " " ++ filename)))
            available_files >>
       if negb (DataGuardrails.non_empty loaded_files)
       then say (Voice.speak_info (nl ++ "Use 'load <filename>' to load a file"))
       else ret tt)
    (fun e => say (Voice.speak_error ("Failed to list files: " ++ exn_str e))).

(** [int(parts[1]) if len(parts) > 1 and parts[1].isdigit() else 5] *)
Definition row_count (parts : list string) : result Z :=
  if (1 <? List.length parts)%nat && isdigit (nth 1 parts "")
  then int_of_digits (nth 1 parts "")
  else Ok 5%Z.

Definition handle_data_query_command (command : string) : M t unit :=
  let query_type := lower (strip command) in
  catch
    (result <~
       (if DataGuardrails.str_in query_type [ "describe"; "summary" ] then
          in_machine (Brain.query_data disk "describe" [])
        else if String.eqb query_type "info" then
          in_machine (Brain.query_data disk "info" [])
        else if startswith "head" query_type then
          n <~ lift (row_count (split query_type)) ;;
          in_machine (Brain.query_data disk "head" [("n", FileOps.IntArg n)])
        else if startswith "tail" query_type then
          n <~ lift (row_count (split query_type)) ;;
          in_machine (Brain.query_data disk "tail" [("n", FileOps.IntArg n)])
        else if String.eqb query_type "columns" then
          in_machine (Brain.query_data disk "columns" [])
        else in_machine (Brain.query_data disk "describe" [])) ;;
     if truthy result
     then say (Voice.speak_multiline result)
     else say (Voice.speak_error "No data available. Load a file first."))
    (fun e => say (Voice.speak_error ("Failed to execute query: " ++ exn_str e))).

Definition handle_suggestions_command : M t unit :=
  catch
    (suggestions <~ in_machine (Brain.get_data_suggestions other_text) ;;
     if DataGuardrails.non_empty suggestions then
       say (Voice.speak_info "Suggested questions for your data:") >>
       each_numbered
         (fun i suggestion => say (Voice.speak_info ("  " ++ of_nat i ++ ". " ++ suggestion)))
         1 suggestions
     else say (Voice.speak_info "Load a data file first to get suggestions."))
    (fun e => say (Voice.speak_error ("Failed to get suggestions: " ++ exn_str e))).

Definition auto_load_first_file : M t unit :=
  catch
    (available_files <~ in_machine (Brain.get_available_files disk) ;;
     match available_files with
     | [] =>
         say (Voice.speak_info "Data folder is empty.") >>
         say (Voice.speak_info
                "Add CSV or Excel files to the 'data' folder to get started with data analysis.")
     | first_file :: _ =>
         say (Voice.speak_info "Data folder contents:") >>
         each_numbered
           (fun i filename => say (Voice.speak_info ("  " ++ of_nat i ++ ". " ++ filename)))
           1 available_files >>
         say (Voice.speak_info ("Auto-loading first file: " ++ first_file)) >>
         loaded <~ in_machine (Brain.load_data_file disk first_file) ;;
         let (success, message) := loaded : bool * string in
         if success then
           say (Voice.speak_success "File loaded successfully!") >>
           say (Voice.speak_multiline message) >>
           (if (1 <? List.length available_files)%nat then
              say (Voice.speak_info "Multiple data files detected!") >>
              say (Voice.speak_info "To switch to a different file, use: load <filename>") >>
              say (Voice.speak_info "Available files:") >>
              each (fun filename =>
                      let status := if String.eqb filename first_file
                                    then "Currently loaded" else "Available" in
                      say (Voice.speak_info ("  " ++ status ++ ": " ++ filename)))
                   available_files >>
              say (Voice.speak_info "Type 'files' anytime to see all available data files.")
            else ret tt) >>
           show_suggestions
         else
           say (Voice.speak_error ("Failed to auto-load " ++ first_file ++ ": " ++ message)) >>
           say (Voice.speak_info "You can manually load files using: load <filename>")
     end)
    (fun e => say (Voice.speak_error ("Error during auto-load: " ++ exn_str e))).

(** One pass of the loop of [start]; [typed] is what [input()] meets and
    [rnd] the draw of [random.choice], if they are reached. *)
Definition chat_loop (typed : Typed) (rnd : nat) : M t (Ending unit) :=
  catch
    (got <~ in_reader (get_command_input typed) ;;
     match got with
     | Exits status => ret (Exits status)
     | Returns (command_type, user_input) =>
         let done (m : M t unit) : M t (Ending unit) := m >> ret (Returns tt) in
         if String.eqb command_type "empty" then ret (Returns tt)
         else if String.eqb command_type "quit" then handle_quit
         else if String.eqb command_type "clear" then done handle_clear
         else if String.eqb command_type "history" then done handle_history
         else if String.eqb command_type "help" then done handle_help
         else if String.eqb command_type "model" then done (handle_model_command user_input)
         else if String.eqb command_type "load" then done (handle_load_command user_input)
         else if String.eqb command_type "files" then done handle_files_command
         else if String.eqb command_type "data_query"
              then done (handle_data_query_command user_input)
         else if String.eqb command_type "suggestions" then done handle_suggestions_command
         else if String.eqb command_type "normal" then done (handle_normal_input rnd user_input)
         else ret (Returns tt)
     end)
    (fun e => say (Voice.speak_error ("error: " ++ exn_str e)) >> ret (Returns tt)).

End Handlers.

End Phara.


(* ================================================================= *)
(** ** Definitions the properties are stated with *)

(** Concrete inputs on which the properties are exercised. *)
Module Samples.

Definition no_files : FileProcessor.t := FileProcessor.mkFileProcessor [] None.

Definition sales_frame : FileProcessor.DataFrame :=
  FileProcessor.mkDataFrame
    [FileProcessor.LStr "date"; FileProcessor.LStr "sales"; FileProcessor.LStr "region"] 10.

Definition sales_loaded : FileProcessor.t :=
  FileProcessor.mkFileProcessor [("sales.csv", sales_frame)] (Some "sales.csv").

(** A frame one of whose column labels is a number. *)
Definition numbered_frame : FileProcessor.DataFrame :=
  FileProcessor.mkDataFrame [FileProcessor.LStr "date"; FileProcessor.LOther "int"] 10.

Definition numbered_loaded : FileProcessor.t :=
  FileProcessor.mkFileProcessor [("counts.csv", numbered_frame)] (Some "counts.csv").

Definition openai_config : ModelConfig :=
  mkModelConfig OPENAI "gpt-3.5-turbo" (Config.API_KEYS OPENAI) None
    (Some 2048%Z) Config.default_temperature [].

Definition ollama_config : ModelConfig :=
  mkModelConfig OLLAMA "llama2" None (Some "http://localhost:11434")
    (Some 2048%Z) Config.default_temperature [].

(** An initialised OpenAI adapter with one exchange on record. *)
Definition talking : Providers.Adapter :=
  Providers.mkAdapter OPENAI openai_config ["User: hi"; "Assistant: hello"] true "".

(** An Ollama adapter with the same record. *)
Definition local : Providers.Adapter :=
  Providers.mkAdapter OLLAMA ollama_config ["User: hi"; "Assistant: hello"] false
    "http://localhost:11434".

Definition quiet : World := mkWorld [] [] 0.

Definition refused : exn := mkExn ConnectionError "Connection refused".

(** Every package imports and every client is built, but no request gets
    through. *)
Definition offline : Env :=
  mkEnv (fun _ => true) (fun _ => None) (fun _ => Raises refused).

(** Every request is answered by a chat completion with one choice. *)
Definition online : Env :=
  mkEnv (fun _ => true) (fun _ => None) (fun _ => Choices [Some "42 rows"]).

(** Every request is answered by a chat completion whose one choice has
    an empty content. *)
Definition silent : Env :=
  mkEnv (fun _ => true) (fun _ => None) (fun _ => Choices [Some ""]).

(** Every request is answered by a chat completion whose one choice has
    no content, [None]. *)
Definition speechless : Env :=
  mkEnv (fun _ => true) (fun _ => None) (fun _ => Choices [None]).

(** Every request is answered by an HTTP response with status 500. *)
Definition broken : Env :=
  mkEnv (fun _ => true) (fun _ => None) (fun _ => Http 500 (Ok None)).

Definition machine (fp : FileProcessor.t) : Brain.Machine :=
  Brain.mkMachine (Brain.mkBrain openai_config talking fp) Config.initial quiet.

(** A data folder with two data files, a folder and two other files;
    CSV files read as the sales frame, Excel files do not read. *)
Definition folder : FileOps.Disk :=
  FileOps.mkDisk None
    [ ("b.csv", true); ("a.XLSX", true); ("dir.csv", false); (".csv", true); ("n.txt", true) ]
    (fun f => negb (String.eqb f "missing.csv"))
    (fun _ => Ok sales_frame)
    (fun _ => Raise refused)
    (fun _ f => Ok ("File Loaded: " ++ f))
    (fun _ => Ok "")
    (fun _ _ => Ok "first rows")
    (fun _ _ => Ok "last rows")
    (fun _ => Raise refused).

(** The same folder when the summary of a frame cannot be built. *)
Definition folder_without_summary : FileOps.Disk :=
  FileOps.mkDisk None (FileOps.listing folder) (FileOps.file_exists folder)
    (FileOps.read_csv folder) (FileOps.read_excel folder)
    (fun _ _ => Raise refused)
    (FileOps.df_describe folder) (FileOps.df_head folder) (FileOps.df_tail folder)
    (FileOps.df_info folder).

(** A chatbot that has said nothing yet, on the sample machine. *)
Definition chatbot (fp : FileProcessor.t) : Phara.t :=
  Phara.mkPhara (machine fp) Reader.new [] true.

(** The superscript two, a digit for [isdigit] but not for [int]. *)
Definition superscript_two : string := String (ascii_of_nat 178) "".

End Samples.

(** What the specification calls the replayed history: the stored entries
    taken two at a time as (user, assistant), an entry left over at the
    end being dropped. *)
Fixpoint paired (h : list string) : list Message :=
  match h with
  | u :: a :: rest =>
      mkMessage "user" (PyStr.remove_all "User: " u)
        :: mkMessage "assistant" (PyStr.remove_all "Assistant: " a)
        :: paired rest
  | _ => []
  end.

(** A well-formed response carrying the text [t], in the shape the class
    [k] reads. *)
Definition answer_of (k : AIProvider) (t : string) : Outcome :=
  match k with
  | GEMINI => Text (Ok t)
  | OPENAI | ANTHROPIC => Choices [Some t]
  | OLLAMA => Http 200 (Ok (Some (Some t)))
  end.

(** The two entries one exchange adds to a history; the answer is a
    [str] or [None]. *)
Definition exchange (user_input : string) (ai_response : option string) : list string :=
  [ "User: " ++ user_input; "Assistant: " ++ PyStr.str_of ai_response ].

(** The text of [s] up to its first line feed. *)
Fixpoint first_line (s : string) : string :=
  match s with
  | EmptyString => EmptyString
  | String c s' => if Ascii.eqb c PyStr.newline then EmptyString else String c (first_line s')
  end.

(** "data" occurs, in any letter case, in what is left of the line. *)
Definition data_ahead (rest : string) : bool :=
  PyStr.contains "data" (PyStr.lower (first_line rest)).

(** The last character of [pre], if any. *)
Fixpoint last_char (pre : string) : option ascii :=
  match pre with
  | EmptyString => None
  | String c EmptyString => Some c
  | String _ pre' => last_char pre'
  end.

(** The character before a position reached by reading [m] from a
    position whose previous character was [prev]. *)
Definition after (prev : option ascii) (m : string) : option ascii :=
  match last_char m with Some c => Some c | None => prev end.

(** The continuation that accepts whatever is left. *)
Definition always : option ascii -> string -> bool := fun _ _ => true.

Fixpoint has_newline (s : string) : bool :=
  match s with
  | EmptyString => false
  | String c s' => Ascii.eqb c PyStr.newline || has_newline s'
  end.

(** [str.lower] on the character before a position, if there is one. *)
Definition lowp (p : option ascii) : option ascii := option_map PyStr.lower_char p.

(** A column label that is a string. *)
Definition is_text (l : FileProcessor.label) : bool :=
  match l with
  | FileProcessor.LStr _ => true
  | FileProcessor.LOther _ => false
  end.

(** The last part of a composed prompt. *)
Definition question_part (user_input : string) : string :=
  PyStr.nl ++ "User question: " ++ user_input.

(** The first line of the dataset block of a composed prompt. *)
Definition loaded_line (fp : FileProcessor.t) : string :=
  PyStr.nl ++ "Currently loaded files: "
    ++ PyStr.join ", " (FileProcessor.list_loaded_files fp).

(** Every provider has a configuration, filed under its own name. *)
Definition registered (cls : Config.t) : Prop :=
  forall p, exists c, Config.lookup p (Config.MODEL_CONFIGS cls) = Some c /\ provider c = p.

(** A call a client makes on the orchestrator, and the machine it leaves. *)
Inductive BrainCall : Type :=
| CallThink (rnd : nat) (user_prompt : string)
| CallClearHistory
| CallSwitchModel (p : AIProvider).

Definition after_call (env : Env) (m : Brain.Machine) (c : BrainCall) : Brain.Machine :=
  match c with
  | CallThink rnd user_prompt => snd (Brain.think env rnd user_prompt m)
  | CallClearHistory => snd (Brain.clear_history m)
  | CallSwitchModel p => snd (Brain.switch_model env p m)
  end.

Definition after_calls (env : Env) (calls : list BrainCall) (m : Brain.Machine)
  : Brain.Machine :=
  fold_left (after_call env) calls m.

(** The history of the active adapter. *)
Definition history_of (m : Brain.Machine) : list string :=
  Providers.conversation_history (Brain.ai_provider (Brain.brain m)).

(** No character of [s] is white space. *)
Fixpoint no_space (s : string) : bool :=
  match s with
  | EmptyString => true
  | String c s' => negb (PyStr.is_space c) && no_space s'
  end.

(** The dict of loaded files has no key twice, and the current file, if
    there is one, is one of its keys. *)
Definition well_loaded (fp : FileProcessor.t) : Prop :=
  NoDup (FileProcessor.list_loaded_files fp)
  /\ forall f, FileProcessor.current_file_context fp = Some f ->
               In f (FileProcessor.list_loaded_files fp).

(** One of the extensions [load_file] reads ends the lower-cased name. *)
Definition loadable_name (filename : string) : bool :=
  PyStr.endswith ".csv" (PyStr.lower filename)
  || PyStr.endswith ".xlsx" (PyStr.lower filename)
  || PyStr.endswith ".xls" (PyStr.lower filename).

(** The reader [load_file] calls for a name, and what it answers: none
    when the name has none of the extensions. *)
Definition read_frame (disk : FileOps.Disk) (filename : string)
  : option (result FileProcessor.DataFrame) :=
  if PyStr.endswith ".csv" (PyStr.lower filename)
  then Some (FileOps.read_csv disk filename)
  else if PyStr.endswith ".xlsx" (PyStr.lower filename)
          || PyStr.endswith ".xls" (PyStr.lower filename)
       then Some (FileOps.read_excel disk filename)
       else None.

(** Each string is at most the next, by code points. *)
Fixpoint ordered (xs : list string) : bool :=
  match xs with
  | x :: (y :: _) as rest => String.leb x y && ordered rest
  | _ => true
  end.

(** The query types [FileProcessor.query_data] knows. *)
Definition query_types : list string :=
  [ "describe"; "head"; "tail"; "info"; "columns"; "shape" ].

(** A keyword of [kwargs] names one of [params]. *)
Definition collides (params : list string) (kwargs : FileOps.Kwargs) : bool :=
  existsb (fun item : string * FileOps.Arg => DataGuardrails.str_in (fst item) params)
          kwargs.

(** Every name the folder lists exists in it. *)
Definition listing_exists (disk : FileOps.Disk) : Prop :=
  forall entry, In entry (FileOps.listing disk) ->
                FileOps.file_exists disk (fst entry) = true.

(** [s] is not empty and has no white space at either end. *)
Definition trimmed (s : string) : bool :=
  PyStr.truthy s && String.eqb (PyStr.strip s) s.

(** The chatbot after further calls on its voice. *)
Definition spoken (s : Phara.t) (calls : list Voice.call) : Phara.t :=
  Phara.mkPhara (Phara.machine s) (Phara.reader s) (Phara.voice s ++ calls)%list
                (Phara.running s).

(** [m] does nothing but call the voice: whatever it returns or raises,
    the chatbot it leaves differs by the calls it has made. *)
Definition only_speaks {A : Type} (m : M Phara.t A) : Prop :=
  forall s, exists r calls, m s = (r, spoken s calls).

(** The words that end the session. *)
Definition quit_words : list string := [ "quit"; "exit"; "bye"; "goodbye" ].

(** The query types [handle_data_query_command] asks for. *)
Definition asked_query_types : list string :=
  [ "describe"; "info"; "head"; "tail"; "columns" ].

(* ================================================================= *)
(** ** Properties *)

Section Pools.
Import DataGuardrails.

Lemma random_choice_in (rnd : nat) (pool : list string) :
  pool <> [] -> exists m, random_choice rnd pool = Ok m /\ In m pool.
Proof.
  intros Hne. unfold random_choice.
  destruct (nth_error pool (rnd mod List.length pool)) as [m|] eqn:E.
  - exists m. split; [reflexivity | eapply nth_error_In; exact E].
  - exfalso. apply nth_error_None in E.
    assert (List.length pool <> 0) by (destruct pool; [congruence | discriminate]).
    pose proof (Nat.mod_upper_bound rnd (List.length pool) H). lia.
Qed.

Lemma choice_redirect (rnd : nat) :
  exists m, random_choice rnd redirect_responses = Ok m /\ In m redirect_responses.
Proof. apply random_choice_in. discriminate. Qed.

Lemma choice_no_data (rnd : nat) :
  exists m, random_choice rnd no_data_responses = Ok m /\ In m no_data_responses.
Proof. apply random_choice_in. discriminate. Qed.

Lemma redirect_truthy (m : string) : In m redirect_responses -> PyStr.truthy m = true.
Proof. simpl. intros H. repeat (destruct H as [<- | H]; [reflexivity |]). contradiction. Qed.

Lemma no_data_truthy (m : string) : In m no_data_responses -> PyStr.truthy m = true.
Proof. simpl. intros H. repeat (destruct H as [<- | H]; [reflexivity |]). contradiction. Qed.

Lemma pools_disjoint (m : string) : In m redirect_responses -> ~ In m no_data_responses.
Proof.
  simpl. intros H H'.
  repeat (destruct H as [<- | H]; [ repeat (destruct H' as [H' | H']; [discriminate H' |]); exact H' |]).
  exact H.
Qed.

(** The three ways [check_query_relevance] ends. *)
Lemma check_query_relevance_cases (fp : FileProcessor.t) (rnd : nat) (s : string) :
  (non_empty (FileProcessor.list_loaded_files fp) = false
   /\ any_keyword bootstrap_keywords (PyStr.lower s) = false
   /\ exists m, check_query_relevance fp rnd s = Ok (false, Some m) /\ In m no_data_responses)
  \/ ((non_empty (FileProcessor.list_loaded_files fp) = true
       \/ any_keyword bootstrap_keywords (PyStr.lower s) = true)
      /\ (off_topic (PyStr.lower s) = true
          \/ (any_keyword data_keywords (PyStr.lower s) = false
              /\ non_empty (FileProcessor.list_loaded_files fp) = false))
      /\ exists m, check_query_relevance fp rnd s = Ok (false, Some m) /\ In m redirect_responses)
  \/ ((non_empty (FileProcessor.list_loaded_files fp) = true
       \/ any_keyword bootstrap_keywords (PyStr.lower s) = true)
      /\ off_topic (PyStr.lower s) = false
      /\ (any_keyword data_keywords (PyStr.lower s) = true
          \/ non_empty (FileProcessor.list_loaded_files fp) = true)
      /\ check_query_relevance fp rnd s = Ok (true, None)).
Proof.
  unfold check_query_relevance.
  destruct (non_empty (FileProcessor.list_loaded_files fp)) eqn:Hl;
    destruct (any_keyword bootstrap_keywords (PyStr.lower s)) eqn:Hb; cbn [negb andb];
      try (left; destruct (choice_no_data rnd) as (m & -> & Hin);
           repeat split; eexists; split; [reflexivity | exact Hin]);
      right;
      destruct (off_topic (PyStr.lower s)) eqn:Ho;
      try (left; destruct (choice_redirect rnd) as (m & -> & Hin);
           split; [auto | split; [auto | eexists; split; [reflexivity | exact Hin]]]);
      destruct (any_keyword data_keywords (PyStr.lower s)) eqn:Hd; cbn [orb];
        try (right; repeat split; auto; fail).
  left. destruct (choice_redirect rnd) as (m & -> & Hin).
  split; [auto | split; [auto | eexists; split; [reflexivity | exact Hin]]].
Qed.

End Pools.

Section Redirects.
Import DataGuardrails.

(** A not-relevant decision always carries a message of one of the pools. *)
Lemma not_relevant_message (fp : FileProcessor.t) (rnd : nat) (s : string)
      (redirect : option string) :
  check_query_relevance fp rnd s = Ok (false, redirect) ->
  exists text, redirect = Some text /\ PyStr.truthy text = true
               /\ (In text no_data_responses \/ In text redirect_responses).
Proof.
  intros H.
  destruct (check_query_relevance_cases fp rnd s)
    as [(_ & _ & m & E & Hin) | [(_ & _ & m & E & Hin) | (_ & _ & _ & E)]];
    rewrite E in H; inversion H; subst.
  - exists m. auto using no_data_truthy.
  - exists m. auto using redirect_truthy.
Qed.

Lemma check_query_relevance_total (fp : FileProcessor.t) (rnd : nat) (s : string) :
  exists d, check_query_relevance fp rnd s = Ok d.
Proof.
  destruct (check_query_relevance_cases fp rnd s)
    as [(_ & _ & m & E & _) | [(_ & _ & m & E & _) | (_ & _ & _ & E)]];
    rewrite E; eauto.
Qed.

(** [think] on a not-relevant decision: the message is returned and the
    machine is left as it was. *)
Lemma think_redirect (env : Env) (rnd : nat) (s : string) (m : Brain.Machine) (text : string) :
  check_query_relevance (Brain.file_processor (Brain.brain m)) rnd s = Ok (false, Some text) ->
  PyStr.truthy text = true ->
  Brain.think env rnd s m = (Ok (Some text), m).
Proof.
  intros H Ht.
  unfold Brain.think, catch, Brain.think_try, mbind, get, lift.
  rewrite H. cbn. rewrite Ht. reflexivity.
Qed.

End Redirects.

(** C6.  Whenever [check_query_relevance] classifies the input as not
    relevant, [think] returns the redirect message at once: the machine it
    leaves is the one it found, so [generate_response] was not entered
    (the spy's count is unchanged), no request was sent to any backend
    (the trace is unchanged) and the conversation history of the active
    adapter is unchanged. *)
Theorem C6_not_relevant_bypasses_model
        (env : Env) (rnd : nat) (s : string) (m : Brain.Machine) (redirect : option string) :
  DataGuardrails.check_query_relevance (Brain.file_processor (Brain.brain m)) rnd s
  = Ok (false, redirect) ->
  exists text,
    redirect = Some text
    /\ Brain.think env rnd s m = (Ok (Some text), m)
    /\ generate_calls (Brain.world (snd (Brain.think env rnd s m)))
       = generate_calls (Brain.world m)
    /\ trace (Brain.world (snd (Brain.think env rnd s m))) = trace (Brain.world m)
    /\ Providers.conversation_history (Brain.ai_provider (Brain.brain (snd (Brain.think env rnd s m))))
       = Providers.conversation_history (Brain.ai_provider (Brain.brain m)).
Proof.
  intros H.
  destruct (not_relevant_message _ _ _ _ H) as (text & -> & Ht & _).
  exists text. rewrite (think_redirect env rnd s m text H Ht). auto.
Qed.

Lemma C6_witness :
  DataGuardrails.check_query_relevance
    (Brain.file_processor (Brain.brain (Samples.machine Samples.sales_loaded))) 2
    "tell me a joke"
  = Ok (false, Some "Let's keep our conversation focused on your data. What would you like to know about the loaded files?")
  /\ Brain.think Samples.online 2 "tell me a joke" (Samples.machine Samples.sales_loaded)
     = (Ok (Some "Let's keep our conversation focused on your data. What would you like to know about the loaded files?"),
        Samples.machine Samples.sales_loaded).
Proof.
  assert (H : DataGuardrails.check_query_relevance
                (Brain.file_processor (Brain.brain (Samples.machine Samples.sales_loaded))) 2
                "tell me a joke"
              = Ok (false, Some "Let's keep our conversation focused on your data. What would you like to know about the loaded files?"))
    by (vm_compute; reflexivity).
  split; [exact H |].
  destruct (C6_not_relevant_bypasses_model Samples.online 2 "tell me a joke"
              (Samples.machine Samples.sales_loaded) _ H) as (text & E & T & _).
  inversion E; subst. exact T.
Defined.

(** C10.  [check_query_relevance] always returns; it never returns
    [(False, None)]; and whenever it returns [is_relevant = False] the
    message is a non-empty string of the no-data pool or of the redirect
    pool, so the guard [not is_relevant and redirect_message] of [think]
    holds and [think] returns that message without reaching the model. *)
Theorem C10_not_relevant_has_pooled_message (fp : FileProcessor.t) (rnd : nat) (s : string) :
  (exists d, DataGuardrails.check_query_relevance fp rnd s = Ok d)
  /\ DataGuardrails.check_query_relevance fp rnd s <> Ok (false, None)
  /\ forall redirect,
      DataGuardrails.check_query_relevance fp rnd s = Ok (false, redirect) ->
      exists text,
        redirect = Some text
        /\ PyStr.truthy text = true
        /\ (In text DataGuardrails.no_data_responses \/ In text DataGuardrails.redirect_responses)
        /\ forall env m, Brain.file_processor (Brain.brain m) = fp ->
                         Brain.think env rnd s m = (Ok (Some text), m).
Proof.
  split; [apply check_query_relevance_total |].
  split.
  - intros H. destruct (not_relevant_message _ _ _ _ H) as (text & E & _). discriminate.
  - intros redirect H.
    destruct (not_relevant_message _ _ _ _ H) as (text & -> & Ht & Hin).
    exists text. repeat split; auto.
    intros env m <-. apply think_redirect; assumption.
Qed.

Lemma C10_witness :
  DataGuardrails.check_query_relevance Samples.no_files 4 "hello there"
  = Ok (false, Some "To get started, please load a data file using the 'load' command. I can then help you analyze it.")
  /\ Brain.think Samples.offline 4 "hello there" (Samples.machine Samples.no_files)
     = (Ok (Some "To get started, please load a data file using the 'load' command. I can then help you analyze it."),
        Samples.machine Samples.no_files).
Proof.
  assert (H : DataGuardrails.check_query_relevance Samples.no_files 4 "hello there"
              = Ok (false, Some "To get started, please load a data file using the 'load' command. I can then help you analyze it."))
    by (vm_compute; reflexivity).
  split; [exact H |].
  destruct (C10_not_relevant_has_pooled_message Samples.no_files 4 "hello there")
    as (_ & _ & K).
  destruct (K _ H) as (text & E & _ & _ & T).
  inversion E; subst. apply T. reflexivity.
Defined.

Section RegexFacts.
Import PyStr Re.

Ltac every_char c :=
  destruct c as [b0 b1 b2 b3 b4 b5 b6 b7];
  destruct b0, b1, b2, b3, b4, b5, b6, b7; reflexivity.

Lemma lower_char_idem (c : ascii) : lower_char (lower_char c) = lower_char c.
Proof. every_char c. Qed.

Lemma lower_idem (s : string) : lower (lower s) = lower s.
Proof. induction s; simpl; [reflexivity | now rewrite lower_char_idem, IHs]. Qed.

Lemma lower_app (a b : string) : lower (a ++ b) = lower a ++ lower b.
Proof. induction a; simpl; [reflexivity | now rewrite IHa]. Qed.

Lemma lower_length (s : string) : String.length (lower s) = String.length s.
Proof. induction s; simpl; [reflexivity | now rewrite IHs]. Qed.

Lemma app_assoc_s (a b c : string) : (a ++ b) ++ c = a ++ b ++ c.
Proof. induction a; simpl; [reflexivity | now rewrite IHa]. Qed.

Lemma last_char_cons (c : ascii) (m : string) :
  last_char (String c m) = match last_char m with Some x => Some x | None => Some c end.
Proof.
  revert c. induction m as [|a m IH]; intros c; [reflexivity |].
  change (last_char (String c (String a m))) with (last_char (String a m)).
  rewrite IH. destruct (last_char m); reflexivity.
Qed.

Lemma after_cons (prev : option ascii) (c : ascii) (m : string) :
  after prev (String c m) = after (Some c) m.
Proof. unfold after. rewrite last_char_cons. destruct (last_char m); reflexivity. Qed.

Lemma after_app (prev : option ascii) (a b : string) :
  after prev (a ++ b) = after (after prev a) b.
Proof.
  revert prev. induction a as [|c a IH]; intros prev.
  - reflexivity.
  - change (String c a ++ b) with (String c (a ++ b)).
    now rewrite !after_cons, IH.
Qed.

Lemma after_none (m : string) : after None m = last_char m.
Proof. unfold after. destruct (last_char m); reflexivity. Qed.

(** A literal run matches exactly the pieces that equal it up to case. *)
Lemma lit_iff (w : string) (prev : option ascii) (s : string)
      (k : option ascii -> string -> bool) :
  lit w prev s k = true <->
  exists m rest, s = m ++ rest /\ lower m = lower w /\ k (after prev m) rest = true.
Proof.
  revert prev s. induction w as [|a w IH]; intros prev s; simpl.
  - split.
    + intros H. exists "", s. auto.
    + intros (m & rest & -> & E & H). destruct m; [exact H | discriminate].
  - destruct s as [|c s].
    + split; [discriminate |].
      intros (m & rest & E & L & _). destruct m; simpl in *; discriminate.
    + destruct (Ascii.eqb (lower_char a) (lower_char c)) eqn:Ec.
      * apply Ascii.eqb_eq in Ec. rewrite IH. split.
        -- intros (m & rest & -> & L & H).
           exists (String c m), rest. rewrite after_cons. simpl. rewrite L, Ec. auto.
        -- intros (m & rest & E & L & H). destruct m as [|c' m]; [discriminate |].
           simpl in E, L. injection E as <- ->. injection L as _ L.
           rewrite after_cons in H. eauto.
      * split; [discriminate |].
        intros (m & rest & E & L & _). destruct m as [|c' m]; [discriminate |].
        simpl in E, L. injection E as <- _. injection L as L _.
        rewrite L, Ascii.eqb_refl in Ec. discriminate.
Qed.

Lemma words_iff (ws : list string) (prev : option ascii) (s : string)
      (k : option ascii -> string -> bool) :
  ws <> [] ->
  (accept (words ws) prev s k = true <-> exists w, In w ws /\ lit w prev s k = true).
Proof.
  induction ws as [|w ws IH]; [congruence |]. intros _.
  destruct ws as [|w' ws].
  - simpl. split; [eauto |]. intros (x & [<- | []] & H). exact H.
  - change (words (w :: w' :: ws)) with (Alt (Lit w) (words (w' :: ws))).
    cbn [accept]. rewrite orb_true_iff, IH by discriminate. split.
    + intros [H | (x & Hin & H)]; [exists w | exists x]; simpl; auto.
    + intros (x & [<- | Hin] & H); [left | right]; eauto.
Qed.

(** A literal without line feed matches at a position when the rest of
    the line, lower-cased, starts with it. *)
Lemma lit_line (w : string) (prev : option ascii) (s : string) :
  has_newline (lower w) = false ->
  lit w prev s always = startswith (lower w) (lower (first_line s)).
Proof.
  revert prev s. induction w as [|a w IH]; intros prev s Hn; simpl in *.
  - reflexivity.
  - apply orb_false_iff in Hn. destruct Hn as [Ha Hn].
    destruct s as [|c s]; simpl; [reflexivity |].
    destruct (Ascii.eqb c newline) eqn:Ec.
    + apply Ascii.eqb_eq in Ec. subst c. simpl.
      destruct (Ascii.eqb (lower_char a) (lower_char newline)) eqn:E; [| reflexivity].
      apply Ascii.eqb_eq in E. rewrite E in Ha. discriminate.
    + simpl. rewrite (IH (Some c) s Hn).
      destruct (Ascii.eqb (lower_char a) (lower_char c)); reflexivity.
Qed.

(** The look-ahead [.*data] succeeds exactly when "data" is ahead on the
    line. *)
Lemma data_lookahead (prev : option ascii) (s : string) :
  match_here (Cat DotStar (Lit "data")) prev s = data_ahead s.
Proof.
  unfold match_here. cbn [accept]. unfold data_ahead. revert prev.
  induction s as [|c s IH]; intros prev.
  - reflexivity.
  - cbn [dotstar].
    change (lit "data" prev (String c s) (fun _ _ => true))
      with (lit "data" prev (String c s) always).
    rewrite lit_line by reflexivity.
    cbn [first_line]. destruct (Ascii.eqb c newline) eqn:Ec.
    + reflexivity.
    + rewrite IH. reflexivity.
Qed.

(** [scan] finds a match when some split of the text has one at its cut. *)
Lemma scan_iff (r : regex) (prev : option ascii) (t : string) :
  scan r prev t = true <->
  exists pre post, t = pre ++ post /\ match_here r (after prev pre) post = true.
Proof.
  revert prev. induction t as [|c t IH]; intros prev; cbn [scan].
  - rewrite orb_false_r. split.
    + intros H. exists "", "". auto.
    + intros (pre & post & E & H). destruct pre; [| discriminate].
      simpl in E. subst post. exact H.
  - rewrite orb_true_iff, IH. split.
    + intros [H | (pre & post & -> & H)].
      * exists "", (String c t). auto.
      * exists (String c pre), post. rewrite after_cons. auto.
    + intros (pre & post & E & H). destruct pre as [|c' pre].
      * simpl in E. subst post. left. exact H.
      * simpl in E. injection E as <- ->. rewrite after_cons in H. right. eauto.
Qed.

End RegexFacts.

Section ProgrammingRule.
Import PyStr Re DataGuardrails.

Lemma match_here_programming (prev : option ascii) (s : string) :
  match_here programming_pattern prev s =
  (if at_boundary prev s then
     accept (words programming_terms) prev s
       (fun p' s' =>
          if at_boundary p' s' then
            if match_here (Cat DotStar (Lit "data")) p' s' then false else true
          else false)
   else false).
Proof. reflexivity. Qed.

Lemma programming_terms_lower (w : string) : In w programming_terms -> lower w = w.
Proof. simpl. intros H. repeat (destruct H as [<- | H]; [reflexivity |]). contradiction. Qed.

(** The programming rule fires exactly when some piece of the text is a
    programming term up to case, stands between two word boundaries, and
    has no "data" ahead of it on its line. *)
Lemma programming_rule_iff (t : string) :
  search programming_pattern t = true <->
  exists pre m post,
    t = pre ++ m ++ post
    /\ In (lower m) programming_terms
    /\ at_boundary (last_char pre) (m ++ post) = true
    /\ at_boundary (last_char (pre ++ m)) post = true
    /\ data_ahead post = false.
Proof.
  unfold search. rewrite scan_iff. split.
  - intros (pre & post0 & -> & H).
    rewrite match_here_programming, after_none in H.
    destruct (at_boundary (last_char pre) post0) eqn:B1; [| discriminate].
    apply words_iff in H; [| discriminate].
    destruct H as (w & Hw & H).
    apply lit_iff in H. destruct H as (m & post & -> & L & H).
    rewrite <- after_none, <- after_app, after_none in H.
    rewrite data_lookahead in H.
    destruct (at_boundary (last_char (pre ++ m)) post) eqn:B2; [| discriminate].
    destruct (data_ahead post) eqn:D; [discriminate |].
    exists pre, m, post. rewrite L, (programming_terms_lower w Hw). auto.
  - intros (pre & m & post & -> & Hw & B1 & B2 & D).
    exists pre, (m ++ post). split; [reflexivity |].
    rewrite match_here_programming, after_none, B1.
    apply words_iff; [discriminate |].
    exists (lower m). split; [exact Hw |].
    apply lit_iff. exists m, post. split; [reflexivity |].
    split; [symmetry; apply lower_idem |].
    rewrite <- after_none, <- after_app, after_none, B2, data_lookahead, D.
    reflexivity.
Qed.

End ProgrammingRule.

(** C2 (amended).  The patterns are matched against the lower-cased
    input.  For every input whose lower-cased text matches one of the
    off-topic patterns, [check_query_relevance] returns not-relevant.
    When a dataset is loaded, or the lower-cased text contains one of the
    words "load", "file", "data", the message is a member of the redirect
    pool and not of the no-data pool.  When no dataset is loaded and none
    of these words occurs, the no-data guard runs first and the message is
    a member of the no-data pool, not of the redirect pool. *)
Theorem C2_off_topic_message_pool (fp : FileProcessor.t) (rnd : nat) (s : string) :
  DataGuardrails.off_topic (PyStr.lower s) = true ->
  ((DataGuardrails.non_empty (FileProcessor.list_loaded_files fp) = true
    \/ DataGuardrails.any_keyword DataGuardrails.bootstrap_keywords (PyStr.lower s) = true) ->
   exists m,
     DataGuardrails.check_query_relevance fp rnd s = Ok (false, Some m)
     /\ In m DataGuardrails.redirect_responses
     /\ ~ In m DataGuardrails.no_data_responses)
  /\ (DataGuardrails.non_empty (FileProcessor.list_loaded_files fp) = false ->
      DataGuardrails.any_keyword DataGuardrails.bootstrap_keywords (PyStr.lower s) = false ->
      exists m,
        DataGuardrails.check_query_relevance fp rnd s = Ok (false, Some m)
        /\ In m DataGuardrails.no_data_responses
        /\ ~ In m DataGuardrails.redirect_responses).
Proof.
  intros Hoff.
  destruct (check_query_relevance_cases fp rnd s)
    as [(Hl & Hb & m & E & Hin) | [(Hg & _ & m & E & Hin) | (_ & Ho & _)]].
  - split.
    + intros [H | H]; congruence.
    + intros _ _. exists m. repeat split; auto.
      intros Hr. exact (pools_disjoint m Hr Hin).
  - split.
    + intros _. exists m. repeat split; auto using pools_disjoint.
    + intros Hl Hb. destruct Hg; congruence.
  - congruence.
Qed.

Lemma C2_witness :
  DataGuardrails.off_topic (PyStr.lower "what's the WEATHER?") = true
  /\ DataGuardrails.non_empty (FileProcessor.list_loaded_files Samples.sales_loaded) = true
  /\ exists m,
      DataGuardrails.check_query_relevance Samples.sales_loaded 1 "what's the WEATHER?"
      = Ok (false, Some m)
      /\ In m DataGuardrails.redirect_responses
      /\ ~ In m DataGuardrails.no_data_responses.
Proof.
  assert (H : DataGuardrails.off_topic (PyStr.lower "what's the WEATHER?") = true)
    by (vm_compute; reflexivity).
  split; [exact H |]. split; [reflexivity |].
  apply (C2_off_topic_message_pool Samples.sales_loaded 1 "what's the WEATHER?" H).
  left. reflexivity.
Defined.

(** With no dataset loaded, the lower-cased weather question matches an
    off-topic pattern and is answered from the no-data pool. *)
Lemma C2_counterexample :
  DataGuardrails.off_topic (PyStr.lower "what's the weather?") = true
  /\ DataGuardrails.check_query_relevance Samples.no_files 0 "what's the weather?"
     = Ok (false, Some "I don't see any data files loaded yet. Would you like to load a file from the data folder?")
  /\ In "I don't see any data files loaded yet. Would you like to load a file from the data folder?"
        DataGuardrails.no_data_responses
  /\ ~ In "I don't see any data files loaded yet. Would you like to load a file from the data folder?"
          DataGuardrails.redirect_responses.
Proof.
  split; [vm_compute; reflexivity |].
  split; [vm_compute; reflexivity |].
  split; [simpl; auto |].
  intros H. apply (pools_disjoint _ H). simpl. auto.
Qed.

Section ProgrammingClaim.
Import PyStr Re DataGuardrails.

Lemma any_keyword_data (keywords : list string) (t : string) :
  In "data" keywords -> contains "data" t = true -> any_keyword keywords t = true.
Proof.
  intros Hin Hc. unfold any_keyword. apply existsb_exists. eauto.
Qed.

(** Without an off-topic match, a text that mentions "data" is relevant. *)
Lemma data_text_relevant (fp : FileProcessor.t) (rnd : nat) (s : string) :
  contains "data" (lower s) = true ->
  off_topic (lower s) = false ->
  check_query_relevance fp rnd s = Ok (true, None).
Proof.
  intros Hd Ho. unfold check_query_relevance.
  rewrite (any_keyword_data bootstrap_keywords) by (simpl; auto).
  rewrite andb_false_r, Ho.
  rewrite (any_keyword_data data_keywords) by (simpl; auto).
  reflexivity.
Qed.

Lemma off_topic_split (t : string) :
  search programming_pattern t = false ->
  (forall p, In p off_topic_patterns -> p <> programming_pattern -> search p t = false) ->
  off_topic t = false.
Proof.
  intros Hp Ho. unfold off_topic, off_topic_patterns. cbn [existsb].
  rewrite Hp.
  rewrite !Ho; [reflexivity | | | | | | | | | | | |];
    first [ discriminate | unfold off_topic_patterns; simpl; tauto ].
Qed.

End ProgrammingClaim.

(** C3 (amended).  The patterns are matched against the lower-cased
    input, under [re.IGNORECASE], and the programming rule looks for
    "data" only after the term, up to the end of its line.  Take the
    pieces of the lower-cased text that match one of the terms
    programming, code, software, development up to letter case and stand
    between two word boundaries.  If one of them has no "data" after it
    before the next line feed, the rule fires and [check_query_relevance]
    returns not-relevant, whatever comes before the term, "data"
    included.  If each of them has "data" after it before the next line
    feed, the rule does not fire, and when the text contains "data" and no
    other off-topic pattern matches, [check_query_relevance] returns
    relevant. *)
Theorem C3_programming_rule_data_ahead (fp : FileProcessor.t) (rnd : nat) (s : string) :
  (forall pre m post,
      PyStr.lower s = pre ++ m ++ post ->
      In (PyStr.lower m) DataGuardrails.programming_terms ->
      Re.at_boundary (last_char pre) (m ++ post) = true ->
      Re.at_boundary (last_char (pre ++ m)) post = true ->
      data_ahead post = false ->
      Re.search DataGuardrails.programming_pattern (PyStr.lower s) = true
      /\ exists message,
          DataGuardrails.check_query_relevance fp rnd s = Ok (false, Some message))
  /\ ((forall pre m post,
         PyStr.lower s = pre ++ m ++ post ->
         In (PyStr.lower m) DataGuardrails.programming_terms ->
         Re.at_boundary (last_char pre) (m ++ post) = true ->
         Re.at_boundary (last_char (pre ++ m)) post = true ->
         data_ahead post = true) ->
      Re.search DataGuardrails.programming_pattern (PyStr.lower s) = false
      /\ (PyStr.contains "data" (PyStr.lower s) = true ->
          (forall p, In p DataGuardrails.off_topic_patterns ->
                     p <> DataGuardrails.programming_pattern ->
                     Re.search p (PyStr.lower s) = false) ->
          DataGuardrails.check_query_relevance fp rnd s = Ok (true, None))).
Proof.
  split.
  - intros pre m post E Hw B1 B2 D.
    assert (F : Re.search DataGuardrails.programming_pattern (PyStr.lower s) = true).
    { apply programming_rule_iff. exists pre, m, post. auto. }
    split; [exact F |].
    assert (Ho : DataGuardrails.off_topic (PyStr.lower s) = true).
    { unfold DataGuardrails.off_topic. apply existsb_exists.
      exists DataGuardrails.programming_pattern. split; [| exact F].
      unfold DataGuardrails.off_topic_patterns. simpl. tauto. }
    destruct (check_query_relevance_cases fp rnd s)
      as [(_ & _ & t & Et & _) | [(_ & _ & t & Et & _) | (_ & Hn & _)]];
      [eauto | eauto | congruence].
  - intros Hahead.
    assert (Hp : Re.search DataGuardrails.programming_pattern (PyStr.lower s) = false).
    { destruct (Re.search DataGuardrails.programming_pattern (PyStr.lower s)) eqn:E;
        [| reflexivity].
      apply programming_rule_iff in E.
      destruct E as (pre & m & post & E & Hw & B1 & B2 & D).
      rewrite (Hahead pre m post E Hw B1 B2) in D. discriminate. }
    split; [exact Hp |].
    intros Hdata Hothers.
    apply data_text_relevant; [exact Hdata |].
    apply off_topic_split; assumption.
Qed.

Lemma C3_witness :
  PyStr.contains "code" (PyStr.lower "Code for my data") = true
  /\ PyStr.contains "data" (PyStr.lower "Code for my data") = true
  /\ Re.search DataGuardrails.programming_pattern (PyStr.lower "Code for my data") = false
  /\ DataGuardrails.check_query_relevance Samples.no_files 0 "Code for my data" = Ok (true, None)
  /\ PyStr.lower "My data CODE" = "my data " ++ "code" ++ ""
  /\ Re.search DataGuardrails.programming_pattern (PyStr.lower "My data CODE") = true
  /\ exists message,
      DataGuardrails.check_query_relevance Samples.sales_loaded 0 "My data CODE"
      = Ok (false, Some message).
Proof.
  split; [reflexivity |]. split; [reflexivity |].
  destruct (C3_programming_rule_data_ahead Samples.no_files 0 "Code for my data")
    as (_ & K).
  destruct K as (Hp & Hr).
  { intros pre m post E Hw B1 B2.
    destruct (data_ahead post) eqn:D; [reflexivity |].
    assert (F : Re.search DataGuardrails.programming_pattern (PyStr.lower "Code for my data")
                = true).
    { apply programming_rule_iff. exists pre, m, post. auto. }
    vm_compute in F. discriminate F. }
  split; [exact Hp |]. split.
  { apply Hr; [reflexivity |].
    intros p Hin Hne. simpl in Hin.
    repeat (destruct Hin as [<- | Hin];
            [first [ vm_compute; reflexivity | exfalso; apply Hne; reflexivity ] |]).
    contradiction. }
  split; [reflexivity |].
  destruct (C3_programming_rule_data_ahead Samples.sales_loaded 0 "My data CODE")
    as (K & _).
  apply (K "my data " "code" ""); try reflexivity.
  simpl. auto.
Defined.

(** "data" before the programming term does not switch the rule off: with
    a dataset loaded, "my data code" matches the programming pattern and no
    other, and is classified not relevant. *)
Lemma C3_counterexample :
  PyStr.contains "code" "my data code" = true
  /\ PyStr.contains "data" "my data code" = true
  /\ map (fun p => Re.search p (PyStr.lower "my data code")) DataGuardrails.off_topic_patterns
     = [false; false; false; false; true; false; false]
  /\ DataGuardrails.check_query_relevance Samples.sales_loaded 0 "my data code"
     = Ok (false, Some "I'm here to help you analyze and understand your data files. Let's focus on the data you've loaded.").
Proof. repeat split; vm_compute; reflexivity. Qed.

Section Replay.
Import Providers.

Lemma list_pairs_ind {A : Type} (P : list A -> Prop) :
  P [] -> (forall x, P [x]) -> (forall x y l, P l -> P (x :: y :: l)) ->
  forall l, P l.
Proof.
  intros H0 H1 H2 l.
  assert (H : P l /\ forall x, P (x :: l)); [| tauto].
  induction l as [|a l [IHl IHl']]; auto.
Qed.

Lemma item_at (pre : list string) (x : string) (rest : list string) (n : nat) :
  List.length pre = n -> item (pre ++ x :: rest)%list n = Ok x.
Proof.
  intros <-. unfold item.
  rewrite nth_error_app2, Nat.sub_diag by lia. reflexivity.
Qed.

(** The index loop, started at entry [2 * k] with [pre] behind it, adds
    the pairs of what lies ahead. *)
Lemma replay_from (n : nat) :
  forall k pre rest acc,
    List.length pre = 2 * k ->
    n = Nat.div2 (List.length rest + 1) ->
    replay (pre ++ rest)%list (map (fun j => 2 * j) (seq k n)) acc
    = Ok (acc ++ paired rest)%list.
Proof.
  induction n as [|n IH]; intros k pre rest acc Hpre Hn.
  - destruct rest as [|x [|y rest]]; simpl in Hn; try discriminate.
    simpl. now rewrite app_nil_r.
  - destruct rest as [|x [|y rest]].
    + discriminate.
    + simpl in Hn. injection Hn as ->.
      cbn [seq map replay].
      replace (2 * k + 1 <? List.length (pre ++ [x])%list)%nat with false.
      * simpl. now rewrite app_nil_r.
      * symmetry. apply Nat.ltb_ge. rewrite length_app. simpl. lia.
    + cbn [seq map replay].
      replace (2 * k + 1 <? List.length (pre ++ x :: y :: rest)%list)%nat with true.
      * rewrite (item_at pre x (y :: rest) (2 * k) Hpre). cbn [bind].
        replace (pre ++ x :: y :: rest)%list with ((pre ++ [x]) ++ y :: rest)%list
          by (now rewrite <- app_assoc).
        rewrite (item_at (pre ++ [x])%list y rest (2 * k + 1))
          by (rewrite length_app; simpl; lia).
        cbn [bind].
        replace ((pre ++ [x]) ++ y :: rest)%list with ((pre ++ [x; y]) ++ rest)%list
          by (now rewrite <- !app_assoc).
        rewrite (IH (S k) (pre ++ [x; y])%list rest).
        -- unfold PyStr.append. cbn [paired]. now rewrite <- !app_assoc.
        -- rewrite length_app. simpl. lia.
        -- simpl in Hn. injection Hn as Hn. rewrite Hn.
           replace (List.length rest + 1) with (S (List.length rest)) by lia.
           reflexivity.
      * symmetry. apply Nat.ltb_lt. rewrite length_app. simpl. lia.
Qed.

Lemma build_messages_paired (h : list string) (prompt : string) :
  build_messages h prompt
  = Ok ((system_message :: paired h) ++ [mkMessage "user" prompt])%list.
Proof.
  unfold build_messages, range_step2.
  pose proof (replay_from (Nat.div2 (List.length h + 1)) 0 [] h [system_message]
                eq_refl eq_refl) as E.
  cbn [app] in E. rewrite E. reflexivity.
Qed.

Lemma paired_length (h : list string) :
  List.length (paired h) = 2 * Nat.div2 (List.length h).
Proof.
  induction h as [| x | x y l IH] using list_pairs_ind; try reflexivity.
  cbn [paired List.length Nat.div2]. rewrite IH. lia.
Qed.

Lemma paired_drops_trailing (h : list string) (x : string) :
  Nat.even (List.length h) = true -> paired (h ++ [x])%list = paired h.
Proof.
  induction h as [| y | y z l IH] using list_pairs_ind; intros He.
  - reflexivity.
  - discriminate.
  - cbn [app paired]. rewrite IH; [reflexivity | exact He].
Qed.

End Replay.

(** C9.  For every stored history, of even or odd length, building the
    role-tagged message list does not raise: the list is the system
    message, then the stored entries taken two at a time as (user,
    assistant) pairs, then the current prompt as a user message.  The
    pairs number two for every two stored entries, and an entry left over
    at the end of the history is ignored. *)
Theorem C9_history_replay_pairs (h : list string) (prompt : string) :
  Providers.build_messages h prompt
  = Ok ((Providers.system_message :: paired h) ++ [mkMessage "user" prompt])%list
  /\ List.length (paired h) = 2 * Nat.div2 (List.length h)
  /\ forall x, Nat.even (List.length h) = true ->
               Providers.build_messages (h ++ [x])%list prompt
               = Providers.build_messages h prompt.
Proof.
  split; [apply build_messages_paired |].
  split; [apply paired_length |].
  intros x He. rewrite !build_messages_paired, paired_drops_trailing by exact He.
  reflexivity.
Qed.

Lemma C9_witness :
  Nat.even (List.length ["User: hi"; "Assistant: hello"]) = true
  /\ Providers.build_messages ["User: hi"; "Assistant: hello"; "User: left over"] "next"
     = Ok [ Providers.system_message; mkMessage "user" "hi"; mkMessage "assistant" "hello";
            mkMessage "user" "next" ].
Proof.
  split; [reflexivity |].
  destruct (C9_history_replay_pairs ["User: hi"; "Assistant: hello"] "next") as (E & _ & T).
  change ["User: hi"; "Assistant: hello"; "User: left over"]
    with (["User: hi"; "Assistant: hello"] ++ ["User: left over"])%list.
  rewrite (T "User: left over" eq_refl). exact E.
Defined.

Section Generate.
Import Providers.

Ltac run :=
  unfold generate_response, enter, generate_response_gemini, generate_response_openai,
    generate_response_anthropic, generate_response_ollama,
    generate_try, generate_try_gemini, generate_try_openai, generate_try_anthropic,
    generate_try_ollama, catch, mbind, self, get_context, require_handle, call, send,
    response_text, choices, first_item, http_status, response_json, unexpected_shape,
    add_to_history, set_history, import, modify, lift, ret, raise;
  cbn [fst snd kind config conversation_history handle url].

Ltac tidy :=
  cbn -[with_context PyStr.join PyStr.last_n build_messages String.append PyStr.of_Z
        PyStr.append apology status_error Z.eqb entered].

Ltac split_cases :=
  repeat (match goal with
          | |- context [match ?x with _ => _ end] =>
              first [ is_var x; destruct x
                    | match x with
                      | backend _ _ => destruct x eqn:?
                      | importable _ _ => destruct x eqn:?
                      | Z.eqb _ _ => destruct x eqn:?
                      | PyStr.truthy _ => destruct x eqn:?
                      end ]
          end; tidy).

(** What one call of [generate_response] can do: it returns a [str] or
    [None]; it
    leaves the adapter as it was but for the history, which it either
    keeps or extends by the exchange of the prompt and what it returns;
    it prints nothing. *)
Lemma generate_response_effect (env : Env) (prompt : string) (a : Adapter) (w : World) :
  exists r a' w',
    generate_response env prompt (a, w) = (Ok r, (a', w'))
    /\ kind a' = kind a /\ config a' = config a /\ handle a' = handle a /\ url a' = url a
    /\ console w' = console w
    /\ generate_calls w' = S (generate_calls w)
    /\ (conversation_history a' = conversation_history a
        \/ conversation_history a' = (conversation_history a ++ exchange prompt r)%list).
Proof.
  destruct a as [k c h hd u]. run.
  destruct k; run; rewrite ?build_messages_paired; tidy; split_cases.
  all: try (do 3 eexists; split; [reflexivity |]; tidy; repeat split; auto; fail).
  all: try (do 3 eexists; split; [reflexivity |]; tidy; repeat split; auto;
            right; unfold PyStr.append, exchange; rewrite <- app_assoc; reflexivity).
Qed.

Lemma generate_response_total (env : Env) (prompt : string) (s : PState) :
  exists r s', generate_response env prompt s = (Ok r, s').
Proof.
  destruct s as [a w].
  destruct (generate_response_effect env prompt a w) as (r & a' & w' & E & _).
  eauto.
Qed.

(** The handler of every class turns what the [try] block raises into
    the apology. *)
Lemma generate_response_caught (env : Env) (prompt : string) (a : Adapter) (w : World)
      (e : exn) (s' : PState) :
  generate_try env prompt (a, entered w) = (Raise e, s') ->
  generate_response env prompt (a, w) = (Ok (Some (apology (who (kind a)) e)), s').
Proof.
  unfold generate_response, generate_try, enter, modify, mbind, self. cbn [fst snd].
  destruct (kind a); cbn [who];
    unfold generate_response_gemini, generate_response_openai,
      generate_response_anthropic, generate_response_ollama, catch;
    intros ->; reflexivity.
Qed.

(** A [try] block that raises has not touched the history. *)
Lemma generate_try_raise_keeps (env : Env) (prompt : string) (a : Adapter) (w : World)
      (e : exn) (s' : PState) :
  generate_try env prompt (a, w) = (Raise e, s') ->
  conversation_history (fst s') = conversation_history a.
Proof.
  destruct a as [k c h hd u]. run.
  destruct k; run; rewrite ?build_messages_paired; tidy; split_cases;
    intros E; inversion E; subst; reflexivity.
Qed.

Lemma contains_refl (x : string) : PyStr.contains x x = true.
Proof.
  assert (H : forall y, PyStr.startswith y y = true).
  { induction y as [|c y IH]; simpl; [reflexivity | now rewrite Ascii.eqb_refl, IH]. }
  destruct x; simpl; [reflexivity |]. now rewrite Ascii.eqb_refl, H.
Qed.

Lemma contains_app_r (pre x : string) : PyStr.contains x (pre ++ x) = true.
Proof.
  induction pre as [|c pre IH].
  - apply contains_refl.
  - cbn [String.append PyStr.contains]. rewrite IH. apply orb_true_r.
Qed.

Lemma apology_embeds (name : string) (e : exn) :
  PyStr.startswith "I'm sorry" (apology name e) = true
  /\ PyStr.contains (exn_str e) (apology name e) = true.
Proof.
  split; [reflexivity |].
  unfold apology.
  replace ("I'm sorry, I encountered an error: " ++ "Error with " ++ name ++ ": " ++ exn_str e)
    with (("I'm sorry, I encountered an error: " ++ "Error with " ++ name ++ ": ")
            ++ exn_str e).
  - apply contains_app_r.
  - now rewrite !app_assoc_s.
Qed.

(** A backend that raises [e] on every request, met by an adapter that
    can reach it. *)
Lemma generate_response_backend_raises (env : Env) (prompt : string) (a : Adapter)
      (w : World) (e : exn) :
  (forall req, backend env req = Raises e) ->
  importable env (kind a) = true ->
  (handle a = true \/ kind a = OLLAMA) ->
  exists w',
    generate_response env prompt (a, w) = (Ok (Some (apology (who (kind a)) e)), (a, w')).
Proof.
  intros Hb Hi Hh. destruct a as [k c h hd u]. cbn [kind handle] in *. run.
  destruct k; run; rewrite ?build_messages_paired;
    destruct Hh as [-> | Hk]; try discriminate Hk;
      repeat (progress (rewrite ?Hi, ?Hb; tidy)); eexists; reflexivity.
Qed.

(** An Ollama server that answers every request with a status other
    than 200. *)
Lemma generate_response_ollama_status (env : Env) (prompt : string) (a : Adapter)
      (w : World) (code : Z) (json : result (option (option string))) :
  kind a = OLLAMA ->
  importable env OLLAMA = true ->
  (forall req, backend env req = Http code json) ->
  code <> 200%Z ->
  exists w',
    generate_response env prompt (a, w) = (Ok (Some (status_error code)), (a, w')).
Proof.
  intros Hk Hi Hb Hc. destruct a as [k c h hd u]. cbn [kind] in Hk. subst k. run.
  apply Z.eqb_neq in Hc.
  repeat (progress (rewrite ?Hi, ?Hb, ?Hc; tidy)). eexists; reflexivity.
Qed.

(** A well-formed, non-empty response to every request. *)
Lemma generate_response_answered (env : Env) (prompt : string) (a : Adapter)
      (w : World) (t : string) :
  (forall req, backend env req = answer_of (kind a) t) ->
  importable env (kind a) = true ->
  (handle a = true \/ kind a = OLLAMA) ->
  PyStr.truthy t = true ->
  exists a' w',
    generate_response env prompt (a, w) = (Ok (Some t), (a', w'))
    /\ conversation_history a' = (conversation_history a ++ exchange prompt (Some t))%list.
Proof.
  intros Hb Hi Hh Ht. destruct a as [k c h hd u]. cbn [kind handle] in *. run.
  destruct k; run; rewrite ?build_messages_paired;
    destruct Hh as [-> | Hk]; try discriminate Hk;
      repeat (progress (rewrite ?Hi, ?Hb, ?Ht; tidy));
      do 2 eexists; (split; [reflexivity |]); tidy;
        unfold PyStr.append, exchange; rewrite <- app_assoc; reflexivity.
Qed.

(** [generate_response] returns [None] only when the backend has handed
    it over: as the content of the first choice of the completion it
    sent for, or as the entry under "response" of an Ollama body. *)
Lemma generate_response_none (env : Env) (prompt : string) (a : Adapter) (w : World)
      (s' : PState) :
  generate_response env prompt (a, w) = (Ok None, s') ->
  exists req,
    trace (snd s') = (trace w ++ [req])%list
    /\ ((exists rest, backend env req = Choices (None :: rest))
        \/ backend env req = Http 200 (Ok (Some None))).
Proof.
  destruct a as [k c h hd u]. run.
  destruct k; run; rewrite ?build_messages_paired; tidy; split_cases;
    intros E; try discriminate E;
    apply pair_equal_spec in E; destruct E as [Er <-];
    injection Er as Er; try discriminate Er; subst;
    (eexists; split; [reflexivity |]).
  all: try (left; eexists; eassumption).
  all: right.
  all: match goal with
       | H : (_ =? 200)%Z = true |- _ => apply Z.eqb_eq in H; subst
       end.
  all: match goal with
       | H : response_entry ?x = None |- _ =>
           destruct x as [[t |] |]; try discriminate H
       end.
  all: eassumption.
Qed.

(** A completion whose first choice, or content block, carries [v]: a
    text, the empty text or [None].  It is returned as it is and
    recorded. *)
Lemma generate_response_first_choice (env : Env) (prompt : string) (a : Adapter)
      (w : World) (v : option string) (rest : list (option string)) :
  (kind a = OPENAI \/ kind a = ANTHROPIC) ->
  handle a = true ->
  (forall req, backend env req = Choices (v :: rest)) ->
  exists a' w',
    generate_response env prompt (a, w) = (Ok v, (a', w'))
    /\ conversation_history a' = (conversation_history a ++ exchange prompt v)%list.
Proof.
  intros Hk Hh Hb. destruct a as [k c h hd u]. cbn [kind handle] in *. subst hd. run.
  destruct Hk as [-> | ->]; run; rewrite ?build_messages_paired;
    repeat (progress (rewrite ?Hb; tidy));
    do 2 eexists; (split; [reflexivity |]); tidy;
      unfold PyStr.append, exchange; rewrite <- app_assoc; reflexivity.
Qed.

(** A completion with no choice, or no content block, at all. *)
Lemma generate_response_no_choice (env : Env) (prompt : string) (a : Adapter) (w : World) :
  (kind a = OPENAI \/ kind a = ANTHROPIC) ->
  handle a = true ->
  (forall req, backend env req = Choices []) ->
  exists w',
    generate_response env prompt (a, w)
    = (Ok (Some (apology (who (kind a)) (mkExn IndexError "list index out of range"))),
       (a, w')).
Proof.
  intros Hk Hh Hb. destruct a as [k c h hd u]. cbn [kind handle] in *. subst hd. run.
  destruct Hk as [-> | ->]; run; rewrite ?build_messages_paired;
    repeat (progress (rewrite ?Hb; tidy)); eexists; reflexivity.
Qed.

(** A Gemini response whose text is empty. *)
Lemma generate_response_gemini_empty (env : Env) (prompt : string) (a : Adapter) (w : World) :
  kind a = GEMINI ->
  handle a = true ->
  (forall req, backend env req = Text (Ok "")) ->
  exists a' w',
    generate_response env prompt (a, w) = (Ok (Some no_response), (a', w'))
    /\ conversation_history a'
       = (conversation_history a ++ exchange prompt (Some no_response))%list.
Proof.
  intros Hk Hh Hb. destruct a as [k c h hd u]. cbn [kind handle] in *. subst k hd. run.
  repeat (progress (rewrite ?Hb; tidy)).
  do 2 eexists; (split; [reflexivity |]); tidy.
  unfold PyStr.append, exchange; rewrite <- app_assoc; reflexivity.
Qed.

(** An Ollama response with status 200 whose body parses. *)
Lemma generate_response_ollama_entry (env : Env) (prompt : string) (a : Adapter)
      (w : World) (entry : option (option string)) :
  kind a = OLLAMA ->
  importable env OLLAMA = true ->
  (forall req, backend env req = Http 200 (Ok entry)) ->
  exists a' w',
    generate_response env prompt (a, w) = (Ok (response_entry entry), (a', w'))
    /\ conversation_history a'
       = (conversation_history a ++ exchange prompt (response_entry entry))%list.
Proof.
  intros Hk Hi Hb. destruct a as [k c h hd u]. cbn [kind] in Hk. subst k. run.
  repeat (progress (rewrite ?Hi, ?Hb; tidy)).
  do 2 eexists; (split; [reflexivity |]); tidy.
  unfold PyStr.append, exchange; rewrite <- app_assoc; reflexivity.
Qed.

End Generate.




Section History.
Import Providers.

Lemma clear_then_get (a : Adapter) (w : World) :
  (clear_history >> get_history) (a, w)
  = (Ok [], (mkAdapter (kind a) (config a) [] (handle a) (url a), w)).
Proof. reflexivity. Qed.

Lemma exchange_appended (h : list string) (user_input : string)
      (ai_response : option string) :
  List.length (h ++ exchange user_input ai_response)%list = List.length h + 2
  /\ firstn (List.length h) (h ++ exchange user_input ai_response)%list = h
  /\ skipn (List.length h) (h ++ exchange user_input ai_response)%list
     = [ "User: " ++ user_input; "Assistant: " ++ PyStr.str_of ai_response ].
Proof.
  split; [rewrite length_app; reflexivity |].
  split.
  - rewrite firstn_app, Nat.sub_diag, firstn_all. simpl. apply app_nil_r.
  - rewrite skipn_app, Nat.sub_diag, skipn_all. reflexivity.
Qed.

(** [add_to_history] appends the exchange. *)
Lemma add_to_history_appends (a : Adapter) (w : World) (user_input : string)
      (ai_response : option string) :
  add_to_history user_input ai_response (a, w)
  = (Ok tt, (mkAdapter (kind a) (config a)
               (conversation_history a ++ exchange user_input ai_response)%list
               (handle a) (url a), w)).
Proof.
  unfold add_to_history, mbind, self, set_history, modify, PyStr.append, exchange.
  cbn [fst snd kind config conversation_history handle url].
  rewrite <- app_assoc. reflexivity.
Qed.

End History.

(** C8.  [clear_history] followed by [get_history] returns the empty
    list, whatever the history was.  A call of [generate_response] leaves
    the history as it was or extends it by exactly the exchange of the
    prompt and what it returns; when the backend answers with a
    well-formed, non-empty response the call succeeds and the history gets
    exactly two new entries, the user's then the assistant's, after the
    earlier entries, which are unchanged. *)
Theorem C8_history_clear_and_append
        (env : Env) (prompt : string) (a : Providers.Adapter) (w : World) :
  (exists s', (Providers.clear_history >> Providers.get_history) (a, w) = (Ok [], s'))
  /\ (forall user_input ai_response,
         exists a',
           Providers.add_to_history user_input ai_response (a, w) = (Ok tt, (a', w))
           /\ Providers.conversation_history a'
              = (Providers.conversation_history a ++ exchange user_input ai_response)%list)
  /\ (exists r a' w',
         Providers.generate_response env prompt (a, w) = (Ok r, (a', w'))
         /\ (Providers.conversation_history a' = Providers.conversation_history a
             \/ Providers.conversation_history a'
                = (Providers.conversation_history a ++ exchange prompt r)%list))
  /\ (forall t,
         (forall req, backend env req = answer_of (Providers.kind a) t) ->
         importable env (Providers.kind a) = true ->
         (Providers.handle a = true \/ Providers.kind a = OLLAMA) ->
         PyStr.truthy t = true ->
         exists a' w',
           Providers.generate_response env prompt (a, w) = (Ok (Some t), (a', w'))
           /\ List.length (Providers.conversation_history a')
              = List.length (Providers.conversation_history a) + 2
           /\ firstn (List.length (Providers.conversation_history a))
                     (Providers.conversation_history a')
              = Providers.conversation_history a
           /\ skipn (List.length (Providers.conversation_history a))
                    (Providers.conversation_history a')
              = [ "User: " ++ prompt; "Assistant: " ++ t ]).
Proof.
  split; [rewrite clear_then_get; eauto |].
  split.
  { intros u r. rewrite add_to_history_appends. eexists. split; reflexivity. }
  split.
  { destruct (generate_response_effect env prompt a w)
      as (r & a' & w' & E & _ & _ & _ & _ & _ & _ & H).
    eauto 6. }
  intros t Hb Hi Hh Ht.
  destruct (generate_response_answered env prompt a w t Hb Hi Hh Ht) as (a' & w' & E & H).
  exists a', w'. split; [exact E |].
  rewrite H. apply (exchange_appended _ prompt (Some t)).
Qed.

Lemma C8_witness :
  (forall req, backend Samples.online req = answer_of OPENAI "42 rows")
  /\ fst (Providers.generate_response Samples.online "how many rows?"
            (Samples.talking, Samples.quiet))
     = Ok (Some "42 rows")
  /\ Providers.conversation_history
       (fst (snd (Providers.generate_response Samples.online "how many rows?"
                    (Samples.talking, Samples.quiet))))
     = [ "User: hi"; "Assistant: hello"; "User: how many rows?"; "Assistant: 42 rows" ].
Proof.
  split; [reflexivity |].
  destruct (C8_history_clear_and_append Samples.online "how many rows?"
              Samples.talking Samples.quiet) as (_ & _ & _ & K).
  destruct (K "42 rows" (fun _ => eq_refl) eq_refl (or_introl eq_refl) eq_refl)
    as (a' & w' & E & _ & F & S).
  rewrite E. split; [reflexivity |].
  cbn [fst snd]. rewrite <- (firstn_skipn 2 (Providers.conversation_history a')).
  change 2 with (List.length (Providers.conversation_history Samples.talking)).
  rewrite F, S. reflexivity.
Defined.

Section Orchestrator.
Import Brain.

(** The line [think] prints when its [try] block raises [e]. *)
Lemma think_caught (env : Env) (rnd : nat) (s : string) (m : Machine) (e : exn) (m' : Machine) :
  think_try env rnd s m = (Raise e, m') ->
  think env rnd s m
  = (Ok (Some sorry),
     on_world (fun w => mkWorld (trace w)
                          (PyStr.append (console w)
                             ("Brain error: " ++ "Error processing prompt with "
                                ++ AIProviderEnum.value (provider (config (brain m')))
                                ++ ": " ++ exn_str e))
                          (generate_calls w)) m').
Proof. unfold think, catch. intros ->. reflexivity. Qed.

Lemma think_total (env : Env) (rnd : nat) (s : string) (m : Machine) :
  exists out m', think env rnd s m = (Ok out, m').
Proof.
  destruct (think_try env rnd s m) as [[out | e] m'] eqn:E.
  - exists out, m'. unfold think, catch. rewrite E. reflexivity.
  - rewrite (think_caught env rnd s m e m' E). eauto.
Qed.

(** The only step of the [try] block that can raise is the composition
    of the prompt. *)
Lemma think_try_raises_in_composer (env : Env) (rnd : nat) (s : string) (m : Machine)
      (e : exn) (m' : Machine) :
  think_try env rnd s m = (Raise e, m') ->
  DataGuardrails.enhance_prompt_with_context (file_processor (brain m)) s = Raise e
  /\ m' = m.
Proof.
  unfold think_try, mbind, get, lift.
  destruct (check_query_relevance_total (file_processor (brain m)) rnd s) as ([b o] & ->).
  assert (K : (let answer : M Machine (option string) :=
                 fun s0 =>
                   match DataGuardrails.enhance_prompt_with_context
                           (file_processor (brain m)) s with
                   | Ok a =>
                       in_provider (Providers.generate_response env a) s0
                   | Raise e0 => (Raise e0, s0)
                   end in answer m) = (Raise e, m') ->
              DataGuardrails.enhance_prompt_with_context (file_processor (brain m)) s
              = Raise e /\ m' = m).
  { cbv zeta.
    destruct (DataGuardrails.enhance_prompt_with_context (file_processor (brain m)) s)
      as [p | e0].
    - unfold in_provider, zoom.
      destruct (generate_response_total env p (ai_provider (brain m), world m))
        as (r & s' & ->).
      discriminate.
    - intros H. inversion H. auto. }
  cbv zeta in K |- *.
  destruct o as [text |]; [destruct (negb b && PyStr.truthy text) |]; try exact K.
  discriminate.
Qed.

(** On a relevant decision whose prompt is composed, [think] enters
    [generate_response] once. *)
Lemma think_relevant_invokes (env : Env) (rnd : nat) (s : string) (m : Machine)
      (redirect : option string) (p : string) :
  DataGuardrails.check_query_relevance (file_processor (brain m)) rnd s = Ok (true, redirect) ->
  DataGuardrails.enhance_prompt_with_context (file_processor (brain m)) s = Ok p ->
  generate_calls (world (snd (think env rnd s m))) = S (generate_calls (world m)).
Proof.
  intros Hc Hp.
  unfold think, catch, think_try, mbind, get, lift. rewrite Hc. cbv zeta.
  destruct (generate_response_effect env p (ai_provider (brain m)) (world m))
    as (r & a' & w' & E & _ & _ & _ & _ & _ & Hn & _).
  destruct redirect as [text |]; cbn [negb andb]; rewrite Hp;
    unfold in_provider, zoom; rewrite E; cbn; exact Hn.
Qed.

(** On a relevant decision whose prompt is composed, [think] returns
    what [generate_response] returns on that prompt, and leaves what it
    leaves. *)
Lemma think_relevant_answer (env : Env) (rnd : nat) (s : string) (m : Machine)
      (redirect : option string) (p : string) :
  DataGuardrails.check_query_relevance (file_processor (brain m)) rnd s = Ok (true, redirect) ->
  DataGuardrails.enhance_prompt_with_context (file_processor (brain m)) s = Ok p ->
  think env rnd s m
  = (fst (Providers.generate_response env p (ai_provider (brain m), world m)),
     mkMachine
       (mkBrain (config (brain m))
                (fst (snd (Providers.generate_response env p
                             (ai_provider (brain m), world m))))
                (file_processor (brain m)))
       (Config_class m)
       (snd (snd (Providers.generate_response env p (ai_provider (brain m), world m))))).
Proof.
  intros Hc Hp.
  unfold think, catch, think_try, mbind, get, lift. rewrite Hc. cbv zeta.
  destruct (generate_response_total env p (ai_provider (brain m), world m))
    as (r & s' & E).
  destruct redirect as [text |]; cbn [negb andb]; rewrite Hp;
    unfold in_provider, zoom; rewrite E; reflexivity.
Qed.

(** Where the answer of [think] comes from: the redirect message, the
    apology, or the adapter. *)
Lemma think_answer_cases (env : Env) (rnd : nat) (s : string) (m : Machine) :
  (exists text, think env rnd s m = (Ok (Some text), m))
  \/ (exists e m', think_try env rnd s m = (Raise e, m'))
  \/ (exists redirect p,
         DataGuardrails.check_query_relevance (file_processor (brain m)) rnd s
         = Ok (true, redirect)
         /\ DataGuardrails.enhance_prompt_with_context (file_processor (brain m)) s = Ok p).
Proof.
  destruct (check_query_relevance_cases (file_processor (brain m)) rnd s)
    as [(_ & _ & t & E & Hin) | [(_ & _ & t & E & Hin) | (_ & _ & _ & E)]].
  - left. exists t. apply think_redirect; [exact E | now apply no_data_truthy].
  - left. exists t. apply think_redirect; [exact E | now apply redirect_truthy].
  - right.
    destruct (DataGuardrails.enhance_prompt_with_context (file_processor (brain m)) s)
      as [p | e] eqn:Hp.
    + right. eauto.
    + left. exists e, m. unfold think_try, mbind, get, lift. rewrite E. cbv zeta.
      now rewrite Hp.
Qed.

End Orchestrator.

(** C4 (the code departs from the claim).  For every input string
    [think] does not raise: whatever its [try] block raises is caught, one
    line is printed and the fixed apology is returned.  But what it
    returns is not always a string.  On a relevant input it passes on what
    the adapter's [generate_response] returned, unchecked, and the OpenAI
    and Anthropic adapters return the content of the first choice as it
    is: when that content is [None], [think] returns [None], having
    recorded "Assistant: None" in the history.  It returns [None] in no
    other way than by a backend handing [None] over, as a content or as
    the "response" entry of an Ollama body. *)
Theorem C4_think_never_raises_may_return_none
        (env : Env) (rnd : nat) (s : string) (m : Brain.Machine) :
  (exists out m', Brain.think env rnd s m = (Ok out, m'))
  /\ (forall e m',
         Brain.think_try env rnd s m = (Raise e, m') ->
         fst (Brain.think env rnd s m) = Ok (Some Brain.sorry)
         /\ Brain.brain (snd (Brain.think env rnd s m)) = Brain.brain m
         /\ trace (Brain.world (snd (Brain.think env rnd s m))) = trace (Brain.world m)
         /\ List.length (console (Brain.world (snd (Brain.think env rnd s m))))
            = S (List.length (console (Brain.world m))))
  /\ (forall m',
         Brain.think env rnd s m = (Ok None, m') ->
         exists req,
           trace (Brain.world m') = (trace (Brain.world m) ++ [req])%list
           /\ ((exists rest, backend env req = Choices (None :: rest))
               \/ backend env req = Http 200 (Ok (Some None))))
  /\ (forall redirect p rest,
         DataGuardrails.check_query_relevance (Brain.file_processor (Brain.brain m)) rnd s
         = Ok (true, redirect) ->
         DataGuardrails.enhance_prompt_with_context (Brain.file_processor (Brain.brain m)) s
         = Ok p ->
         (Providers.kind (Brain.ai_provider (Brain.brain m)) = OPENAI
          \/ Providers.kind (Brain.ai_provider (Brain.brain m)) = ANTHROPIC) ->
         Providers.handle (Brain.ai_provider (Brain.brain m)) = true ->
         (forall req, backend env req = Choices (None :: rest)) ->
         fst (Brain.think env rnd s m) = Ok None
         /\ Providers.conversation_history
              (Brain.ai_provider (Brain.brain (snd (Brain.think env rnd s m))))
            = (Providers.conversation_history (Brain.ai_provider (Brain.brain m))
               ++ exchange p None)%list
         /\ last (exchange p None) "" = "Assistant: None").
Proof.
  split; [apply think_total |].
  split.
  { intros e m' H.
    rewrite (think_caught env rnd s m e m' H).
    destruct (think_try_raises_in_composer env rnd s m e m' H) as [_ ->].
    cbn. unfold PyStr.append. rewrite length_app. cbn. repeat split; lia. }
  split.
  { intros m' H.
    destruct (think_answer_cases env rnd s m)
      as [(text & E) | [(e & m1 & E) | (redirect & p & Hc & Hp)]].
    - rewrite E in H. discriminate H.
    - rewrite (think_caught env rnd s m e m1 E) in H. discriminate H.
    - rewrite (think_relevant_answer env rnd s m redirect p Hc Hp) in H.
      destruct (Providers.generate_response env p
                  (Brain.ai_provider (Brain.brain m), Brain.world m))
        as [r [a' w']] eqn:G.
      cbn [fst snd] in H. apply pair_equal_spec in H. destruct H as [-> <-].
      destruct (generate_response_none env p _ _ _ G) as (req & T & B).
      exists req. split; [exact T | exact B]. }
  intros redirect p rest Hc Hp Hk Hh Hb.
  rewrite (think_relevant_answer env rnd s m redirect p Hc Hp). cbn [fst snd].
  destruct (generate_response_first_choice env p (Brain.ai_provider (Brain.brain m))
              (Brain.world m) None rest Hk Hh Hb) as (a' & w' & E & H).
  rewrite E. cbn [fst snd Brain.brain Brain.ai_provider].
  split; [reflexivity |]. split; [exact H | reflexivity].
Qed.

Lemma C4_witness :
  fst (Brain.think_try Samples.online 0 "count the rows" (Samples.machine Samples.numbered_loaded))
  = Raise (mkExn TypeError "sequence item 1: expected str instance, int found")
  /\ fst (Brain.think Samples.online 0 "count the rows" (Samples.machine Samples.numbered_loaded))
     = Ok (Some "I'm sorry, I encountered an error while processing your request. Please try again.")
  /\ (forall req, backend Samples.speechless req = Choices [None])
  /\ fst (Brain.think Samples.speechless 0 "show the sales totals"
            (Samples.machine Samples.sales_loaded))
     = Ok None.
Proof.
  split; [vm_compute; reflexivity |].
  split.
  - destruct (C4_think_never_raises_may_return_none Samples.online 0 "count the rows"
                (Samples.machine Samples.numbered_loaded)) as (_ & K & _).
    destruct (K (mkExn TypeError "sequence item 1: expected str instance, int found")
                (Samples.machine Samples.numbered_loaded)) as (E & _).
    + vm_compute. reflexivity.
    + exact E.
  - split; [reflexivity |].
    destruct (C4_think_never_raises_may_return_none Samples.speechless 0
                "show the sales totals" (Samples.machine Samples.sales_loaded))
      as (_ & _ & _ & K).
    destruct (DataGuardrails.enhance_prompt_with_context Samples.sales_loaded
                "show the sales totals") as [p | e] eqn:Hp;
      [| vm_compute in Hp; discriminate Hp].
    destruct (K None p [] eq_refl Hp (or_introl eq_refl) eq_refl (fun _ => eq_refl))
      as [E _].
    exact E.
Defined.

Section Switching.
Import Providers.

Ltac start :=
  unfold initialize, initialize_sdk, initialize_ollama, reraise_import, setup_client,
    set_handle, catch, mbind, self, call, send, http_status, unexpected_shape,
    import, modify, lift, ret, raise;
  cbn [fst snd kind config conversation_history handle url].

Ltac tidy :=
  cbn -[String.append PyStr.append Z.eqb].

Ltac split_cases :=
  repeat (match goal with
          | |- context [match ?x with _ => _ end] =>
              first [ is_var x; destruct x
                    | match x with
                      | backend _ _ => destruct x eqn:?
                      | importable _ _ => destruct x eqn:?
                      | client_setup _ _ => destruct x eqn:?
                      | Z.eqb _ _ => destruct x eqn:?
                      | truthy_opt _ => destruct x eqn:?
                      | is_import_error _ => destruct x eqn:?
                      end ]
          end; tidy).

(** [initialize] does not touch the history. *)
Lemma initialize_keeps_history (env : Env) (a : Adapter) (w : World)
      (r : result unit) (a' : Adapter) (w' : World) :
  initialize env (a, w) = (r, (a', w')) ->
  kind a' = kind a /\ config a' = config a
  /\ conversation_history a' = conversation_history a.
Proof.
  destruct a as [k c h hd u]. start.
  destruct k; start; tidy; split_cases;
    intros E; inversion E; subst; auto.
Qed.

(** An adapter that comes out of the factory has an empty history. *)
Lemma create_provider_fresh (env : Env) (c : ModelConfig) (w : World)
      (p : Adapter) (w' : World) :
  create_provider env c w = (Ok p, w') ->
  kind p = provider c /\ config p = c /\ conversation_history p = [].
Proof.
  unfold create_provider.
  destruct (existsb (AIProviderEnum.eqb (provider c)) _providers); [| discriminate].
  destruct (initialize env (new (provider c) c, w)) as [r [a' w'']] eqn:E.
  apply initialize_keeps_history in E.
  destruct r; intros H; inversion H; subst. exact E.
Qed.

End Switching.

Section SwitchModel.
Import Brain.

(** The three ways [switch_model] ends: the provider has no
    configuration; the new adapter is built; building it raises. *)
Lemma switch_model_cases (env : Env) (p : AIProvider) (m : Machine) :
  match Config.lookup p (Config.MODEL_CONFIGS (Config_class m)) with
  | None =>
      switch_model env p m
      = (Ok ("Failed to switch to " ++ AIProviderEnum.value p ++ ": "
               ++ "Unsupported AI provider: " ++ AIProviderEnum.str p), m)
  | Some c =>
      match Providers.create_provider env c (world m) with
      | (Ok new_provider, w') =>
          switch_model env p m
          = (Ok ("Switched to " ++ AIProviderEnum.value p ++ " model: " ++ model_name c),
             mkMachine (mkBrain c new_provider (file_processor (brain m)))
                       (Config.mkConfig p (Config.MODEL_CONFIGS (Config_class m))) w')
      | (Raise e, w') =>
          switch_model env p m
          = (Ok ("Failed to switch to " ++ AIProviderEnum.value p ++ ": " ++ exn_str e),
             mkMachine (mkBrain c (ai_provider (brain m)) (file_processor (brain m)))
                       (Config.mkConfig p (Config.MODEL_CONFIGS (Config_class m))) w')
      end
  end.
Proof.
  destruct m as [[bc ba bf] [active configs] w].
  cbn [Config_class brain world Config.MODEL_CONFIGS ai_provider file_processor].
  unfold switch_model, in_config, in_world, Config.switch_model,
    Config.get_active_config, set_config, set_ai_provider.
  unfold catch, mbind, zoom, get, modify, ret, raise.
  cbn [Config_class brain world Config.ACTIVE_MODEL Config.MODEL_CONFIGS
         config ai_provider file_processor fst snd].
  destruct (Config.lookup p configs) as [c |] eqn:L.
  - cbn [Config_class brain world Config.ACTIVE_MODEL Config.MODEL_CONFIGS
           config ai_provider file_processor fst snd].
    rewrite L.
    cbn [Config_class brain world Config.ACTIVE_MODEL Config.MODEL_CONFIGS
           config ai_provider file_processor fst snd].
    destruct (Providers.create_provider env c w) as [[new_provider | e] w'];
      reflexivity.
  - reflexivity.
Qed.

(** When building the new adapter raises, the old adapter stays in place
    while both the class attribute and the orchestrator's configuration
    already name the requested provider. *)
Lemma failed_switch_state (env : Env) (p : AIProvider) (m : Machine)
      (c : ModelConfig) (e : exn) (w' : World) :
  Config.lookup p (Config.MODEL_CONFIGS (Config_class m)) = Some c ->
  Providers.create_provider env c (world m) = (Raise e, w') ->
  ai_provider (brain (snd (switch_model env p m))) = ai_provider (brain m)
  /\ Config.ACTIVE_MODEL (Config_class (snd (switch_model env p m))) = p
  /\ config (brain (snd (switch_model env p m))) = c.
Proof.
  intros L E. pose proof (switch_model_cases env p m) as H.
  rewrite L, E in H. rewrite H. auto.
Qed.

End SwitchModel.

(** C7.  After every successful [switch_model], [get_history] returns the
    empty list, whatever the history was before: the adapter in place is
    a new one, built from the configuration of the requested provider. *)
Theorem C7_switch_discards_history
        (env : Env) (p : AIProvider) (m : Brain.Machine) (msg : string) (m' : Brain.Machine) :
  Brain.switch_model env p m = (Ok msg, m') ->
  PyStr.startswith "Switched to " msg = true ->
  Brain.get_history m' = (Ok [], m')
  /\ Providers.kind (Brain.ai_provider (Brain.brain m')) = provider (Brain.config (Brain.brain m'))
  /\ Config.lookup p (Config.MODEL_CONFIGS (Brain.Config_class m))
     = Some (Brain.config (Brain.brain m')).
Proof.
  intros H S. pose proof (switch_model_cases env p m) as K.
  destruct (Config.lookup p (Config.MODEL_CONFIGS (Brain.Config_class m))) as [c |].
  - destruct (Providers.create_provider env c (Brain.world m)) as [[a' | e] w'] eqn:E.
    + rewrite K in H. inversion H; subst. clear H K.
      apply create_provider_fresh in E. destruct E as (Ek & Ec & Eh).
      unfold Brain.get_history, Brain.in_provider, zoom, Providers.get_history, mbind,
        Providers.self, ret.
      cbn. rewrite Eh. cbn.
      destruct a' as [k c' h hd u]. cbn in *. subst. auto.
    + rewrite K in H. inversion H; subst. discriminate S.
  - rewrite K in H. inversion H; subst. discriminate S.
Qed.

Lemma C7_witness :
  Providers.conversation_history
    (Brain.ai_provider (Brain.brain (Samples.machine Samples.sales_loaded)))
  = ["User: hi"; "Assistant: hello"]
  /\ fst (Brain.switch_model Samples.online GEMINI (Samples.machine Samples.sales_loaded))
     = Ok "Switched to gemini model: gemini-pro"
  /\ fst (Brain.get_history
            (snd (Brain.switch_model Samples.online GEMINI
                    (Samples.machine Samples.sales_loaded))))
     = Ok [].
Proof.
  split; [reflexivity |]. split; [vm_compute; reflexivity |].
  destruct (Brain.switch_model Samples.online GEMINI (Samples.machine Samples.sales_loaded))
    as [out m'] eqn:E.
  assert (O : out = Ok "Switched to gemini model: gemini-pro").
  { change out with (fst (out, m')). rewrite <- E. vm_compute. reflexivity. }
  subst out.
  destruct (C7_switch_discards_history Samples.online GEMINI
              (Samples.machine Samples.sales_loaded) _ m' E eq_refl) as (G & _).
  cbn [snd]. rewrite G. reflexivity.
Defined.

(** C1 on the input that breaks it.  The orchestrator runs on OpenAI and
    is asked to switch to Ollama while no request gets through.  The
    switch reports its failure and the OpenAI adapter stays in place, with
    its history; but the active-model attribute of [Config] and the
    configuration of the orchestrator have already moved, so
    [get_current_model_info] reports ollama. *)
Theorem C1_failed_switch_moves_active_pointer :
  let m := Samples.machine Samples.no_files in
  let m' := snd (Brain.switch_model Samples.offline OLLAMA m) in
  fst (Brain.switch_model Samples.offline OLLAMA m)
  = Ok "Failed to switch to ollama: Failed to connect to Ollama: Connection refused"
  /\ Brain.ai_provider (Brain.brain m') = Brain.ai_provider (Brain.brain m)
  /\ Providers.kind (Brain.ai_provider (Brain.brain m')) = OPENAI
  /\ Config.ACTIVE_MODEL (Brain.Config_class m) = OPENAI
  /\ Config.ACTIVE_MODEL (Brain.Config_class m') = OLLAMA
  /\ fst (Brain.get_current_model_info m)
     = Ok (Brain.mkModelInfo "openai" "gpt-3.5-turbo" Config.default_temperature (Some 2048%Z))
  /\ fst (Brain.get_current_model_info m')
     = Ok (Brain.mkModelInfo "ollama" "llama2" Config.default_temperature (Some 2048%Z)).
Proof. cbv zeta. repeat split; vm_compute; reflexivity. Qed.

(* ================================================================= *)
(** ** Further properties of the guardrails *)

Section Relevance.
Import DataGuardrails.

(** X1.  [check_query_relevance] answers relevant exactly when no
    off-topic pattern matches the lower-cased input and either a file is
    loaded, or the input contains one of "load", "file", "data" together
    with one of the data keywords.  A relevant answer carries no message.
    In particular, once a file is loaded every input that matches no
    off-topic pattern is relevant. *)
Theorem X1_relevant_iff (fp : FileProcessor.t) (rnd : nat) (s : string)
        (redirect : option string) :
  check_query_relevance fp rnd s = Ok (true, redirect) <->
  (redirect = None
   /\ off_topic (PyStr.lower s) = false
   /\ (non_empty (FileProcessor.list_loaded_files fp) = true
       \/ (any_keyword bootstrap_keywords (PyStr.lower s) = true
           /\ any_keyword data_keywords (PyStr.lower s) = true))).
Proof.
  destruct (check_query_relevance_cases fp rnd s)
    as [(Hl & Hb & m & E & _) | [(Hg & Hw & m & E & _) | (Hg & Ho & Hd & E)]];
    rewrite E; split.
  - discriminate.
  - intros (_ & _ & [H | [H _]]); congruence.
  - discriminate.
  - intros (_ & Ho & H). destruct Hw as [Hw | [Hd Hl]]; [congruence |].
    destruct H as [H | [_ H]]; congruence.
  - intros H. inversion H. repeat split; auto.
    destruct Hd as [Hd | Hl]; [| auto].
    destruct Hg as [Hl | Hb]; auto.
  - intros (-> & _). reflexivity.
Qed.

End Relevance.

Lemma X1_witness :
  DataGuardrails.off_topic (PyStr.lower "Show me the totals") = false
  /\ DataGuardrails.non_empty (FileProcessor.list_loaded_files Samples.sales_loaded) = true
  /\ DataGuardrails.check_query_relevance Samples.sales_loaded 0 "Show me the totals"
     = Ok (true, None).
Proof.
  split; [vm_compute; reflexivity |]. split; [reflexivity |].
  apply (X1_relevant_iff Samples.sales_loaded 0 "Show me the totals" None).
  split; [reflexivity |]. split; [vm_compute; reflexivity |]. left. reflexivity.
Defined.

Section Composer.
Import PyStr DataGuardrails.

Lemma Ok_inj {A : Type} (x y : A) : Ok x = Ok y -> x = y.
Proof. intros H. injection H as H. exact H. Qed.

Lemma join_cons (sep x : string) (xs : list string) :
  xs <> [] -> join sep (x :: xs) = x ++ sep ++ join sep xs.
Proof. destruct xs; [congruence | reflexivity]. Qed.

Lemma join_app (sep : string) (xs ys : list string) :
  xs <> [] -> ys <> [] ->
  join sep (xs ++ ys)%list = join sep xs ++ sep ++ join sep ys.
Proof.
  intros Hx Hy. induction xs as [|x xs IH]; [congruence |].
  destruct xs as [|x' xs].
  - cbn [app]. now rewrite join_cons.
  - change ((x :: x' :: xs) ++ ys)%list with (x :: ((x' :: xs) ++ ys))%list.
    rewrite join_cons by discriminate.
    rewrite IH by discriminate.
    rewrite (join_cons sep x (x' :: xs)) by discriminate.
    now rewrite !app_assoc_s.
Qed.

(** The lines of the dataset block, when they can be written. *)
Lemma enhance_parts (fp : FileProcessor.t) (s p : string) :
  enhance_prompt_with_context fp s = Ok p ->
  exists file_parts,
    p = join nl (([system_context] ++ file_parts ++ guidelines ++ [question_part s])%list)
    /\ (non_empty (FileProcessor.list_loaded_files fp) = false -> file_parts = [])
    /\ (non_empty (FileProcessor.list_loaded_files fp) = true ->
        exists active,
          active_file_parts fp = Ok active
          /\ file_parts = loaded_line fp :: active).
Proof.
  unfold enhance_prompt_with_context.
  destruct (non_empty (FileProcessor.list_loaded_files fp)).
  - destruct (active_file_parts fp) as [active | e]; cbn [bind]; [| discriminate].
    intros H. apply Ok_inj in H. subst p. exists (loaded_line fp :: active).
    split; [reflexivity |].
    split; [discriminate |]. intros _. eauto.
  - cbn [bind]. intros H. apply Ok_inj in H. subst p. exists [].
    split; [reflexivity |].
    split; [reflexivity | discriminate].
Qed.

End Composer.

(** X2.  Whenever [enhance_prompt_with_context] returns, the prompt
    begins with the system statement, ends with the guideline block
    followed by a blank line and the user's question, verbatim, under the
    label "User question: ", and what lies between is empty when no file
    is loaded. *)
Theorem X2_prompt_frames_question (fp : FileProcessor.t) (s p : string) :
  DataGuardrails.enhance_prompt_with_context fp s = Ok p ->
  exists dataset_block,
    p = DataGuardrails.system_context ++ PyStr.nl ++ dataset_block
          ++ PyStr.join PyStr.nl DataGuardrails.guidelines
          ++ PyStr.nl ++ PyStr.nl ++ "User question: " ++ s
    /\ (FileProcessor.list_loaded_files fp = [] -> dataset_block = "").
Proof.
  intros H. destruct (enhance_parts fp s p H) as (file_parts & -> & Hn & _).
  destruct file_parts as [|x xs].
  - exists "". split; [| reflexivity].
    cbn [app]. rewrite join_cons by discriminate.
    rewrite join_app by discriminate. reflexivity.
  - exists (PyStr.join PyStr.nl (x :: xs) ++ PyStr.nl). split.
    + cbn [app]. rewrite join_cons by discriminate.
      change (x :: (xs ++ DataGuardrails.guidelines ++ [question_part s]))%list
        with ((x :: xs) ++ (DataGuardrails.guidelines ++ [question_part s]))%list.
      rewrite join_app by (try discriminate; destruct DataGuardrails.guidelines; discriminate).
      rewrite join_app by discriminate.
      cbn [PyStr.join]. now rewrite !app_assoc_s.
    + intros Hl. rewrite Hl in Hn. discriminate (Hn eq_refl).
Qed.

Lemma X2_witness :
  exists p dataset_block,
    DataGuardrails.enhance_prompt_with_context Samples.sales_loaded "show me sales trends"
    = Ok p
    /\ p = DataGuardrails.system_context ++ PyStr.nl ++ dataset_block
             ++ PyStr.join PyStr.nl DataGuardrails.guidelines
             ++ PyStr.nl ++ PyStr.nl ++ "User question: " ++ "show me sales trends".
Proof.
  destruct (DataGuardrails.enhance_prompt_with_context Samples.sales_loaded
              "show me sales trends") as [p | e] eqn:E.
  - destruct (X2_prompt_frames_question Samples.sales_loaded "show me sales trends" p E)
      as (block & Hp & _).
    exists p, block. auto.
  - vm_compute in E. discriminate E.
Defined.

Section ComposerLabels.
Import PyStr DataGuardrails.

Lemma labels_text_ok (ls : list FileProcessor.label) :
  forall i, forallb is_text ls = true ->
            exists parts, labels_text i ls = Ok parts
                          /\ forall c, In (FileProcessor.LStr c) ls -> In c parts.
Proof.
  induction ls as [|l ls IH]; intros i H.
  - exists []. split; [reflexivity | intros c []].
  - destruct l as [c0 | ty]; [| discriminate].
    cbn [forallb is_text andb] in H.
    destruct (IH (S i) H) as (parts & E & Hin).
    exists (c0 :: parts). cbn [labels_text]. rewrite E. split; [reflexivity |].
    intros c [Hc | Hc]; [injection Hc as ->; now left | right; auto].
Qed.

Lemma labels_text_fail (ls : list FileProcessor.label) :
  forall i, forallb is_text ls = false ->
            exists e, labels_text i ls = Raise e /\ exn_kind e = TypeError.
Proof.
  induction ls as [|l ls IH]; intros i H; [discriminate |].
  destruct l as [c0 | ty].
  - cbn [forallb is_text andb] in H.
    destruct (IH (S i) H) as (e & E & K).
    exists e. cbn [labels_text]. rewrite E. auto.
  - cbn [labels_text]. eexists. split; reflexivity.
Qed.

Lemma lookup_some_non_empty (fp : FileProcessor.t) (f : string) (df : FileProcessor.DataFrame) :
  FileProcessor.lookup f (FileProcessor.loaded_files fp) = Some df ->
  non_empty (FileProcessor.list_loaded_files fp) = true.
Proof.
  unfold FileProcessor.list_loaded_files.
  destruct (FileProcessor.loaded_files fp); [discriminate | reflexivity].
Qed.

(** The composer and the labels of the active file. *)
Lemma enhance_by_labels (fp : FileProcessor.t) (s : string) :
  (exists f df,
      FileProcessor.current_file_context fp = Some f /\ truthy f = true
      /\ FileProcessor.lookup f (FileProcessor.loaded_files fp) = Some df
      /\ forallb is_text (FileProcessor.columns df) = false
      /\ exists e, enhance_prompt_with_context fp s = Raise e /\ exn_kind e = TypeError)
  \/ ((forall f df,
          FileProcessor.current_file_context fp = Some f -> truthy f = true ->
          FileProcessor.lookup f (FileProcessor.loaded_files fp) = Some df ->
          forallb is_text (FileProcessor.columns df) = true)
      /\ exists p, enhance_prompt_with_context fp s = Ok p).
Proof.
  unfold enhance_prompt_with_context, active_file_parts, FileProcessor.get_current_context,
    FileProcessor.get_file_info, join_labels.
  destruct (FileProcessor.current_file_context fp) as [f |] eqn:Ec.
  - destruct (truthy f) eqn:Et.
    + destruct (FileProcessor.lookup f (FileProcessor.loaded_files fp)) as [df |] eqn:El.
      * rewrite (lookup_some_non_empty fp f df El).
        cbn [FileProcessor.fi_columns].
        destruct (forallb is_text (FileProcessor.columns df)) eqn:Ef.
        -- right. split.
           ++ intros f' df' [= <-] _ E. rewrite El in E. injection E as <-. exact Ef.
           ++ destruct (labels_text_ok _ 0 Ef) as (parts & -> & _).
              cbn [bind]. eauto.
        -- left. exists f, df. repeat split; auto.
           destruct (labels_text_fail _ 0 Ef) as (e & -> & K).
           cbn [bind]. eauto.
      * right. split; [intros f' df' [= <-] _ E; congruence |].
        destruct (non_empty (FileProcessor.list_loaded_files fp)); cbn [bind]; eauto.
    + right. split; [intros f' df' [= <-] E; congruence |].
      destruct (non_empty (FileProcessor.list_loaded_files fp)); cbn [bind]; eauto.
  - right. split; [intros f' df' E; discriminate |].
    destruct (non_empty (FileProcessor.list_loaded_files fp)); cbn [bind]; eauto.
Qed.

End ComposerLabels.

(** X3.  [enhance_prompt_with_context] raises exactly when the current
    file is loaded and one of its column labels is not a string; what it
    raises is then a [TypeError].  With no current file, or with text
    labels only, it returns a prompt. *)
Theorem X3_prompt_fails_only_on_non_text_label (fp : FileProcessor.t) (s : string) :
  (forall e, DataGuardrails.enhance_prompt_with_context fp s = Raise e ->
             exn_kind e = TypeError)
  /\ ((exists e, DataGuardrails.enhance_prompt_with_context fp s = Raise e)
      <-> exists f df,
          FileProcessor.current_file_context fp = Some f
          /\ PyStr.truthy f = true
          /\ FileProcessor.lookup f (FileProcessor.loaded_files fp) = Some df
          /\ forallb is_text (FileProcessor.columns df) = false).
Proof.
  destruct (enhance_by_labels fp s)
    as [(f & df & Hc & Ht & Hl & Hf & e & E & K) | (Hall & p & E)].
  - split.
    + intros e' E'. rewrite E in E'. injection E' as <-. exact K.
    + split; [intros _; exists f, df; auto | intros _; eauto].
  - split.
    + intros e E'. rewrite E in E'. discriminate.
    + split.
      * intros (e & E'). rewrite E in E'. discriminate.
      * intros (f & df & Hc & Ht & Hl & Hf).
        rewrite (Hall f df Hc Ht Hl) in Hf. discriminate.
Qed.

Lemma X3_witness :
  forallb is_text (FileProcessor.columns Samples.numbered_frame) = false
  /\ DataGuardrails.enhance_prompt_with_context Samples.numbered_loaded "count the rows"
     = Raise (mkExn TypeError "sequence item 1: expected str instance, int found").
Proof.
  split; [reflexivity |].
  destruct (X3_prompt_fails_only_on_non_text_label Samples.numbered_loaded "count the rows")
    as (_ & _ & K).
  destruct K as (e & E).
  - exists "counts.csv", Samples.numbered_frame. repeat split; reflexivity.
  - rewrite E. vm_compute in E. injection E as <-. reflexivity.
Defined.

Section Mentions.
Import PyStr DataGuardrails.

Lemma startswith_app (x a b : string) :
  startswith x a = true -> startswith x (a ++ b) = true.
Proof.
  revert a. induction x as [|c x IH]; intros a H; [reflexivity |].
  destruct a as [|c' a]; [discriminate |].
  cbn [startswith String.append] in *.
  apply andb_true_iff in H. destruct H as [-> H]. now rewrite (IH a H).
Qed.

Lemma contains_app_left (x a b : string) :
  contains x a = true -> contains x (a ++ b) = true.
Proof.
  induction a as [|c a IH]; intros H.
  - cbn [contains] in H. rewrite orb_false_r in H.
    destruct x; [destruct b; reflexivity | discriminate].
  - cbn [contains] in H. apply orb_true_iff in H.
    change (String c a ++ b) with (String c (a ++ b)).
    cbn [contains]. apply orb_true_iff. destruct H as [H | H].
    + left. exact (startswith_app x (String c a) b H).
    + right. auto.
Qed.

Lemma contains_app_right (x a b : string) :
  contains x b = true -> contains x (a ++ b) = true.
Proof.
  intros H. induction a as [|c a IH]; [exact H |].
  change (String c a ++ b) with (String c (a ++ b)).
  cbn [contains]. rewrite IH. apply orb_true_r.
Qed.

Lemma contains_join (x sep part : string) (parts : list string) :
  In part parts -> contains x part = true -> contains x (join sep parts) = true.
Proof.
  intros Hin Hc. induction parts as [|p ps IH]; [contradiction |].
  destruct ps as [|p' ps].
  - destruct Hin as [-> | []]. exact Hc.
  - rewrite join_cons by discriminate. destruct Hin as [-> | Hin].
    + now apply contains_app_left.
    + apply contains_app_right, contains_app_right. auto.
Qed.

End Mentions.

(** X4.  A prompt [enhance_prompt_with_context] returns mentions the
    user's text, the name of every loaded file and, when the current file
    is loaded, its name and each of its column names. *)
Theorem X4_prompt_mentions_dataset (fp : FileProcessor.t) (s p : string) :
  DataGuardrails.enhance_prompt_with_context fp s = Ok p ->
  PyStr.contains s p = true
  /\ (forall name, In name (FileProcessor.list_loaded_files fp) ->
                   PyStr.contains name p = true)
  /\ (forall f df,
         FileProcessor.current_file_context fp = Some f ->
         PyStr.truthy f = true ->
         FileProcessor.lookup f (FileProcessor.loaded_files fp) = Some df ->
         PyStr.contains ("Active file: " ++ f) p = true
         /\ forall c, In (FileProcessor.LStr c) (FileProcessor.columns df) ->
                      PyStr.contains c p = true).
Proof.
  intros H. destruct (enhance_parts fp s p H) as (file_parts & -> & Hn & Hy).
  split.
  { apply (contains_join s PyStr.nl (question_part s)).
    - apply in_or_app. right. apply in_or_app. right. apply in_or_app. right. now left.
    - unfold question_part. apply contains_app_right, contains_app_right, contains_refl. }
  split.
  { intros name Hin.
    assert (Hne : DataGuardrails.non_empty (FileProcessor.list_loaded_files fp) = true)
      by (destruct (FileProcessor.list_loaded_files fp); [contradiction | reflexivity]).
    destruct (Hy Hne) as (active & _ & ->).
    apply (contains_join name PyStr.nl (loaded_line fp)).
    - apply in_or_app. right. now left.
    - unfold loaded_line. apply contains_app_right, contains_app_right.
      apply (contains_join name ", " name); [exact Hin | apply contains_refl]. }
  intros f df Hc Ht Hl.
  destruct (Hy (lookup_some_non_empty fp f df Hl)) as (active & Ha & ->).
  unfold DataGuardrails.active_file_parts, FileProcessor.get_current_context,
    FileProcessor.get_file_info, DataGuardrails.join_labels in Ha.
  rewrite Hc, Ht, Hl in Ha. cbn [FileProcessor.fi_columns] in Ha.
  destruct (forallb is_text (FileProcessor.columns df)) eqn:Ef.
  - destruct (labels_text_ok _ 0 Ef) as (parts & E & Hin). rewrite E in Ha.
    cbn [bind] in Ha. apply Ok_inj in Ha. subst active. split.
    + apply (contains_join _ PyStr.nl ("Active file: " ++ f)).
      * apply in_or_app. right. right. now left.
      * apply contains_refl.
    + intros c Hcol.
      apply (contains_join c PyStr.nl ("Columns: " ++ PyStr.join ", " parts)).
      * apply in_or_app. right. right. right. now left.
      * apply contains_app_right.
        apply (contains_join c ", " c); [auto | apply contains_refl].
  - destruct (labels_text_fail _ 0 Ef) as (e & E & _). rewrite E in Ha. discriminate.
Qed.

Lemma X4_witness :
  exists p,
    DataGuardrails.enhance_prompt_with_context Samples.sales_loaded "show me sales trends"
    = Ok p
    /\ PyStr.contains "show me sales trends" p = true
    /\ PyStr.contains "sales.csv" p = true
    /\ PyStr.contains "region" p = true.
Proof.
  destruct (DataGuardrails.enhance_prompt_with_context Samples.sales_loaded
              "show me sales trends") as [p | e] eqn:E.
  - destruct (X4_prompt_mentions_dataset Samples.sales_loaded "show me sales trends" p E)
      as (Hs & Hf & Hc).
    exists p. split; [reflexivity |]. split; [exact Hs |]. split.
    + apply Hf. simpl. auto.
    + destruct (Hc "sales.csv" Samples.sales_frame eq_refl eq_refl eq_refl) as (_ & K).
      apply K. simpl. auto.
  - vm_compute in E. discriminate E.
Defined.

(* ================================================================= *)
(** ** Further properties of the adapters *)

(** X5.  [get_context] changes nothing and returns the most recent
    entries of the history, oldest first, joined by line feeds: the last
    [limit] of them, or all when there are fewer.  With [limit = 0] the
    slice [[-0:]] is the whole history. *)
Theorem X5_context_is_recent_window (limit : nat) (a : Providers.Adapter) (w : World) :
  exists older recent,
    Providers.conversation_history a = (older ++ recent)%list
    /\ Providers.get_context limit (a, w) = (Ok (PyStr.join PyStr.nl recent), (a, w))
    /\ (limit = 0 -> older = [])
    /\ (0 < limit ->
        List.length recent = Nat.min limit (List.length (Providers.conversation_history a))).
Proof.
  exists (match limit with
          | O => []
          | S _ => firstn (List.length (Providers.conversation_history a) - limit)
                     (Providers.conversation_history a)
          end),
         (PyStr.last_n limit (Providers.conversation_history a)).
  split.
  { unfold PyStr.last_n. destruct limit; [reflexivity |]. now rewrite firstn_skipn. }
  split.
  { unfold Providers.get_context, Providers.self, mbind, ret. cbn [fst].
    destruct (Providers.conversation_history a) eqn:E; [| reflexivity].
    unfold PyStr.last_n. destruct limit; reflexivity. }
  split.
  { intros ->. reflexivity. }
  intros Hl. unfold PyStr.last_n. destruct limit; [lia |].
  rewrite length_skipn. lia.
Qed.

Lemma X5_witness :
  fst (Providers.get_context 0 (Samples.talking, Samples.quiet))
  = Ok (PyStr.join PyStr.nl ["User: hi"; "Assistant: hello"])
  /\ 0 < 20
  /\ exists recent,
      fst (Providers.get_context 20 (Samples.talking, Samples.quiet))
      = Ok (PyStr.join PyStr.nl recent)
      /\ List.length recent = 2.
Proof.
  split.
  - destruct (X5_context_is_recent_window 0 Samples.talking Samples.quiet)
      as (older & recent & E & G & Z & _).
    rewrite (Z eq_refl) in E. cbn in E. rewrite G, <- E. reflexivity.
  - split; [lia |].
    destruct (X5_context_is_recent_window 20 Samples.talking Samples.quiet)
      as (older & recent & _ & G & _ & L).
    exists recent. rewrite G. split; [reflexivity |]. apply L. lia.
Defined.

Section Requests.
Import Providers.

Ltac run :=
  unfold generate_response, enter, generate_response_gemini, generate_response_openai,
    generate_response_anthropic, generate_response_ollama,
    generate_try, generate_try_gemini, generate_try_openai, generate_try_anthropic,
    generate_try_ollama, catch, mbind, self, get_context, require_handle, call, send,
    response_text, choices, first_item, http_status, response_json, unexpected_shape,
    add_to_history, set_history, import, modify, lift, ret, raise;
  cbn [fst snd kind config conversation_history handle url].

Ltac tidy :=
  cbn -[with_context PyStr.join PyStr.last_n build_messages String.append PyStr.of_Z
        PyStr.append apology status_error Z.eqb entered].

Ltac split_cases :=
  repeat (match goal with
          | |- context [match ?x with _ => _ end] =>
              first [ is_var x; destruct x
                    | match x with
                      | backend _ _ => destruct x eqn:?
                      | importable _ _ => destruct x eqn:?
                      | Z.eqb _ _ => destruct x eqn:?
                      | PyStr.truthy _ => destruct x eqn:?
                      end ]
          end; tidy).

(** An adapter of an SDK class whose client was never set. *)
Lemma generate_response_without_client (env : Env) (prompt : string) (a : Adapter) (w : World) :
  kind a <> OLLAMA -> handle a = false ->
  exists attr,
    generate_response env prompt (a, w)
    = (Ok (Some (apology (who (kind a))
                   (mkExn AttributeError
                      ("'NoneType' object has no attribute '" ++ attr ++ "'")))),
       (a, entered w)).
Proof.
  intros Hk Hh. destruct a as [k c h hd u]. cbn [kind handle] in *. subst hd. run.
  destruct k; run; rewrite ?build_messages_paired; tidy;
    try congruence; eexists; reflexivity.
Qed.

(** Requests and records of one call. *)
Lemma generate_response_requests (env : Env) (prompt : string) (a : Adapter) (w : World) :
  exists r a' w',
    generate_response env prompt (a, w) = (Ok r, (a', w'))
    /\ (trace w' = trace w \/ exists req, trace w' = PyStr.append (trace w) req)
    /\ (conversation_history a' <> conversation_history a ->
        exists req,
          trace w' = PyStr.append (trace w) req
          /\ forall e, backend env req <> Raises e).
Proof.
  destruct a as [k c h hd u]. run.
  destruct k; run; rewrite ?build_messages_paired; tidy; split_cases.
  all: do 3 eexists; (split; [reflexivity |]); tidy; split;
    [ first [ left; reflexivity | right; eexists; reflexivity ]
    | first [ intros K; exfalso; apply K; reflexivity
            | intros _; eexists; split; [reflexivity | congruence] ] ].
Qed.

End Requests.

(** X6.  An adapter of the Gemini, OpenAI or Anthropic class whose
    [initialize] has not set its client never sends a request:
    [generate_response] returns the apology for the attribute error and
    leaves the history and the request trace as they were. *)
Theorem X6_uninitialised_adapter_sends_nothing
        (env : Env) (prompt : string) (a : Providers.Adapter) (w : World) :
  Providers.kind a <> OLLAMA -> Providers.handle a = false ->
  exists r w',
    Providers.generate_response env prompt (a, w) = (Ok (Some r), (a, w'))
    /\ trace w' = trace w
    /\ PyStr.startswith "I'm sorry, I encountered an error: " r = true
    /\ PyStr.contains "'NoneType' object has no attribute" r = true.
Proof.
  intros Hk Hh.
  destruct (generate_response_without_client env prompt a w Hk Hh) as (attr & E).
  do 2 eexists. split; [exact E |]. split; [reflexivity |]. split; [reflexivity |].
  unfold Providers.apology.
  apply contains_app_right, contains_app_right, contains_app_right, contains_app_right.
  cbn [exn_str]. apply contains_app_left.
  apply (contains_app_left _ "'NoneType' object has no attribute" " '"), contains_refl.
Qed.

Lemma X6_witness :
  fst (Providers.generate_response Samples.online "how many rows?"
         (Providers.new GEMINI Samples.openai_config, Samples.quiet))
  = Ok (Some "I'm sorry, I encountered an error: Error with Gemini: 'NoneType' object has no attribute 'generate_content'")
  /\ trace (snd (snd (Providers.generate_response Samples.online "how many rows?"
                        (Providers.new GEMINI Samples.openai_config, Samples.quiet))))
     = [].
Proof.
  destruct (X6_uninitialised_adapter_sends_nothing Samples.online "how many rows?"
              (Providers.new GEMINI Samples.openai_config) Samples.quiet)
    as (r & w' & E & T & _); [discriminate | reflexivity |].
  rewrite E. cbn [fst snd]. split; [| exact T].
  vm_compute in E. injection E as <- _. reflexivity.
Defined.

(** X7.  One call of [generate_response] sends at most one request, and
    it records an exchange in the history only when it has sent a request
    that the backend did not answer by raising. *)
Theorem X7_exchange_recorded_only_if_answered
        (env : Env) (prompt : string) (a : Providers.Adapter) (w : World) :
  exists r a' w',
    Providers.generate_response env prompt (a, w) = (Ok r, (a', w'))
    /\ (trace w' = trace w \/ exists req, trace w' = (trace w ++ [req])%list)
    /\ (Providers.conversation_history a' <> Providers.conversation_history a ->
        exists req,
          trace w' = (trace w ++ [req])%list
          /\ forall e, backend env req <> Raises e).
Proof. apply generate_response_requests. Qed.

Lemma X7_witness :
  exists r a' w' req,
    Providers.generate_response Samples.online "how many rows?"
      (Samples.talking, Samples.quiet) = (Ok r, (a', w'))
    /\ Providers.conversation_history a' <> Providers.conversation_history Samples.talking
    /\ trace w' = [req].
Proof.
  destruct (X7_exchange_recorded_only_if_answered Samples.online "how many rows?"
              Samples.talking Samples.quiet) as (r & a' & w' & E & _ & K).
  assert (N : Providers.conversation_history a'
              <> Providers.conversation_history Samples.talking).
  { vm_compute in E. injection E as _ <- _. discriminate. }
  destruct (K N) as (req & T & _).
  exists r, a', w', req. auto.
Defined.

Section ReplayRoundTrip.
Import PyStr Providers.

Lemma startswith_refl (x : string) : startswith x x = true.
Proof. induction x as [|c x IH]; simpl; [reflexivity | now rewrite Ascii.eqb_refl, IH]. Qed.

Lemma remove_from_skip (old x s : string) :
  remove_from old (String.length x) (x ++ s) = remove_from old 0 s.
Proof.
  induction x as [|c x IH]; [reflexivity |].
  change (String c x ++ s) with (String c (x ++ s)).
  cbn [String.length remove_from]. exact IH.
Qed.

Lemma remove_all_marker (old s : string) :
  old <> "" -> remove_all old (old ++ s) = remove_all old s.
Proof.
  intros Hne. destruct old as [|c old]; [congruence |].
  unfold remove_all.
  change (String c old ++ s) with (String c (old ++ s)).
  cbn [remove_from].
  change (String c (old ++ s)) with (String c old ++ s).
  rewrite (startswith_app _ _ s (startswith_refl (String c old))).
  replace (String.length (String c old) - 1) with (String.length old)
    by (cbn [String.length]; lia).
  apply remove_from_skip.
Qed.

Lemma remove_all_absent (old s : string) :
  contains old s = false -> remove_all old s = s.
Proof.
  unfold remove_all. induction s as [|c s IH]; intros H; [reflexivity |].
  cbn [contains] in H. apply orb_false_iff in H. destruct H as [H1 H2].
  cbn [remove_from]. rewrite H1, (IH H2). reflexivity.
Qed.

Lemma paired_app_even (h tl : list string) :
  Nat.even (List.length h) = true -> paired (h ++ tl)%list = (paired h ++ paired tl)%list.
Proof.
  induction h as [| y | y z l IH] using list_pairs_ind; intros He.
  - reflexivity.
  - discriminate.
  - cbn [app paired]. rewrite IH; [reflexivity | exact He].
Qed.

End ReplayRoundTrip.

(** X8.  What [add_to_history] stores, the OpenAI adapter replays
    verbatim: when the user's text does not contain "User: " and the
    answer does not contain "Assistant: ", the exchange recorded after a
    history of even length comes back as a user message and an assistant
    message with exactly those texts, after the earlier pairs and before
    the new prompt. *)
Theorem X8_recorded_exchange_replayed_verbatim
        (h : list string) (user_input ai_response prompt : string) :
  Nat.even (List.length h) = true ->
  PyStr.contains "User: " user_input = false ->
  PyStr.contains "Assistant: " ai_response = false ->
  Providers.build_messages (h ++ exchange user_input (Some ai_response))%list prompt
  = Ok ((Providers.system_message :: paired h)
          ++ [ mkMessage "user" user_input; mkMessage "assistant" ai_response;
               mkMessage "user" prompt ])%list.
Proof.
  intros He Hu Ha.
  rewrite build_messages_paired, paired_app_even by exact He.
  unfold exchange. cbn [paired PyStr.str_of].
  rewrite !remove_all_marker by discriminate.
  rewrite (remove_all_absent _ _ Hu), (remove_all_absent _ _ Ha).
  cbn [app]. rewrite <- app_assoc. reflexivity.
Qed.

Lemma X8_witness :
  Nat.even (List.length ["User: hi"; "Assistant: hello"]) = true
  /\ PyStr.contains "User: " "how many rows?" = false
  /\ PyStr.contains "Assistant: " "42 rows" = false
  /\ Providers.build_messages
       ["User: hi"; "Assistant: hello"; "User: how many rows?"; "Assistant: 42 rows"] "and columns?"
     = Ok [ Providers.system_message; mkMessage "user" "hi"; mkMessage "assistant" "hello";
            mkMessage "user" "how many rows?"; mkMessage "assistant" "42 rows";
            mkMessage "user" "and columns?" ].
Proof.
  split; [reflexivity |]. split; [reflexivity |]. split; [reflexivity |].
  exact (X8_recorded_exchange_replayed_verbatim ["User: hi"; "Assistant: hello"]
           "how many rows?" "42 rows" "and columns?" eq_refl eq_refl eq_refl).
Defined.

Section Factory.
Import Providers.

Ltac start :=
  unfold create_provider, initialize, initialize_sdk, initialize_ollama, reraise_import,
    setup_client, set_handle, catch, mbind, self, call, send, http_status,
    unexpected_shape, import, modify, lift, ret, raise, new;
  cbn [fst snd kind config conversation_history handle url existsb orb
         AIProviderEnum.eqb _providers].

Ltac tidy :=
  cbn -[String.append PyStr.append Z.eqb truthy_opt].

(** The three SDK-backed classes: what the factory does with a
    configuration. *)
Lemma create_sdk_provider (env : Env) (c : ModelConfig) (w : World) :
  provider c <> OLLAMA ->
  (importable env (provider c) = false ->
   exists msg, create_provider env c w = (Raise (mkExn ImportError msg), w))
  /\ (importable env (provider c) = true -> truthy_opt (api_key c) = false ->
      create_provider env c w
      = (Raise (mkExn ValueError (who (provider c) ++ " API key is required")), w))
  /\ (importable env (provider c) = true -> truthy_opt (api_key c) = true ->
      client_setup env (provider c) = None ->
      create_provider env c w = (Ok (mkAdapter (provider c) c [] true ""), w)).
Proof.
  intros Hk. start.
  destruct (provider c) eqn:Ep; try congruence; start; tidy.
  all: split; [intros ->; tidy; eexists; reflexivity |].
  all: split; [intros Hi Ht; repeat (progress (rewrite ?Hi, ?Ht; tidy)); reflexivity |].
  all: intros Hi Ht Hs; repeat (progress (rewrite ?Hi, ?Ht, ?Hs; tidy)); reflexivity.
Qed.

(** [initialize] of the Ollama class. *)
Lemma initialize_ollama_cases (env : Env) (a : Adapter) (w : World) :
  kind a = OLLAMA ->
  (importable env OLLAMA = true ->
   forall json,
     backend env (HttpGet (url a ++ "/api/tags")) = Http 200 json ->
     initialize env (a, w)
     = (Ok tt,
        (a, mkWorld (PyStr.append (trace w) (HttpGet (url a ++ "/api/tags")))
                    (console w) (generate_calls w))))
  /\ (forall e s',
         initialize env (a, w) = (Raise e, s') ->
         exn_str e = "requests package is required for Ollama provider"
         \/ (exn_kind e = ConnectionError
             /\ PyStr.startswith "Failed to connect to Ollama: " (exn_str e) = true)).
Proof.
  intros Hk. destruct a as [k c h hd u]. cbn [kind] in Hk. subst k.
  unfold initialize, initialize_ollama, catch, mbind, self, call, send, http_status,
    unexpected_shape, import, ret, raise, is_import_error.
  cbn [fst snd kind url]. split.
  - intros Hi json Hb. rewrite Hi. tidy. rewrite Hb. tidy. reflexivity.
  - intros e s'.
    destruct (importable env OLLAMA); tidy.
    + destruct (backend env _) as [e0 | t | texts | code json]; tidy;
        try (destruct (exn_kind e0); tidy);
        try (destruct (code =? 200)%Z; tidy);
        intros [= <- <-]; tidy; auto.
    + intros [= <- <-]. left. reflexivity.
Qed.

(** The Ollama class. *)
Lemma create_ollama_provider (env : Env) (c : ModelConfig) (w : World) :
  provider c = OLLAMA ->
  (importable env OLLAMA = true ->
   forall json,
     backend env (HttpGet (url (new OLLAMA c) ++ "/api/tags")) = Http 200 json ->
     create_provider env c w
     = (Ok (new OLLAMA c),
        mkWorld (PyStr.append (trace w) (HttpGet (url (new OLLAMA c) ++ "/api/tags")))
                (console w) (generate_calls w)))
  /\ (forall e w',
         create_provider env c w = (Raise e, w') ->
         exn_str e = "requests package is required for Ollama provider"
         \/ (exn_kind e = ConnectionError
             /\ PyStr.startswith "Failed to connect to Ollama: " (exn_str e) = true)).
Proof.
  intros Hk. unfold create_provider. rewrite Hk.
  cbn [existsb orb AIProviderEnum.eqb _providers].
  destruct (initialize_ollama_cases env (new OLLAMA c) w eq_refl) as (H1 & H2).
  split.
  - intros Hi json Hb. rewrite (H1 Hi json Hb). reflexivity.
  - intros e w'.
    destruct (initialize env (new OLLAMA c, w)) as [[u | e0] [a' w'']] eqn:E;
      [discriminate |].
    intros [= <- <-]. exact (H2 e0 (a', w'') eq_refl).
Qed.

End Factory.



(** X10.  The factory on an Ollama configuration asks no key: when the
    package imports and the server answers the tags request with status
    200, it returns the new adapter, having sent that one request.
    Whatever else happens surfaces as the [ImportError] on the package or
    as a [ConnectionError] whose text starts with "Failed to connect to
    Ollama: ". *)
Theorem X10_ollama_provider_requires_server (env : Env) (c : ModelConfig) (w : World) :
  provider c = OLLAMA ->
  (importable env OLLAMA = true ->
   forall json,
     backend env (HttpGet (Providers.url (Providers.new OLLAMA c) ++ "/api/tags"))
     = Http 200 json ->
     exists w',
       Providers.create_provider env c w = (Ok (Providers.new OLLAMA c), w')
       /\ trace w'
          = (trace w ++ [HttpGet (Providers.url (Providers.new OLLAMA c) ++ "/api/tags")])%list)
  /\ (forall e w',
         Providers.create_provider env c w = (Raise e, w') ->
         exn_str e = "requests package is required for Ollama provider"
         \/ (exn_kind e = ConnectionError
             /\ PyStr.startswith "Failed to connect to Ollama: " (exn_str e) = true)).
Proof.
  intros Hk. destruct (create_ollama_provider env c w Hk) as (H1 & H2).
  split; [| exact H2].
  intros Hi json Hb. rewrite (H1 Hi json Hb). eexists. split; reflexivity.
Qed.

Lemma X10_witness :
  provider Samples.ollama_config = OLLAMA
  /\ fst (Providers.create_provider Samples.broken Samples.ollama_config Samples.quiet)
     = Raise (mkExn ConnectionError
                "Failed to connect to Ollama: Cannot connect to Ollama server").
Proof.
  split; [reflexivity |].
  destruct (Providers.create_provider Samples.broken Samples.ollama_config Samples.quiet)
    as [[a | e] w'] eqn:E.
  - vm_compute in E. discriminate E.
  - destruct (X10_ollama_provider_requires_server Samples.broken Samples.ollama_config
                Samples.quiet eq_refl) as (_ & K).
    destruct (K e w' E) as [H | (H & _)];
      vm_compute in E; injection E as <- _; reflexivity.
Defined.

(* ================================================================= *)
(** ** Further properties of the configuration and the orchestrator *)

Section ConfigClass.
Import Config.

Lemma switch_model_registered (p : AIProvider) (cls : t) (c : ModelConfig) :
  lookup p (MODEL_CONFIGS cls) = Some c ->
  switch_model p cls = (Ok tt, mkConfig p (MODEL_CONFIGS cls))
  /\ get_active_config (mkConfig p (MODEL_CONFIGS cls))
     = (Ok c, mkConfig p (MODEL_CONFIGS cls)).
Proof.
  intros L. unfold switch_model, get_active_config, mbind, get, modify, ret.
  cbn [ACTIVE_MODEL MODEL_CONFIGS]. rewrite L. auto.
Qed.

Lemma switch_model_unknown (p : AIProvider) (cls : t) :
  lookup p (MODEL_CONFIGS cls) = None ->
  switch_model p cls
  = (Raise (mkExn ValueError ("Unsupported AI provider: " ++ AIProviderEnum.str p)), cls).
Proof.
  intros L. unfold switch_model, mbind, get, raise. rewrite L. reflexivity.
Qed.

Lemma initial_registered : registered initial.
Proof. intros p. destruct p; eexists; split; reflexivity. Qed.

End ConfigClass.

(** X11.  The configuration that ships files every provider under its own
    name, and [switch_model] keeps it so, for it never changes the table.
    While that holds, [switch_model] does not raise, and
    [get_active_config] right after it returns the configuration of the
    provider asked for.  A provider missing from the table makes
    [switch_model] raise [ValueError] and leave the class as it was. *)
Theorem X11_switch_then_active_config (p : AIProvider) (cls : Config.t) :
  registered Config.initial
  /\ (registered cls ->
      exists cls' c,
        Config.switch_model p cls = (Ok tt, cls')
        /\ Config.ACTIVE_MODEL cls' = p
        /\ Config.MODEL_CONFIGS cls' = Config.MODEL_CONFIGS cls
        /\ registered cls'
        /\ Config.get_active_config cls' = (Ok c, cls')
        /\ provider c = p)
  /\ (Config.lookup p (Config.MODEL_CONFIGS cls) = None ->
      exists e, Config.switch_model p cls = (Raise e, cls) /\ exn_kind e = ValueError).
Proof.
  split; [exact initial_registered |]. split.
  - intros R. destruct (R p) as (c & L & Hp).
    destruct (switch_model_registered p cls c L) as (S & G).
    exists (Config.mkConfig p (Config.MODEL_CONFIGS cls)), c.
    repeat split; auto.
  - intros L. rewrite (switch_model_unknown p cls L). eexists. split; reflexivity.
Qed.

Lemma X11_witness :
  registered Config.initial
  /\ exists cls',
      Config.switch_model ANTHROPIC Config.initial = (Ok tt, cls')
      /\ fst (Config.get_active_config cls')
         = Ok (mkModelConfig ANTHROPIC "claude-3-sonnet-20240229"
                 (Some "your-anthropic-api-key-here") None (Some 2048%Z)
                 Config.default_temperature []).
Proof.
  destruct (X11_switch_then_active_config ANTHROPIC Config.initial) as (R & K & _).
  split; [exact R |].
  destruct (K R) as (cls' & c & S & _ & _ & _ & G & _).
  exists cls'. split; [exact S |].
  vm_compute in S. injection S as <-. vm_compute in G. injection G as <-. reflexivity.
Defined.

Section Sessions.
Import Brain.

(** What [think] does to the history, the files and the configuration. *)
Lemma think_effect (env : Env) (rnd : nat) (s : string) (m : Machine) :
  (history_of (snd (think env rnd s m)) = history_of m
   \/ exists p r,
       history_of (snd (think env rnd s m)) = (history_of m ++ exchange p r)%list)
  /\ file_processor (brain (snd (think env rnd s m))) = file_processor (brain m)
  /\ config (brain (snd (think env rnd s m))) = config (brain m)
  /\ Config_class (snd (think env rnd s m)) = Config_class m.
Proof.
  destruct (think_try env rnd s m) as [[out | e] m'] eqn:E.
  - assert (T : think env rnd s m = (Ok out, m'))
      by (unfold think, catch; rewrite E; reflexivity).
    rewrite T. cbn [snd]. clear T.
    unfold think_try, mbind, get, lift in E.
    destruct (check_query_relevance_total (file_processor (brain m)) rnd s) as ([b o] & C).
    rewrite C in E. cbv zeta in E.
    assert (K : (match DataGuardrails.enhance_prompt_with_context
                         (file_processor (brain m)) s with
                 | Ok a => in_provider (Providers.generate_response env a) m
                 | Raise e0 => (Raise e0, m)
                 end) = (Ok out, m') ->
                (history_of m' = history_of m
                 \/ exists p r, history_of m' = (history_of m ++ exchange p r)%list)
                /\ file_processor (brain m') = file_processor (brain m)
                /\ config (brain m') = config (brain m)
                /\ Config_class m' = Config_class m).
    { destruct (DataGuardrails.enhance_prompt_with_context (file_processor (brain m)) s)
        as [p | e0]; [| discriminate].
      unfold in_provider, zoom.
      destruct (generate_response_effect env p (ai_provider (brain m)) (world m))
        as (r & a' & w' & G & _ & _ & _ & _ & _ & _ & H).
      rewrite G. intros [= <- <-]. unfold history_of. cbn.
      split; [| auto]. destruct H as [H | H]; [left; exact H | right; eauto]. }
    destruct o as [text |]; [destruct (negb b && PyStr.truthy text) |]; try exact (K E).
    unfold ret in E. injection E as _ <-. auto.
  - rewrite (think_caught env rnd s m e m' E).
    destruct (think_try_raises_in_composer env rnd s m e m' E) as [_ ->].
    unfold history_of. cbn. auto.
Qed.

Lemma switch_model_history (env : Env) (p : AIProvider) (m : Machine) :
  (history_of (snd (switch_model env p m)) = history_of m
   \/ history_of (snd (switch_model env p m)) = [])
  /\ file_processor (brain (snd (switch_model env p m))) = file_processor (brain m).
Proof.
  pose proof (switch_model_cases env p m) as K.
  destruct (Config.lookup p (Config.MODEL_CONFIGS (Config_class m))) as [c |].
  - destruct (Providers.create_provider env c (world m)) as [[a' | e] w'] eqn:E;
      rewrite K; unfold history_of; cbn.
    + apply create_provider_fresh in E. destruct E as (_ & _ & ->). auto.
    + auto.
  - rewrite K. auto.
Qed.

Lemma even_exchange (h : list string) (p : string) (r : option string) :
  Nat.even (List.length h) = true ->
  Nat.even (List.length (h ++ exchange p r)%list) = true.
Proof.
  intros H. rewrite length_app. cbn [exchange List.length].
  replace (List.length h + 2) with (S (S (List.length h))) by lia. exact H.
Qed.

Lemma after_call_keeps (env : Env) (m : Machine) (c : BrainCall) :
  Nat.even (List.length (history_of m)) = true ->
  Nat.even (List.length (history_of (after_call env m c))) = true
  /\ file_processor (brain (after_call env m c)) = file_processor (brain m).
Proof.
  intros H. destruct c as [rnd s | | p]; cbn [after_call].
  - destruct (think_effect env rnd s m) as ([E | (p & r & E)] & F & _); rewrite E;
      auto using even_exchange.
  - unfold history_of. cbn. auto.
  - destruct (switch_model_history env p m) as ([E | E] & F); rewrite E; auto.
Qed.

Lemma paired_all (h : list string) :
  Nat.even (List.length h) = true -> List.length (paired h) = List.length h.
Proof.
  induction h as [| y | y z l IH] using list_pairs_ind; intros He.
  - reflexivity.
  - discriminate.
  - cbn [paired List.length]. rewrite IH; [reflexivity | exact He].
Qed.

End Sessions.

(** X12.  Through any sequence of [think], [clear_history] and
    [switch_model] calls, a history of even length stays of even length:
    entries are only ever added as (user, assistant) pairs.  The OpenAI
    replay of such a history therefore drops no entry.  None of these
    calls changes the loaded files. *)
Theorem X12_history_stays_paired (env : Env) (calls : list BrainCall) (m : Brain.Machine) :
  Nat.even (List.length (history_of m)) = true ->
  Nat.even (List.length (history_of (after_calls env calls m))) = true
  /\ List.length (paired (history_of (after_calls env calls m)))
     = List.length (history_of (after_calls env calls m))
  /\ Brain.file_processor (Brain.brain (after_calls env calls m))
     = Brain.file_processor (Brain.brain m).
Proof.
  revert m. unfold after_calls.
  induction calls as [|c calls IH]; intros m H; cbn [fold_left].
  - auto using paired_all.
  - destruct (after_call_keeps env m c H) as (H' & F).
    destruct (IH (after_call env m c) H') as (E & P & F').
    rewrite F'. auto.
Qed.

Lemma X12_witness :
  Nat.even (List.length (history_of (Samples.machine Samples.sales_loaded))) = true
  /\ history_of (after_calls Samples.online
                   [CallThink 0 "count the rows"; CallSwitchModel GEMINI;
                    CallThink 0 "tell me a joke"]
                   (Samples.machine Samples.sales_loaded))
     = []
  /\ Nat.even
       (List.length
          (history_of (after_calls Samples.online
                         [CallThink 0 "how many rows?"; CallThink 0 "and columns?"]
                         (Samples.machine Samples.sales_loaded))))
     = true.
Proof.
  split; [reflexivity |]. split; [vm_compute; reflexivity |].
  exact (proj1 (X12_history_stays_paired Samples.online
                  [CallThink 0 "how many rows?"; CallThink 0 "and columns?"]
                  (Samples.machine Samples.sales_loaded) eq_refl)).
Defined.

(* ================================================================= *)
(** ** Suggestions and commands of the guardrails *)

Section Suggestions.
Import PyStr DataGuardrails.

Lemma any_column_text (test : string -> bool) (columns : list FileProcessor.label) (b : bool) :
  any_column test columns = Ok b ->
  match columns with
  | FileProcessor.LOther _ :: _ => False
  | _ => True
  end.
Proof. destruct columns as [|[c | ty] rest]; cbn; auto. discriminate. Qed.

Lemma any_column_true_non_empty (test : string -> bool) (columns : list FileProcessor.label) :
  any_column test columns = Ok true -> columns <> [].
Proof. destruct columns; [discriminate | discriminate]. Qed.

(** What the method returns for a loaded file, by the three tests. *)
Lemma suggestions_for_file (other_text : string -> string) (fp : FileProcessor.t)
      (f : string) (df : FileProcessor.DataFrame) (l : list string) :
  FileProcessor.current_file_context fp = Some f ->
  truthy f = true ->
  FileProcessor.lookup f (FileProcessor.loaded_files fp) = Some df ->
  suggest_data_questions other_text fp None = Ok l ->
  exists sales dated categorised,
    any_column sales_like (FileProcessor.columns df) = Ok sales
    /\ any_column date_like (FileProcessor.columns df) = Ok dated
    /\ any_column category_like (FileProcessor.columns df) = Ok categorised
    /\ l = firstn 6
             (generic_suggestions f
                ++ column_suggestion other_text (FileProcessor.columns df)
                ++ (if sales then sales_suggestions else [])
                ++ (if dated then ["Show me data trends over time"] else [])
                ++ (if categorised then ["Break down the data by category"] else []))%list.
Proof.
  intros Hc Ht Hl. unfold suggest_data_questions, FileProcessor.get_current_context,
    FileProcessor.get_file_info.
  rewrite Hc, Ht, Hl. cbn [FileProcessor.fi_columns].
  destruct (any_column sales_like (FileProcessor.columns df)) as [sales | e];
    [| discriminate].
  destruct (any_column date_like (FileProcessor.columns df)) as [dated | e];
    [| destruct sales; discriminate].
  destruct (any_column category_like (FileProcessor.columns df)) as [categorised | e];
    [| destruct sales, dated; discriminate].
  cbn [bind]. intros H. apply Ok_inj in H. subst l.
  exists sales, dated, categorised. repeat split; try reflexivity.
  unfold append. f_equal.
  destruct sales, dated, categorised; cbn [app];
    rewrite <- ?app_assoc, ?app_nil_r; reflexivity.
Qed.

End Suggestions.

(** X13.  Whenever [suggest_data_questions] returns, it returns at least
    one suggestion and at most six, whatever is loaded and whatever file
    is named. *)
Theorem X13_suggestions_between_one_and_six
        (other_text : string -> string) (fp : FileProcessor.t)
        (filename : option string) (l : list string) :
  DataGuardrails.suggest_data_questions other_text fp filename = Ok l ->
  1 <= List.length l <= 6.
Proof.
  unfold DataGuardrails.suggest_data_questions.
  set (chosen := match filename with
                 | Some f => if PyStr.truthy f then Some f
                             else FileProcessor.get_current_context fp
                 | None => FileProcessor.get_current_context fp
                 end).
  cbv zeta. destruct chosen as [f |].
  - destruct (PyStr.truthy f).
    + destruct (FileProcessor.get_file_info fp f) as [file_info |].
      * destruct (DataGuardrails.any_column DataGuardrails.sales_like
                    (FileProcessor.fi_columns file_info)) as [sales | e]; [| discriminate].
        destruct (DataGuardrails.any_column DataGuardrails.date_like
                    (FileProcessor.fi_columns file_info)) as [dated | e]; [| discriminate].
        destruct (DataGuardrails.any_column DataGuardrails.category_like
                    (FileProcessor.fi_columns file_info)) as [categorised | e];
          [| discriminate].
        cbn [bind]. intros H. apply Ok_inj in H. subst l.
        rewrite length_firstn. split; [| lia].
        apply Nat.min_glb; [lia |].
        unfold PyStr.append.
        destruct sales, dated, categorised; rewrite !length_app; cbn; lia.
      * intros H. apply Ok_inj in H. subst l. cbn. lia.
    + intros H. apply Ok_inj in H. subst l. cbn. lia.
  - intros H. apply Ok_inj in H. subst l. cbn. lia.
Qed.

Lemma X13_witness :
  exists l,
    DataGuardrails.suggest_data_questions (fun ty => ty) Samples.sales_loaded None = Ok l
    /\ 1 <= List.length l <= 6.
Proof.
  destruct (DataGuardrails.suggest_data_questions (fun ty => ty) Samples.sales_loaded None)
    as [l | e] eqn:E.
  - exists l. split; [reflexivity |].
    exact (X13_suggestions_between_one_and_six (fun ty => ty) Samples.sales_loaded None l E).
  - vm_compute in E. discriminate E.
Defined.

(** X14.  For a current file with a column whose name contains "sales",
    "amount" or "revenue", the suggestions are exactly the four generic
    ones, the one on the first column and "What are the total sales?": the
    cut at six drops the other two sales suggestions, and the suggestions
    on dates and on categories are never shown. *)
Theorem X14_sales_columns_crowd_out_the_rest
        (other_text : string -> string) (fp : FileProcessor.t)
        (f : string) (df : FileProcessor.DataFrame) (l : list string) :
  FileProcessor.current_file_context fp = Some f ->
  PyStr.truthy f = true ->
  FileProcessor.lookup f (FileProcessor.loaded_files fp) = Some df ->
  DataGuardrails.any_column DataGuardrails.sales_like (FileProcessor.columns df) = Ok true ->
  DataGuardrails.suggest_data_questions other_text fp None = Ok l ->
  l = (DataGuardrails.generic_suggestions f
         ++ DataGuardrails.column_suggestion other_text (FileProcessor.columns df)
         ++ ["What are the total sales?"])%list
  /\ ~ In "Show me data trends over time" l
  /\ ~ In "Break down the data by category" l.
Proof.
  intros Hc Ht Hl Hs H.
  destruct (suggestions_for_file other_text fp f df l Hc Ht Hl H)
    as (sales & dated & categorised & Es & _ & _ & ->).
  rewrite Hs in Es. apply Ok_inj in Es. subst sales.
  pose proof (any_column_true_non_empty _ _ Hs) as Hne.
  destruct (FileProcessor.columns df) as [|first rest]; [congruence |].
  assert (E : firstn 6
                (DataGuardrails.generic_suggestions f
                   ++ DataGuardrails.column_suggestion other_text (first :: rest)
                   ++ DataGuardrails.sales_suggestions
                   ++ (if dated then ["Show me data trends over time"] else [])
                   ++ (if categorised then ["Break down the data by category"] else []))%list
              = (DataGuardrails.generic_suggestions f
                   ++ DataGuardrails.column_suggestion other_text (first :: rest)
                   ++ ["What are the total sales?"])%list) by reflexivity.
  rewrite E. split; [reflexivity |].
  unfold DataGuardrails.generic_suggestions, DataGuardrails.column_suggestion.
  cbn [app In].
  split; intros K; repeat (destruct K as [K | K]; [discriminate K |]); exact K.
Qed.

Lemma X14_witness :
  DataGuardrails.any_column DataGuardrails.sales_like (FileProcessor.columns Samples.sales_frame)
  = Ok true
  /\ DataGuardrails.suggest_data_questions (fun ty => ty) Samples.sales_loaded None
     = Ok [ "What are the main insights from sales.csv?";
            "Show me a summary of the data";
            "What columns have missing values?";
            "Describe the data distribution";
            "Tell me about the 'date' column";
            "What are the total sales?" ].
Proof.
  split; [reflexivity |].
  destruct (DataGuardrails.suggest_data_questions (fun ty => ty) Samples.sales_loaded None)
    as [l | e] eqn:E.
  - destruct (X14_sales_columns_crowd_out_the_rest (fun ty => ty) Samples.sales_loaded
                "sales.csv" Samples.sales_frame l eq_refl eq_refl eq_refl eq_refl E)
      as (-> & _).
    reflexivity.
  - vm_compute in E. discriminate E.
Defined.

Section Words.
Import PyStr.

Lemma split_from_blank (word s : string) :
  all_chars is_space s = true ->
  split_from word s = if truthy word then [word] else [].
Proof.
  revert word. induction s as [|c s IH]; intros word H; [reflexivity |].
  cbn [all_chars] in H. apply andb_true_iff in H. destruct H as [Hc Hs].
  cbn [split_from]. rewrite Hc.
  destruct (truthy word) eqn:Hw; rewrite (IH "" Hs); reflexivity.
Qed.

Lemma truthy_app_char (word : string) (c : ascii) : truthy (word ++ String c "") = true.
Proof. destruct word; reflexivity. Qed.

Lemma split_from_word (word s : string) :
  truthy word = true -> exists first rest, split_from word s = first :: rest.
Proof.
  revert word. induction s as [|c s IH]; intros word Hw; cbn [split_from].
  - rewrite Hw. eauto.
  - destruct (is_space c); [rewrite Hw; eauto |].
    apply IH, truthy_app_char.
Qed.

Lemma lstrip_blank (s : string) : all_chars is_space s = true -> lstrip s = "".
Proof.
  induction s as [|c s IH]; intros H; [reflexivity |].
  cbn [all_chars] in H. apply andb_true_iff in H. destruct H as [Hc Hs].
  cbn [lstrip]. now rewrite Hc, IH.
Qed.

Lemma lstrip_not_blank (s : string) :
  all_chars is_space s = false ->
  exists c s', lstrip s = String c s' /\ is_space c = false.
Proof.
  induction s as [|c s IH]; intros H; [discriminate |].
  cbn [all_chars] in H. cbn [lstrip].
  destruct (is_space c) eqn:Hc; [apply IH; exact H | eauto].
Qed.

Lemma rstrip_keeps_head (c : ascii) (s : string) :
  is_space c = false -> rstrip (String c s) = String c (rstrip s).
Proof. intros H. cbn [rstrip]. destruct (rstrip s); [now rewrite H | reflexivity]. Qed.

Lemma split_strip_blank (s : string) :
  all_chars is_space s = true -> split (strip s) = [].
Proof. intros H. unfold strip, split. now rewrite (lstrip_blank s H). Qed.

Lemma split_strip_not_blank (s : string) :
  all_chars is_space s = false -> exists first rest, split (strip s) = first :: rest.
Proof.
  intros H. destruct (lstrip_not_blank s H) as (c & s' & E & Hc).
  unfold strip, split. rewrite E, (rstrip_keeps_head c s' Hc).
  cbn [split_from]. rewrite Hc. apply split_from_word. reflexivity.
Qed.

Lemma lstrip_word (w s : string) :
  truthy w = true -> no_space w = true -> lstrip (w ++ s) = w ++ s.
Proof.
  destruct w as [|c w]; [discriminate |]. intros _ H.
  cbn [no_space] in H. apply andb_true_iff in H. destruct H as [Hc _].
  change (String c w ++ s) with (String c (w ++ s)). cbn [lstrip].
  apply negb_true_iff in Hc. now rewrite Hc.
Qed.

Lemma rstrip_word (w s : string) :
  no_space w = true -> rstrip (w ++ s) = w ++ rstrip s.
Proof.
  induction w as [|c w IH]; intros H; [reflexivity |].
  cbn [no_space] in H. apply andb_true_iff in H. destruct H as [Hc Hw].
  apply negb_true_iff in Hc.
  change (String c w ++ s) with (String c (w ++ s)).
  rewrite (rstrip_keeps_head c _ Hc), (IH Hw). reflexivity.
Qed.

Lemma append_empty (w : string) : w ++ "" = w.
Proof. induction w as [|c w IH]; [reflexivity |]. cbn [String.append]. now rewrite IH. Qed.

Lemma split_from_read (word w s : string) :
  no_space w = true -> split_from word (w ++ s) = split_from (word ++ w) s.
Proof.
  revert word. induction w as [|c w IH]; intros word H.
  - cbn [String.append]. now rewrite append_empty.
  - cbn [no_space] in H. apply andb_true_iff in H. destruct H as [Hc Hw].
    apply negb_true_iff in Hc.
    change (String c w ++ s) with (String c (w ++ s)).
    cbn [split_from]. rewrite Hc, (IH _ Hw). f_equal.
    now rewrite app_assoc_s.
Qed.

(** The first word [split] reads from a stripped text that starts with
    the word [w] followed by white space. *)
Lemma split_strip_first (w rest : string) (c : ascii) :
  truthy w = true -> no_space w = true -> is_space c = true ->
  exists others, split (strip (w ++ String c rest)) = w :: others.
Proof.
  intros Ht Hw Hc. unfold strip, split.
  rewrite (lstrip_word w _ Ht Hw), (rstrip_word w _ Hw), (split_from_read "" w _ Hw).
  cbn [String.append rstrip].
  destruct (rstrip rest) as [|c' r'].
  - rewrite Hc. cbn [split_from]. rewrite Ht. eauto.
  - cbn [split_from]. rewrite Hc, Ht. eauto.
Qed.

Lemma split_strip_single (w : string) :
  truthy w = true -> no_space w = true -> split (strip w) = [w].
Proof.
  intros Ht Hw. unfold strip, split.
  rewrite <- (append_empty w) at 1.
  rewrite (lstrip_word w _ Ht Hw), (rstrip_word w _ Hw), (split_from_read "" w _ Hw).
  cbn [String.append rstrip split_from]. now rewrite Ht.
Qed.

End Words.

(** X15.  [is_data_command] raises [IndexError] exactly on an input that
    is empty or all white space.  On an input that starts with a word
    followed by white space, or is that word alone, it answers whether
    the word, lower-cased, is one of the ten command words. *)
Theorem X15_is_data_command_first_word (user_input : string) :
  (PyStr.all_chars PyStr.is_space user_input = true <->
   DataGuardrails.is_data_command user_input
   = Raise (mkExn IndexError "list index out of range"))
  /\ (forall w c rest,
         PyStr.truthy w = true -> no_space w = true -> PyStr.is_space c = true ->
         (user_input = w \/ user_input = w ++ String c rest) ->
         DataGuardrails.is_data_command user_input
         = Ok (DataGuardrails.str_in (PyStr.lower w) DataGuardrails.data_commands)).
Proof.
  split.
  - unfold DataGuardrails.is_data_command. split.
    + intros H. now rewrite (split_strip_blank user_input H).
    + intros H. destruct (PyStr.all_chars PyStr.is_space user_input) eqn:E; [reflexivity |].
      destruct (split_strip_not_blank user_input E) as (first & rest & K).
      rewrite K in H. discriminate.
  - intros w c rest Ht Hw Hc [-> | ->]; unfold DataGuardrails.is_data_command.
    + now rewrite (split_strip_single w Ht Hw).
    + destruct (split_strip_first w rest c Ht Hw Hc) as (others & ->). reflexivity.
Qed.

Lemma X15_witness :
  PyStr.all_chars PyStr.is_space "   " = true
  /\ DataGuardrails.is_data_command "   "
     = Raise (mkExn IndexError "list index out of range")
  /\ DataGuardrails.is_data_command "Load sales.csv" = Ok true
  /\ DataGuardrails.is_data_command "loading" = Ok false.
Proof.
  split; [reflexivity |].
  split; [exact (proj1 (proj1 (X15_is_data_command_first_word "   ")) eq_refl) |].
  split.
  - exact (proj2 (X15_is_data_command_first_word "Load sales.csv")
             "Load" " "%char "sales.csv" eq_refl eq_refl eq_refl (or_intror eq_refl)).
  - exact (proj2 (X15_is_data_command_first_word "loading")
             "loading" " "%char "" eq_refl eq_refl eq_refl (or_introl eq_refl)).
Defined.

(* ================================================================= *)
(** ** Loading and listing files *)

Section Loading.
Import FileOps.

Lemma lookup_store_same (k : string) (v : FileProcessor.DataFrame)
      (d : list (string * FileProcessor.DataFrame)) :
  FileProcessor.lookup k (store k v d) = Some v.
Proof.
  induction d as [|[k' v'] d IH]; cbn [store FileProcessor.lookup].
  - now rewrite String.eqb_refl.
  - destruct (String.eqb k' k) eqn:E; cbn [FileProcessor.lookup].
    + now rewrite String.eqb_refl.
    + now rewrite E.
Qed.

Lemma lookup_store_other (k g : string) (v : FileProcessor.DataFrame)
      (d : list (string * FileProcessor.DataFrame)) :
  g <> k -> FileProcessor.lookup g (store k v d) = FileProcessor.lookup g d.
Proof.
  intros Hne. induction d as [|[k' v'] d IH]; cbn [store FileProcessor.lookup].
  - destruct (String.eqb k g) eqn:E; [| reflexivity].
    apply String.eqb_eq in E. congruence.
  - destruct (String.eqb k' k) eqn:E; cbn [FileProcessor.lookup].
    + apply String.eqb_eq in E. subst k'.
      destruct (String.eqb k g) eqn:E'; [| reflexivity].
      apply String.eqb_eq in E'. congruence.
    + now rewrite IH.
Qed.

Lemma keys_store (k : string) (v : FileProcessor.DataFrame)
      (d : list (string * FileProcessor.DataFrame)) :
  (In k (map fst d) /\ map fst (store k v d) = map fst d)
  \/ (~ In k (map fst d) /\ map fst (store k v d) = (map fst d ++ [k])%list).
Proof.
  induction d as [|[k' v'] d IH]; cbn [store map fst app].
  - right. split; [intros [] | reflexivity].
  - destruct (String.eqb k' k) eqn:E.
    + apply String.eqb_eq in E. subst k'. left. split; [now left | reflexivity].
    + apply String.eqb_neq in E. cbn [map fst].
      destruct IH as [(Hin & ->) | (Hn & ->)].
      * left. split; [now right | reflexivity].
      * right. split; [| reflexivity]. intros [H | H]; [congruence | auto].
Qed.

Lemma store_keeps_keys (k : string) (v : FileProcessor.DataFrame)
      (d : list (string * FileProcessor.DataFrame)) :
  NoDup (map fst d) ->
  NoDup (map fst (store k v d))
  /\ In k (map fst (store k v d))
  /\ forall g, In g (map fst d) -> In g (map fst (store k v d)).
Proof.
  intros Hd. destruct (keys_store k v d) as [(Hin & ->) | (Hn & ->)].
  - auto.
  - split; [| split].
    + apply NoDup_app; [exact Hd | repeat constructor; intros [] | ].
      intros x Hx [<- | []]. exact (Hn Hx).
    + apply in_or_app. right. now left.
    + intros g Hg. apply in_or_app. now left.
Qed.

(** The four ways [load_file] ends on a file that exists. *)
Lemma load_file_cases (disk : Disk) (fp : FileProcessor.t) (filename : string) :
  file_exists disk filename = true ->
  match read_frame disk filename with
  | None =>
      load_file disk fp filename
      = ((false, "Unsupported file format: " ++ filename, None), fp)
  | Some (Raise e) =>
      load_file disk fp filename
      = ((false, "Error loading file '" ++ filename ++ "': " ++ exn_str e, None), fp)
  | Some (Ok df) =>
      let fp' := FileProcessor.mkFileProcessor
                   (store filename df (FileProcessor.loaded_files fp)) (Some filename) in
      match file_summary disk df filename with
      | Ok summary => load_file disk fp filename = ((true, summary, Some df), fp')
      | Raise e =>
          load_file disk fp filename
          = ((false, "Error loading file '" ++ filename ++ "': " ++ exn_str e, None), fp')
      end
  end.
Proof.
  intros He. unfold load_file, read_frame. rewrite He. cbn [negb].
  destruct (PyStr.endswith ".csv" (PyStr.lower filename)).
  - destruct (read_csv disk filename) as [df | e]; [| reflexivity].
    cbv zeta. destruct (file_summary disk df filename); reflexivity.
  - destruct (PyStr.endswith ".xlsx" (PyStr.lower filename)
              || PyStr.endswith ".xls" (PyStr.lower filename)); [| reflexivity].
    destruct (read_excel disk filename) as [df | e]; [| reflexivity].
    cbv zeta. destruct (file_summary disk df filename); reflexivity.
Qed.

Lemma load_file_missing (disk : Disk) (fp : FileProcessor.t) (filename : string) :
  file_exists disk filename = false ->
  load_file disk fp filename
  = ((false, "File '" ++ filename ++ "' not found in data folder", None), fp).
Proof. intros He. unfold load_file. rewrite He. reflexivity. Qed.

Lemma stored_well_loaded (fp : FileProcessor.t) (filename : string)
      (df : FileProcessor.DataFrame) :
  well_loaded fp ->
  well_loaded (FileProcessor.mkFileProcessor
                 (store filename df (FileProcessor.loaded_files fp)) (Some filename)).
Proof.
  intros [Hd _]. unfold well_loaded, FileProcessor.list_loaded_files in *.
  cbn [FileProcessor.loaded_files FileProcessor.current_file_context].
  destruct (store_keeps_keys filename df _ Hd) as (H1 & H2 & _).
  split; [exact H1 |]. intros f [= <-]. exact H2.
Qed.

(** What every call of [load_file] returns and leaves behind. *)
Lemma load_file_result (disk : Disk) (fp : FileProcessor.t) (filename : string) :
  (exists msg, load_file disk fp filename = ((false, msg, None), fp))
  \/ exists df,
      snd (load_file disk fp filename)
      = FileProcessor.mkFileProcessor
          (store filename df (FileProcessor.loaded_files fp)) (Some filename)
      /\ ((exists summary, fst (load_file disk fp filename) = (true, summary, Some df))
          \/ exists msg, fst (load_file disk fp filename) = (false, msg, None)).
Proof.
  destruct (file_exists disk filename) eqn:He.
  - pose proof (load_file_cases disk fp filename He) as K.
    destruct (read_frame disk filename) as [[df | e] |].
    + cbv zeta in K. right. exists df.
      destruct (file_summary disk df filename) as [summary | e]; rewrite K; cbn [fst snd];
        split; eauto.
    + left. eauto.
    + left. eauto.
  - left. rewrite (load_file_missing disk fp filename He). eauto.
Qed.

End Loading.

(** X16.  [load_file] on a name that is not in the data folder, or whose
    lower-cased name ends in none of ".csv", ".xlsx", ".xls", reports
    failure and changes nothing.  When it reports success, the frame it
    returns is stored under the name and the name is the current file.
    Whatever it reports, the entries of the other files are untouched and
    the dict stays free of duplicate keys with the current file among
    them. *)
Theorem X16_load_file_outcomes (disk : FileOps.Disk) (fp : FileProcessor.t) (filename : string) :
  (FileOps.file_exists disk filename = false ->
   FileOps.load_file disk fp filename
   = ((false, "File '" ++ filename ++ "' not found in data folder", None), fp))
  /\ (FileOps.file_exists disk filename = true -> loadable_name filename = false ->
      FileOps.load_file disk fp filename
      = ((false, "Unsupported file format: " ++ filename, None), fp))
  /\ (fst (fst (fst (FileOps.load_file disk fp filename))) = true ->
      exists df,
        snd (fst (FileOps.load_file disk fp filename)) = Some df
        /\ FileProcessor.lookup filename
             (FileProcessor.loaded_files (snd (FileOps.load_file disk fp filename)))
           = Some df
        /\ FileProcessor.current_file_context (snd (FileOps.load_file disk fp filename))
           = Some filename)
  /\ (forall g, g <> filename ->
                FileProcessor.lookup g
                  (FileProcessor.loaded_files (snd (FileOps.load_file disk fp filename)))
                = FileProcessor.lookup g (FileProcessor.loaded_files fp))
  /\ (well_loaded fp -> well_loaded (snd (FileOps.load_file disk fp filename))).
Proof.
  split; [apply load_file_missing |].
  split.
  { intros He Hu. pose proof (load_file_cases disk fp filename He) as K.
    unfold loadable_name in Hu. unfold read_frame in K.
    apply orb_false_iff in Hu. destruct Hu as [Hu Hx].
    apply orb_false_iff in Hu. destruct Hu as [Hc Hl].
    rewrite Hc, Hl, Hx in K. exact K. }
  destruct (load_file_result disk fp filename)
    as [(msg & E) | (df & E & [(summary & R) | (msg & R)])].
  - rewrite E. cbn [fst snd]. split; [discriminate |]. auto.
  - rewrite E, R. cbn [fst snd FileProcessor.loaded_files FileProcessor.current_file_context].
    split; [| split].
    + intros _. exists df. auto using lookup_store_same.
    + intros g Hg. now apply lookup_store_other.
    + apply stored_well_loaded.
  - rewrite E, R. cbn [fst snd FileProcessor.loaded_files FileProcessor.current_file_context].
    split; [discriminate |]. split.
    + intros g Hg. now apply lookup_store_other.
    + apply stored_well_loaded.
Qed.

Lemma X16_witness :
  FileOps.file_exists Samples.folder "missing.csv" = false
  /\ fst (FileOps.load_file Samples.folder Samples.no_files "missing.csv")
     = (false, "File 'missing.csv' not found in data folder", None)
  /\ loadable_name "n.txt" = false
  /\ fst (FileOps.load_file Samples.folder Samples.no_files "n.txt")
     = (false, "Unsupported file format: n.txt", None)
  /\ fst (fst (fst (FileOps.load_file Samples.folder Samples.no_files "b.csv"))) = true
  /\ FileProcessor.current_file_context
       (snd (FileOps.load_file Samples.folder Samples.no_files "b.csv"))
     = Some "b.csv".
Proof.
  destruct (X16_load_file_outcomes Samples.folder Samples.no_files "missing.csv")
    as (K1 & _).
  destruct (X16_load_file_outcomes Samples.folder Samples.no_files "n.txt")
    as (_ & K2 & _).
  destruct (X16_load_file_outcomes Samples.folder Samples.no_files "b.csv")
    as (_ & _ & K3 & _).
  split; [reflexivity |]. split; [rewrite (K1 eq_refl); reflexivity |].
  split; [reflexivity |]. split; [rewrite (K2 eq_refl eq_refl); reflexivity |].
  split; [reflexivity |].
  destruct (K3 eq_refl) as (df & _ & _ & C). exact C.
Defined.

(** X17.  [load_file] stores the frame and makes the file current before
    it builds the summary: when the file reads but the summary raises,
    the call reports failure with the error text and yet leaves the file
    loaded and current. *)
Theorem X17_failed_summary_leaves_file_loaded
        (disk : FileOps.Disk) (fp : FileProcessor.t) (filename : string)
        (df : FileProcessor.DataFrame) (e : exn) :
  FileOps.file_exists disk filename = true ->
  PyStr.endswith ".csv" (PyStr.lower filename) = true ->
  FileOps.read_csv disk filename = Ok df ->
  FileOps.file_summary disk df filename = Raise e ->
  fst (FileOps.load_file disk fp filename)
  = (false, "Error loading file '" ++ filename ++ "': " ++ exn_str e, None)
  /\ FileProcessor.lookup filename
       (FileProcessor.loaded_files (snd (FileOps.load_file disk fp filename)))
     = Some df
  /\ FileProcessor.current_file_context (snd (FileOps.load_file disk fp filename))
     = Some filename
  /\ DataGuardrails.non_empty
       (FileProcessor.list_loaded_files (snd (FileOps.load_file disk fp filename)))
     = true.
Proof.
  intros He Hc Hr Hs. pose proof (load_file_cases disk fp filename He) as K.
  unfold read_frame in K. rewrite Hc, Hr in K. cbv zeta in K. rewrite Hs in K.
  rewrite K. cbn [fst snd FileProcessor.loaded_files FileProcessor.current_file_context].
  split; [reflexivity |]. split; [apply lookup_store_same |]. split; [reflexivity |].
  apply (lookup_some_non_empty
           (FileProcessor.mkFileProcessor
              (FileOps.store filename df (FileProcessor.loaded_files fp)) (Some filename))
           filename df).
  apply lookup_store_same.
Qed.

Lemma X17_witness :
  FileOps.file_exists Samples.folder_without_summary "b.csv" = true
  /\ FileOps.file_summary Samples.folder_without_summary Samples.sales_frame "b.csv"
     = Raise Samples.refused
  /\ fst (FileOps.load_file Samples.folder_without_summary Samples.no_files "b.csv")
     = (false, "Error loading file 'b.csv': Connection refused", None)
  /\ FileProcessor.list_loaded_files
       (snd (FileOps.load_file Samples.folder_without_summary Samples.no_files "b.csv"))
     = ["b.csv"].
Proof.
  split; [reflexivity |]. split; [reflexivity |].
  destruct (X17_failed_summary_leaves_file_loaded Samples.folder_without_summary
              Samples.no_files "b.csv" Samples.sales_frame Samples.refused
              eq_refl eq_refl eq_refl eq_refl) as (R & _ & _ & _).
  split; [exact R | reflexivity].
Defined.

(* ================================================================= *)
(** ** Scanning the data folder *)

Section Scanning.
Import FileOps.

Lemma in_insert_sorted (x y : string) (xs : list string) :
  In y (insert_sorted x xs) <-> y = x \/ In y xs.
Proof.
  induction xs as [|z xs IH]; cbn [insert_sorted].
  - cbn [In]. intuition congruence.
  - destruct (String.leb x z); cbn [In] in *; [intuition congruence |].
    rewrite IH. intuition congruence.
Qed.

Lemma in_sorted (y : string) (xs : list string) : In y (sorted xs) <-> In y xs.
Proof.
  induction xs as [|x xs IH]; cbn [sorted In]; [tauto |].
  rewrite in_insert_sorted, IH. intuition congruence.
Qed.

Lemma length_insert_sorted (x : string) (xs : list string) :
  List.length (insert_sorted x xs) = S (List.length xs).
Proof.
  induction xs as [|z xs IH]; cbn [insert_sorted]; [reflexivity |].
  destruct (String.leb x z); cbn [List.length]; congruence.
Qed.

Lemma length_sorted (xs : list string) : List.length (sorted xs) = List.length xs.
Proof.
  induction xs as [|x xs IH]; cbn [sorted]; [reflexivity |].
  rewrite length_insert_sorted. cbn [List.length]. congruence.
Qed.

Lemma insert_sorted_ordered (x : string) (xs : list string) :
  ordered xs = true -> ordered (insert_sorted x xs) = true.
Proof.
  induction xs as [|y xs IH]; intros Hs; cbn [insert_sorted]; [reflexivity |].
  destruct (String.leb x y) eqn:E.
  - cbn [ordered]. now rewrite E.
  - assert (Hyx : String.leb y x = true).
    { destruct (String.leb_total x y) as [H | H]; congruence. }
    assert (Hr : ordered xs = true).
    { destruct xs as [|z xs']; [reflexivity |].
      cbn [ordered] in Hs. now apply andb_true_iff in Hs. }
    specialize (IH Hr).
    destruct xs as [|z xs']; cbn [insert_sorted] in *.
    + cbn [ordered]. now rewrite Hyx.
    + cbn [ordered] in Hs. apply andb_true_iff in Hs. destruct Hs as [Hyz _].
      destruct (String.leb x z); cbn [ordered] in *.
      * now rewrite Hyx.
      * now rewrite Hyz.
Qed.

Lemma sorted_ordered (xs : list string) : ordered (sorted xs) = true.
Proof.
  induction xs as [|x xs IH]; cbn [sorted]; [reflexivity |].
  now apply insert_sorted_ordered.
Qed.

Lemma endswith_app (x pre : string) : PyStr.endswith x (pre ++ x) = true.
Proof.
  induction pre as [|c pre IH].
  - change ("" ++ x) with x. destruct x; cbn [PyStr.endswith];
      now rewrite String.eqb_refl.
  - change (String c pre ++ x) with (String c (pre ++ x)).
    cbn [PyStr.endswith]. rewrite IH. apply orb_true_r.
Qed.

Lemma from_last_dot_suffix (s x : string) :
  from_last_dot s = Some x -> exists pre, s = pre ++ x.
Proof.
  revert x. induction s as [|c s IH]; intros x; cbn [from_last_dot]; [discriminate |].
  destruct (from_last_dot s) as [y |].
  - intros [= <-]. destruct (IH y eq_refl) as (pre & ->).
    now exists (String c pre).
  - destruct (Ascii.eqb c dot); [| discriminate].
    intros [= <-]. now exists "".
Qed.

(** [Path(name).suffix] ends the name. *)
Lemma suffix_ends (name : string) : exists pre, name = pre ++ suffix name.
Proof.
  assert (Hn : exists pre, name = pre ++ "").
  { exists name. now rewrite append_empty. }
  destruct name as [|c rest]; cbn [suffix]; [exact Hn |].
  destruct (from_last_dot rest) as [x |] eqn:E; [| exact Hn].
  destruct (1 <? String.length x)%nat; [| exact Hn].
  destruct (from_last_dot_suffix rest x E) as (pre & ->).
  now exists (String c pre).
Qed.

Lemma supported_is_loadable (name : string) :
  DataGuardrails.str_in (PyStr.lower (suffix name)) supported_extensions = true ->
  loadable_name name = true.
Proof.
  intros H. destruct (suffix_ends name) as (pre & E).
  assert (L : PyStr.lower name = PyStr.lower pre ++ PyStr.lower (suffix name)).
  { rewrite <- lower_app. now rewrite <- E. }
  unfold loadable_name. rewrite L.
  unfold DataGuardrails.str_in, supported_extensions in H. cbn [existsb] in H.
  rewrite orb_false_r in H.
  apply orb_true_iff in H. destruct H as [H | H];
    [| apply orb_true_iff in H; destruct H as [H | H]];
    apply String.eqb_eq in H; rewrite H, endswith_app;
    rewrite ?orb_true_r; reflexivity.
Qed.

(** The names [scan_data_folder] returns. *)
Lemma in_scan_data_folder (disk : Disk) (name : string) :
  In name (scan_data_folder disk)
  <-> In (name, true) (listing disk)
      /\ DataGuardrails.str_in (PyStr.lower (suffix name)) supported_extensions = true.
Proof.
  unfold scan_data_folder. rewrite in_sorted, in_map_iff. split.
  - intros ([n b] & <- & Hin). apply filter_In in Hin. cbn [fst snd] in *.
    destruct Hin as [Hin Hb]. apply andb_true_iff in Hb. destruct Hb as [-> Hs].
    auto.
  - intros [Hin Hs]. exists (name, true). split; [reflexivity |].
    apply filter_In. cbn [fst snd]. now rewrite Hs.
Qed.

End Scanning.

(** X18.  [scan_data_folder] returns its names in ascending order; they
    are exactly the names of the regular files of the folder whose
    suffix, lower-cased, is ".csv", ".xlsx" or ".xls", as many as the
    folder has of them; and each of them has an extension that
    [load_file] reads. *)
Theorem X18_scan_lists_loadable_files_in_order (disk : FileOps.Disk) :
  ordered (FileOps.scan_data_folder disk) = true
  /\ (forall name,
        In name (FileOps.scan_data_folder disk)
        <-> In (name, true) (FileOps.listing disk)
            /\ DataGuardrails.str_in (PyStr.lower (FileOps.suffix name))
                 FileOps.supported_extensions = true)
  /\ List.length (FileOps.scan_data_folder disk)
     = List.length (filter (fun entry : string * bool =>
                              snd entry
                              && DataGuardrails.str_in
                                   (PyStr.lower (FileOps.suffix (fst entry)))
                                   FileOps.supported_extensions)
                           (FileOps.listing disk))
  /\ (forall name, In name (FileOps.scan_data_folder disk) -> loadable_name name = true).
Proof.
  pose proof (in_scan_data_folder disk) as M.
  split; [apply sorted_ordered |]. split; [exact M |]. split.
  - unfold FileOps.scan_data_folder. now rewrite length_sorted, length_map.
  - intros name Hin. apply M in Hin. now apply supported_is_loadable.
Qed.

(* ================================================================= *)
(** ** The orchestrator's file methods *)

Section BrainFiles.
Import Brain.

Lemma load_data_file_eq (disk : FileOps.Disk) (filename : string) (m : Machine) :
  load_data_file disk filename m
  = (Ok (fst (fst (fst (FileOps.load_file disk (file_processor (brain m)) filename))),
         snd (fst (fst (FileOps.load_file disk (file_processor (brain m)) filename)))),
     mkMachine (mkBrain (config (brain m)) (ai_provider (brain m))
                        (snd (FileOps.load_file disk (file_processor (brain m)) filename)))
               (Config_class m) (world m)).
Proof.
  unfold load_data_file, set_file_processor. unfold mbind, get, modify, ret.
  destruct (FileOps.load_file disk (file_processor (brain m)) filename)
    as [[[success message] df] fp].
  reflexivity.
Qed.

Lemma run_query_shape (disk : FileOps.Disk) (fp : FileProcessor.t) (f : string)
      (df : FileProcessor.DataFrame) (kwargs : FileOps.Kwargs) :
  FileProcessor.lookup f (FileProcessor.loaded_files fp) = Some df ->
  FileOps.run_query disk fp f "shape" kwargs
  = Some ("Shape: " ++ PyStr.of_nat (fst (FileProcessor.shape df)) ++ " rows x "
            ++ PyStr.of_nat (snd (FileProcessor.shape df)) ++ " columns").
Proof. intros H. unfold FileOps.run_query. rewrite H. reflexivity. Qed.

Lemma run_query_unknown (disk : FileOps.Disk) (fp : FileProcessor.t)
      (f query_type : string) (kwargs : FileOps.Kwargs) :
  DataGuardrails.str_in query_type query_types = false ->
  FileOps.run_query disk fp f query_type kwargs = None.
Proof.
  unfold DataGuardrails.str_in, query_types. cbn [existsb]. intros H.
  repeat (apply orb_false_iff in H; let E := fresh "E" in destruct H as [E H]).
  unfold FileOps.run_query.
  destruct (FileProcessor.lookup f (FileProcessor.loaded_files fp)); [| reflexivity].
  rewrite E, E0, E1, E2, E3, E4. reflexivity.
Qed.

Lemma bind_kwargs_ok (method : string) (params : list string) (kwargs : FileOps.Kwargs) :
  collides params kwargs = false -> FileOps.bind_kwargs method params kwargs = Ok tt.
Proof.
  induction kwargs as [|[k v] rest IH]; cbn [collides existsb FileOps.bind_kwargs fst];
    [reflexivity |].
  intros H. apply orb_false_iff in H. destruct H as [-> H]. exact (IH H).
Qed.

Lemma bind_kwargs_raises (method : string) (params : list string)
      (kwargs : FileOps.Kwargs) :
  collides params kwargs = true ->
  exists e, FileOps.bind_kwargs method params kwargs = Raise e /\ exn_kind e = TypeError.
Proof.
  induction kwargs as [|[k v] rest IH]; cbn [collides existsb FileOps.bind_kwargs fst];
    [discriminate |].
  destruct (DataGuardrails.str_in k params); [eauto |]. exact IH.
Qed.

(** A keyword collides in the file processor when it collides in the
    orchestrator or is "filename". *)
Lemma collides_filename (kwargs : FileOps.Kwargs) :
  collides [ "self"; "filename"; "query_type" ] kwargs
  = collides [ "self"; "query_type" ] kwargs || collides [ "filename" ] kwargs.
Proof.
  induction kwargs as [|[k v] rest IH]; [reflexivity |].
  unfold collides in *. cbn [existsb fst]. rewrite IH.
  unfold DataGuardrails.str_in. cbn [existsb].
  destruct (String.eqb k "self"), (String.eqb k "filename"), (String.eqb k "query_type");
    cbn [orb];
    repeat match goal with
           | |- context [existsb ?f rest] => destruct (existsb f rest)
           end; reflexivity.
Qed.

(** With no colliding keyword, [Brain.query_data] is its body. *)
Lemma query_data_bound (disk : FileOps.Disk) (query_type : string)
      (kwargs : FileOps.Kwargs) (m : Machine) :
  collides [ "self"; "query_type" ] kwargs = false ->
  collides [ "filename" ] kwargs = false ->
  query_data disk query_type kwargs m
  = (Ok (match FileProcessor.current_file_context (file_processor (brain m)) with
         | None => no_file_loaded
         | Some f =>
             if PyStr.truthy f then
               match FileOps.run_query disk (file_processor (brain m)) f query_type kwargs with
               | Some text =>
                   if PyStr.truthy text then text
                   else "Unable to execute query: " ++ query_type
               | None => "Unable to execute query: " ++ query_type
               end
             else no_file_loaded
         end), m).
Proof.
  intros H1 H2. unfold query_data, FileOps.query_data. unfold mbind, lift, get, ret.
  rewrite (bind_kwargs_ok _ _ _ H1).
  unfold FileProcessor.get_current_context.
  destruct (FileProcessor.current_file_context (file_processor (brain m))) as [f |];
    [| reflexivity].
  destruct (PyStr.truthy f); [| reflexivity].
  rewrite (bind_kwargs_ok "FileProcessor.query_data" [ "self"; "filename"; "query_type" ]
             kwargs) by (rewrite collides_filename, H1, H2; reflexivity).
  cbn [bind].
  destruct (FileOps.run_query disk (file_processor (brain m)) f query_type kwargs);
    reflexivity.
Qed.

(** With no colliding keyword, [Brain.query_data] answers with a text
    that is not empty and changes nothing. *)
Lemma query_data_answers (disk : FileOps.Disk) (query_type : string)
      (kwargs : FileOps.Kwargs) (m : Machine) :
  collides [ "self"; "query_type" ] kwargs = false ->
  collides [ "filename" ] kwargs = false ->
  exists text,
    query_data disk query_type kwargs m = (Ok text, m) /\ PyStr.truthy text = true.
Proof.
  intros H1 H2. rewrite (query_data_bound disk query_type kwargs m H1 H2).
  eexists. split; [reflexivity |].
  destruct (FileProcessor.current_file_context (file_processor (brain m))) as [f |];
    [| reflexivity].
  destruct (PyStr.truthy f); [| reflexivity].
  destruct (FileOps.run_query disk (file_processor (brain m)) f query_type kwargs)
    as [text |]; [| reflexivity].
  destruct (PyStr.truthy text) eqn:E; [exact E | reflexivity].
Qed.

End BrainFiles.

(** X19.  [Brain.query_data] changes nothing.  It raises [TypeError]
    when a keyword is "self" or "query_type", which the call itself
    already binds, and, when a file is current, when a keyword is
    "filename": the keywords are passed on to the file processor outside
    any [try].  Otherwise it returns a text that is not empty.  With no
    current file the text is the "No data file is currently loaded"
    notice, whatever the query type and the other keywords.  With a
    current file that is loaded, the type "shape" gives the two
    dimensions of the frame, and a type that is none of the six known
    ones gives "Unable to execute query: <type>". *)
Theorem X19_query_data_answers_unless_keywords_collide
        (disk : FileOps.Disk) (query_type : string) (kwargs : FileOps.Kwargs)
        (m : Brain.Machine) :
  (collides [ "self"; "query_type" ] kwargs = true ->
   exists e,
     Brain.query_data disk query_type kwargs m = (Raise e, m) /\ exn_kind e = TypeError)
  /\ (collides [ "self"; "query_type" ] kwargs = false ->
      (forall f,
          FileProcessor.current_file_context (Brain.file_processor (Brain.brain m)) = Some f ->
          PyStr.truthy f = true ->
          collides [ "filename" ] kwargs = true ->
          exists e,
            Brain.query_data disk query_type kwargs m = (Raise e, m)
            /\ exn_kind e = TypeError)
      /\ (FileProcessor.current_file_context (Brain.file_processor (Brain.brain m)) = None ->
          Brain.query_data disk query_type kwargs m = (Ok Brain.no_file_loaded, m))
      /\ (collides [ "filename" ] kwargs = false ->
          exists text,
            Brain.query_data disk query_type kwargs m = (Ok text, m)
            /\ PyStr.truthy text = true
            /\ forall f df,
                FileProcessor.current_file_context (Brain.file_processor (Brain.brain m))
                = Some f ->
                PyStr.truthy f = true ->
                FileProcessor.lookup f
                  (FileProcessor.loaded_files (Brain.file_processor (Brain.brain m)))
                = Some df ->
                (query_type = "shape" ->
                 text = "Shape: " ++ PyStr.of_nat (fst (FileProcessor.shape df))
                          ++ " rows x "
                          ++ PyStr.of_nat (snd (FileProcessor.shape df)) ++ " columns")
                /\ (DataGuardrails.str_in query_type query_types = false ->
                    text = "Unable to execute query: " ++ query_type))).
Proof.
  split.
  { intros H. destruct (bind_kwargs_raises "Brain.query_data" _ _ H) as (e & E & K).
    exists e. split; [| exact K].
    unfold Brain.query_data, mbind, lift. now rewrite E. }
  intros H1. split; [| split].
  - intros f Hc Hf H2.
    assert (H3 : collides [ "self"; "filename"; "query_type" ] kwargs = true)
      by (rewrite collides_filename, H1, H2; reflexivity).
    destruct (bind_kwargs_raises "FileProcessor.query_data" _ _ H3) as (e & E & K).
    exists e. split; [| exact K].
    unfold Brain.query_data, FileOps.query_data. unfold mbind, lift, get, ret.
    rewrite (bind_kwargs_ok _ _ _ H1).
    unfold FileProcessor.get_current_context. rewrite Hc, Hf, E. reflexivity.
  - intros Hc. unfold Brain.query_data. unfold mbind, lift, get, ret.
    rewrite (bind_kwargs_ok _ _ _ H1).
    unfold FileProcessor.get_current_context. now rewrite Hc.
  - intros H2. rewrite (query_data_bound disk query_type kwargs m H1 H2).
    destruct (query_data_answers disk query_type kwargs m H1 H2) as (text & E & Ht).
    rewrite (query_data_bound disk query_type kwargs m H1 H2) in E.
    apply pair_equal_spec in E. destruct E as [E _]. apply Ok_inj in E.
    exists text. split; [now rewrite E |]. split; [exact Ht |].
    intros f df Hc Hf Hl. rewrite Hc, Hf in E. split.
    + intros ->. rewrite (run_query_shape disk _ f df kwargs Hl) in E.
      cbn [PyStr.truthy String.append] in E. now rewrite <- E.
    + intros Hu. rewrite (run_query_unknown disk _ f query_type kwargs Hu) in E.
      now rewrite <- E.
Qed.

Lemma X19_witness :
  fst (Brain.query_data Samples.folder "shape" [] (Samples.machine Samples.sales_loaded))
  = Ok "Shape: 10 rows x 3 columns"
  /\ fst (Brain.query_data Samples.folder "median" [] (Samples.machine Samples.sales_loaded))
     = Ok "Unable to execute query: median"
  /\ fst (Brain.query_data Samples.folder "shape" [("filename", FileOps.OtherArg "str")]
            (Samples.machine Samples.no_files))
     = Ok Brain.no_file_loaded
  /\ fst (Brain.query_data Samples.folder "shape" [("filename", FileOps.OtherArg "str")]
            (Samples.machine Samples.sales_loaded))
     = Raise (mkExn TypeError
                "FileProcessor.query_data() got multiple values for argument 'filename'").
Proof.
  destruct (X19_query_data_answers_unless_keywords_collide Samples.folder "shape" []
              (Samples.machine Samples.sales_loaded)) as (_ & K1).
  destruct (X19_query_data_answers_unless_keywords_collide Samples.folder "median" []
              (Samples.machine Samples.sales_loaded)) as (_ & K2).
  destruct (X19_query_data_answers_unless_keywords_collide Samples.folder "shape"
              [("filename", FileOps.OtherArg "str")]
              (Samples.machine Samples.no_files)) as (_ & K3).
  destruct (X19_query_data_answers_unless_keywords_collide Samples.folder "shape"
              [("filename", FileOps.OtherArg "str")]
              (Samples.machine Samples.sales_loaded)) as (_ & K4).
  destruct (K1 eq_refl) as (_ & _ & A1). destruct (A1 eq_refl) as (t1 & E1 & _ & S1).
  destruct (K2 eq_refl) as (_ & _ & A2). destruct (A2 eq_refl) as (t2 & E2 & _ & S2).
  destruct (K3 eq_refl) as (_ & A3 & _).
  destruct (K4 eq_refl) as (A4 & _).
  destruct (A4 "sales.csv" eq_refl eq_refl eq_refl) as (e & E4 & _).
  rewrite E1, E2, (A3 eq_refl), E4. cbn [fst].
  destruct (S1 "sales.csv" Samples.sales_frame eq_refl eq_refl eq_refl) as [B1 _].
  destruct (S2 "sales.csv" Samples.sales_frame eq_refl eq_refl eq_refl) as [_ B2].
  rewrite (B1 eq_refl), (B2 eq_refl).
  vm_compute in E4. injection E4 as <-. repeat split.
Defined.

(** X20.  When every name the folder lists exists, [load_data_file] on a
    name that [scan_data_folder] returns never answers "not found" or
    "Unsupported file format": it either succeeds, and then the file is
    loaded and current and every later input that matches no off-topic
    pattern is relevant, or it fails with "Error loading file '<name>':
    <error>" for the error that reading or summarising raised.  It never
    raises and leaves the configuration, the adapter and the world as
    they were. *)
Theorem X20_listed_file_loads_or_fails_reading
        (disk : FileOps.Disk) (name : string) (m : Brain.Machine) :
  listing_exists disk ->
  In name (FileOps.scan_data_folder disk) ->
  exists success message fp,
    Brain.load_data_file disk name m
    = (Ok (success, message),
       Brain.mkMachine
         (Brain.mkBrain (Brain.config (Brain.brain m)) (Brain.ai_provider (Brain.brain m)) fp)
         (Brain.Config_class m) (Brain.world m))
    /\ (success = true ->
        FileProcessor.current_file_context fp = Some name
        /\ In name (FileProcessor.list_loaded_files fp)
        /\ forall rnd question,
             DataGuardrails.off_topic (PyStr.lower question) = false ->
             DataGuardrails.check_query_relevance fp rnd question = Ok (true, None))
    /\ (success = false ->
        exists e, message = "Error loading file '" ++ name ++ "': " ++ exn_str e).
Proof.
  intros Hd Hin.
  apply in_scan_data_folder in Hin. destruct Hin as [Hin Hs].
  assert (He : FileOps.file_exists disk name = true) by exact (Hd (name, true) Hin).
  assert (Hl : loadable_name name = true) by now apply supported_is_loadable.
  set (fp0 := Brain.file_processor (Brain.brain m)).
  pose proof (load_file_cases disk fp0 name He) as K.
  rewrite (load_data_file_eq disk name m). fold fp0.
  unfold read_frame in K. unfold loadable_name in Hl.
  assert (R : exists r, read_frame disk name = Some r).
  { unfold read_frame.
    destruct (PyStr.endswith ".csv" (PyStr.lower name)); [eauto |].
    cbn [orb] in Hl. rewrite Hl. eauto. }
  destruct R as (r & R). unfold read_frame in R. rewrite R in K.
  destruct r as [df | e].
  - cbv zeta in K.
    destruct (FileOps.file_summary disk df name) as [summary | e]; rewrite K; cbn [fst snd].
    + do 3 eexists. split; [reflexivity |]. split; [| discriminate].
      intros _.
      assert (L : FileProcessor.lookup name
                    (FileOps.store name df (FileProcessor.loaded_files fp0)) = Some df)
        by apply lookup_store_same.
      split; [reflexivity |]. split.
      * unfold FileProcessor.list_loaded_files. cbn [FileProcessor.loaded_files].
        destruct (keys_store name df (FileProcessor.loaded_files fp0))
          as [(Hk & ->) | (_ & ->)]; [exact Hk |].
        apply in_or_app. right. now left.
      * intros rnd question Ho.
        pose proof (lookup_some_non_empty
                      (FileProcessor.mkFileProcessor
                         (FileOps.store name df (FileProcessor.loaded_files fp0))
                         (Some name)) name df L) as Hn.
        destruct (check_query_relevance_cases
                    (FileProcessor.mkFileProcessor
                       (FileOps.store name df (FileProcessor.loaded_files fp0))
                       (Some name)) rnd question)
          as [(Hx & _) | [(_ & Hw & _) | (_ & _ & _ & E)]].
        -- congruence.
        -- destruct Hw as [Hw | [_ Hw]]; congruence.
        -- exact E.
    + do 3 eexists. split; [reflexivity |]. split; [discriminate |]. eauto.
  - rewrite K; cbn [fst snd].
    do 3 eexists. split; [reflexivity |]. split; [discriminate |]. eauto.
Qed.

Lemma X20_witness :
  listing_exists Samples.folder
  /\ In "b.csv" (FileOps.scan_data_folder Samples.folder)
  /\ fst (Brain.load_data_file Samples.folder "b.csv" (Samples.machine Samples.no_files))
     = Ok (true, "File Loaded: b.csv").
Proof.
  assert (Hd : listing_exists Samples.folder).
  { intros entry Hin. cbn in Hin.
    repeat (destruct Hin as [<- | Hin]; [reflexivity |]). destruct Hin. }
  assert (Hin : In "b.csv" (FileOps.scan_data_folder Samples.folder)).
  { vm_compute. auto. }
  split; [exact Hd |]. split; [exact Hin |].
  destruct (X20_listed_file_loads_or_fails_reading Samples.folder "b.csv"
              (Samples.machine Samples.no_files) Hd Hin) as (s & msg & fp & E & _).
  reflexivity.
Defined.

(** X21.  [Brain()] changes no class attribute.  When it returns, the
    object holds the active configuration, a fresh adapter for it with an
    empty history, and a file processor with nothing loaded and no
    current file.  When it raises, either the active model has no
    configuration ([KeyError], nothing else done), or the factory raised
    and the error is a [RuntimeError] "Failed to initialize AI provider
    (<value>): <error>", or the adapter was built and making the data
    folder raised, which is passed on as it is. *)
Theorem X21_new_brain_is_blank (env : Env) (disk : FileOps.Disk) (cls : Config.t) (w : World) :
  match Brain.new env disk (cls, w) with
  | (Ok b, (cls', w')) =>
      cls' = cls
      /\ Config.lookup (Config.ACTIVE_MODEL cls) (Config.MODEL_CONFIGS cls)
         = Some (Brain.config b)
      /\ Providers.create_provider env (Brain.config b) w = (Ok (Brain.ai_provider b), w')
      /\ Providers.config (Brain.ai_provider b) = Brain.config b
      /\ Providers.kind (Brain.ai_provider b) = provider (Brain.config b)
      /\ Providers.conversation_history (Brain.ai_provider b) = []
      /\ Brain.file_processor b = FileProcessor.mkFileProcessor [] None
  | (Raise e, (cls', w')) =>
      cls' = cls
      /\ ((Config.lookup (Config.ACTIVE_MODEL cls) (Config.MODEL_CONFIGS cls) = None
           /\ exn_kind e = KeyError /\ w' = w)
          \/ (exists c e0,
                 Config.lookup (Config.ACTIVE_MODEL cls) (Config.MODEL_CONFIGS cls) = Some c
                 /\ Providers.create_provider env c w = (Raise e0, w')
                 /\ e = mkExn RuntimeError
                          ("Failed to initialize AI provider ("
                           ++ AIProviderEnum.value (provider c) ++ "): " ++ exn_str e0))
          \/ (exists c p,
                 Config.lookup (Config.ACTIVE_MODEL cls) (Config.MODEL_CONFIGS cls) = Some c
                 /\ Providers.create_provider env c w = (Ok p, w')
                 /\ FileOps.make_folder disk = Some e))
  end.
Proof.
  unfold Brain.new, Config.get_active_config, FileOps.new.
  unfold mbind, catch, zoom, get, ret, raise, lift. cbn [fst snd].
  destruct (Config.lookup (Config.ACTIVE_MODEL cls) (Config.MODEL_CONFIGS cls)) as [c |].
  - cbn [fst snd].
    destruct (Providers.create_provider env c w) as [[p | e0] w'] eqn:E; cbn [fst snd].
    + destruct (FileOps.make_folder disk) as [e |] eqn:F.
      * split; [reflexivity |]. right. right. exists c, p. auto.
      * cbn [Brain.config Brain.ai_provider Brain.file_processor].
        destruct (create_provider_fresh env c w p w' E) as (Hk & Hc & Hh).
        repeat split; auto.
    + split; [reflexivity |]. right. left. exists c, e0. auto.
  - cbn [fst snd]. split; [reflexivity |]. left. auto.
Qed.

(* ================================================================= *)
(** ** Reading the user's input *)

Section Reading.
Import PyStr Reader.

Ltac by_char c :=
  destruct c as [b0 b1 b2 b3 b4 b5 b6 b7];
  destruct b0, b1, b2, b3, b4, b5, b6, b7; reflexivity.

Lemma is_space_lower (c : ascii) : is_space (lower_char c) = is_space c.
Proof. by_char c. Qed.

Lemma all_space_lower (s : string) :
  all_chars is_space (lower s) = all_chars is_space s.
Proof.
  induction s as [|c s IH]; [reflexivity |].
  cbn [lower all_chars]. now rewrite is_space_lower, IH.
Qed.

Lemma truthy_lstrip (s : string) : truthy (lstrip s) = negb (all_chars is_space s).
Proof.
  induction s as [|c s IH]; [reflexivity |].
  cbn [lstrip all_chars]. destruct (is_space c); [exact IH | reflexivity].
Qed.

Lemma truthy_rstrip (s : string) : truthy (rstrip s) = negb (all_chars is_space s).
Proof.
  induction s as [|c s IH]; [reflexivity |].
  cbn [rstrip all_chars]. destruct (rstrip s) as [|d r].
  - cbn [truthy] in IH. apply (f_equal negb) in IH. rewrite negb_involutive in IH.
    cbn [negb] in IH. rewrite <- IH, andb_true_r. now destruct (is_space c).
  - cbn [truthy] in *. apply (f_equal negb) in IH. rewrite negb_involutive in IH.
    cbn [negb] in IH. rewrite <- IH, andb_false_r. reflexivity.
Qed.

Lemma all_space_lstrip (s : string) :
  all_chars is_space (lstrip s) = all_chars is_space s.
Proof.
  induction s as [|c s IH]; [reflexivity |].
  cbn [lstrip]. destruct (is_space c) eqn:E; [| reflexivity].
  cbn [all_chars]. now rewrite E, IH.
Qed.

(** [s.strip()] is empty exactly when [s] is all white space. *)
Lemma truthy_strip (s : string) : truthy (strip s) = negb (all_chars is_space s).
Proof. unfold strip. now rewrite truthy_rstrip, all_space_lstrip. Qed.

Lemma rstrip_cons (s : string) (c d : ascii) (r : string) :
  rstrip s = String d r -> rstrip (String c s) = String c (String d r).
Proof. intros E. cbn [rstrip]. now rewrite E. Qed.

Lemma rstrip_idem (s : string) : rstrip (rstrip s) = rstrip s.
Proof.
  induction s as [|c s IH]; [reflexivity |].
  destruct (rstrip s) as [|d r] eqn:E.
  - cbn [rstrip]. rewrite E. destruct (is_space c) eqn:Hc; [reflexivity |].
    cbn [rstrip]. now rewrite Hc.
  - rewrite (rstrip_cons s c d r E). now apply rstrip_cons.
Qed.

Lemma lstrip_head (s : string) :
  lstrip s = "" \/ exists c s', lstrip s = String c s' /\ is_space c = false.
Proof.
  induction s as [|c s IH]; [now left |].
  cbn [lstrip]. destruct (is_space c) eqn:E; [exact IH |]. right. eauto.
Qed.

Lemma strip_idem (s : string) : strip (strip s) = strip s.
Proof.
  unfold strip. destruct (lstrip_head s) as [-> | (c & s' & -> & Hc)]; [reflexivity |].
  rewrite (rstrip_keeps_head c s' Hc). cbn [lstrip]. rewrite Hc.
  rewrite <- (rstrip_keeps_head c s' Hc). apply rstrip_idem.
Qed.

Lemma strip_trimmed (s : string) : truthy (strip s) = true -> trimmed (strip s) = true.
Proof.
  intros H. unfold trimmed. rewrite H, strip_idem. cbn [andb]. apply String.eqb_refl.
Qed.

Lemma validate_input_eq (s : string) :
  validate_input s
  = negb (all_chars is_space s)
    && negb (existsb (fun pattern => contains pattern (lower s)) dangerous_patterns).
Proof.
  unfold validate_input. rewrite truthy_strip.
  destruct s as [|c s]; [reflexivity |].
  cbn [truthy negb orb]. rewrite negb_involutive.
  destruct (all_chars is_space (String c s)); reflexivity.
Qed.

Lemma existsb_contains_app (pre s post : string) (patterns : list string) :
  existsb (fun pattern => contains pattern s) patterns = true ->
  existsb (fun pattern => contains pattern (pre ++ s ++ post)) patterns = true.
Proof.
  intros H. apply existsb_exists in H. destruct H as (p & Hin & Hc).
  apply existsb_exists. exists p. split; [exact Hin |].
  apply contains_app_right. now apply contains_app_left.
Qed.

(** What [get_command_input] does, by what [input()] meets. *)
Lemma get_command_input_cases (typed : Typed) (r : Reader.t) (w : World) :
  match typed with
  | Line text =>
      get_command_input typed (r, w)
      = if truthy (strip text)
        then (Ok (Returns (command_type (strip text), strip text)),
              (mkReader (PyStr.append (input_history r) (strip text)), w))
        else (Ok (Returns ("empty", "")), (r, w))
  | EndOfInput =>
      get_command_input typed (r, w)
      = (Ok (Returns ("empty", "")),
         (r, mkWorld (trace w) (PyStr.append (console w) (nl ++ "Input ended."))
               (generate_calls w)))
  | Interrupt =>
      get_command_input typed (r, w)
      = (Ok (Exits 0%Z),
         (r, mkWorld (trace w) (PyStr.append (console w) (nl ++ "Goodbye!"))
               (generate_calls w)))
  end.
Proof.
  destruct typed as [text | |]; unfold get_command_input, get_user_input;
    unfold print, mbind, modify, ret, Reader.on_world, on_self; cbn [fst snd].
  - destruct (strip text) as [|c u] eqn:E; cbn [truthy negb]; [| reflexivity].
    now destruct r.
  - reflexivity.
  - reflexivity.
Qed.

End Reading.

(** X22.  [validate_input] accepts a text only if it has a character that
    is not white space and contains none of "<script>", "javascript:",
    "eval(", "exec(" in any letter case.  Its answer depends on the
    lower-cased text only, and a text it rejects although it is not blank
    stays rejected inside every longer text. *)
Theorem X22_validate_input_rejection_is_robust :
  (forall s, Reader.validate_input s = true ->
             PyStr.truthy (PyStr.strip s) = true
             /\ forall pattern, In pattern Reader.dangerous_patterns ->
                                PyStr.contains pattern (PyStr.lower s) = false)
  /\ (forall a b, PyStr.lower a = PyStr.lower b ->
                  Reader.validate_input a = Reader.validate_input b)
  /\ (forall pre s post,
        PyStr.truthy (PyStr.strip s) = true -> Reader.validate_input s = false ->
        Reader.validate_input (pre ++ s ++ post) = false).
Proof.
  split; [| split].
  - intros s H. rewrite validate_input_eq in H. apply andb_true_iff in H.
    destruct H as [Hb Hp]. split; [now rewrite truthy_strip |].
    intros pattern Hin.
    destruct (PyStr.contains pattern (PyStr.lower s)) eqn:E; [| reflexivity].
    apply negb_true_iff in Hp.
    assert (X : existsb (fun p => PyStr.contains p (PyStr.lower s))
                  Reader.dangerous_patterns = true)
      by (apply existsb_exists; eauto).
    congruence.
  - intros a b H. rewrite !validate_input_eq.
    rewrite <- (all_space_lower a), <- (all_space_lower b), H. reflexivity.
  - intros pre s post Hs H. rewrite validate_input_eq in *.
    rewrite truthy_strip in Hs. rewrite Hs in H. cbn [andb] in H.
    apply negb_false_iff in H.
    rewrite !lower_app. rewrite (existsb_contains_app _ _ _ _ H). apply andb_false_r.
Qed.

Lemma X22_witness :
  Reader.validate_input "please EVAL(1)" = false
  /\ Reader.validate_input ("now " ++ "please EVAL(1)" ++ " thanks") = false
  /\ Reader.validate_input "show totals" = true.
Proof.
  destruct X22_validate_input_rejection_is_robust as (_ & _ & K).
  split; [reflexivity |]. split; [| reflexivity].
  apply K; reflexivity.
Defined.



(* ================================================================= *)
(** ** The chat loop and its handlers *)

Section Chat.
Import PyStr Phara.

Lemma spoken_nil (s : Phara.t) : spoken s [] = s.
Proof. destruct s. unfold spoken. cbn. now rewrite app_nil_r. Qed.

Lemma spoken_spoken (s : Phara.t) (a b : list Voice.call) :
  spoken (spoken s a) b = spoken s (a ++ b)%list.
Proof. unfold spoken. cbn. now rewrite app_assoc. Qed.

Lemma say_eq (c : Voice.call) (s : Phara.t) : say c s = (Ok tt, spoken s [c]).
Proof. reflexivity. Qed.

Lemma each_say {A : Type} (f : A -> Voice.call) (xs : list A) (s : Phara.t) :
  each (fun x => say (f x)) xs s = (Ok tt, spoken s (map f xs)).
Proof.
  revert s. induction xs as [|x xs IH]; intros s; cbn [each map].
  - unfold ret. now rewrite spoken_nil.
  - unfold mbind. rewrite say_eq, IH, spoken_spoken. reflexivity.
Qed.

Lemma in_machine_eq {A : Type} (m : M Brain.Machine A) (s : Phara.t) :
  in_machine m s
  = (fst (m (machine s)),
     mkPhara (snd (m (machine s))) (reader s) (voice s) (running s)).
Proof. unfold in_machine, zoom. now destruct (m (machine s)). Qed.

(** The spoken answer to one query. *)
Lemma answer_spoken (disk : FileOps.Disk) (query_type : string)
      (h : exn -> M Phara.t unit) (s : Phara.t) :
  exists text,
    Brain.query_data disk query_type [] (machine s) = (Ok text, machine s)
    /\ truthy text = true
    /\ catch
         (result <~ in_machine (Brain.query_data disk query_type []) ;;
          if truthy result
          then say (Voice.speak_multiline result)
          else say (Voice.speak_error "No data available. Load a file first."))
         h s
       = (Ok tt, spoken s [Voice.speak_multiline text]).
Proof.
  destruct (query_data_answers disk query_type [] (machine s) eq_refl eq_refl)
    as (text & E & Ht).
  exists text. split; [exact E |]. split; [exact Ht |].
  unfold catch, mbind. rewrite in_machine_eq, E. cbn [fst snd]. rewrite Ht.
  rewrite say_eq. now destruct s.
Qed.

Lemma row_count_raises (parts : list string) (e : exn) :
  row_count parts = Raise e ->
  isdigit (nth 1 parts "") = true
  /\ ((int_max_str_digits < digits_run (nth 1 parts ""))%nat
      \/ digits_value 0 (nth 1 parts "") = None).
Proof.
  unfold row_count.
  destruct ((1 <? List.length parts)%nat); cbn [andb]; [| discriminate].
  destruct (isdigit (nth 1 parts "")); [| discriminate].
  intros H. split; [reflexivity |]. unfold int_of_digits in H.
  destruct (int_max_str_digits <? digits_run (nth 1 parts ""))%nat eqn:L.
  - left. now apply Nat.ltb_lt in L.
  - right. destruct (digits_value 0 (nth 1 parts "")); [discriminate | reflexivity].
Qed.

(** The spoken answer to a query that counts rows. *)
Lemma counted_answer_spoken (disk : FileOps.Disk) (query_type : string)
      (parts : list string) (s : Phara.t) :
  (exists n text,
      row_count parts = Ok n
      /\ Brain.query_data disk query_type [("n", FileOps.IntArg n)] (machine s)
         = (Ok text, machine s)
      /\ truthy text = true
      /\ catch
           (result <~ (n <~ lift (row_count parts) ;;
                       in_machine (Brain.query_data disk query_type
                                     [("n", FileOps.IntArg n)])) ;;
            if truthy result
            then say (Voice.speak_multiline result)
            else say (Voice.speak_error "No data available. Load a file first."))
           (fun e => say (Voice.speak_error ("Failed to execute query: " ++ exn_str e))) s
         = (Ok tt, spoken s [Voice.speak_multiline text]))
  \/ (exists e,
         row_count parts = Raise e
         /\ catch
              (result <~ (n <~ lift (row_count parts) ;;
                          in_machine (Brain.query_data disk query_type
                                     [("n", FileOps.IntArg n)])) ;;
               if truthy result
               then say (Voice.speak_multiline result)
               else say (Voice.speak_error "No data available. Load a file first."))
              (fun e => say (Voice.speak_error ("Failed to execute query: " ++ exn_str e))) s
            = (Ok tt, spoken s [Voice.speak_error ("Failed to execute query: " ++ exn_str e)])).
Proof.
  destruct (row_count parts) as [n | e] eqn:R.
  - left. destruct (query_data_answers disk query_type [("n", FileOps.IntArg n)]
                      (machine s) eq_refl eq_refl)
      as (text & E & Ht).
    exists n, text. split; [reflexivity |]. split; [exact E |]. split; [exact Ht |].
    unfold catch, mbind, lift. rewrite in_machine_eq, E. cbn [fst snd]. rewrite Ht.
    rewrite say_eq. now destruct s.
  - right. exists e. split; [reflexivity |]. reflexivity.
Qed.

End Chat.





(* ================================================================= *)
(** ** Handlers that only speak, and the load command *)

Section Speaking.
Import PyStr Phara.

Lemma only_speaks_say (c : Voice.call) : only_speaks (say c).
Proof. intros s. exists (Ok tt), [c]. apply say_eq. Qed.

Lemma only_speaks_ret {A : Type} (a : A) : only_speaks (ret a : M Phara.t A).
Proof. intros s. exists (Ok a), []. unfold ret. now rewrite spoken_nil. Qed.

Lemma only_speaks_lift {A : Type} (r : result A) : only_speaks (lift r : M Phara.t A).
Proof. intros s. exists r, []. unfold lift. now rewrite spoken_nil. Qed.

Lemma only_speaks_bind {A B : Type} (m : M Phara.t A) (k : A -> M Phara.t B) :
  only_speaks m -> (forall a, only_speaks (k a)) -> only_speaks (mbind m k).
Proof.
  intros Hm Hk s. destruct (Hm s) as (r & calls & E). unfold mbind. rewrite E.
  destruct r as [a | e].
  - destruct (Hk a (spoken s calls)) as (r' & calls' & E'). rewrite E', spoken_spoken.
    eauto.
  - eauto.
Qed.

Lemma only_speaks_catch {A : Type} (m : M Phara.t A) (h : exn -> M Phara.t A) :
  only_speaks m -> (forall e, only_speaks (h e)) -> only_speaks (catch m h).
Proof.
  intros Hm Hh s. destruct (Hm s) as (r & calls & E). unfold catch. rewrite E.
  destruct r as [a | e].
  - eauto.
  - destruct (Hh e (spoken s calls)) as (r' & calls' & E'). rewrite E', spoken_spoken.
    eauto.
Qed.

Lemma only_speaks_each {A : Type} (f : A -> M Phara.t unit) (xs : list A) :
  (forall x, only_speaks (f x)) -> only_speaks (each f xs).
Proof.
  intros Hf. induction xs as [|x xs IH]; cbn [each].
  - apply only_speaks_ret.
  - apply only_speaks_bind; auto.
Qed.

Lemma only_speaks_each_numbered {A : Type} (f : nat -> A -> M Phara.t unit)
      (i : nat) (xs : list A) :
  (forall i x, only_speaks (f i x)) -> only_speaks (each_numbered f i xs).
Proof.
  intros Hf. revert i. induction xs as [|x xs IH]; intros i; cbn [each_numbered].
  - apply only_speaks_ret.
  - apply only_speaks_bind; auto.
Qed.

(** A call on the brain that leaves the machine as it is. *)
Lemma only_speaks_in_machine {A : Type} (m : M Brain.Machine A) :
  (forall x, snd (m x) = x) -> only_speaks (in_machine m).
Proof.
  intros H s. exists (fst (m (machine s))), []. rewrite in_machine_eq, H, spoken_nil.
  now destruct s.
Qed.

Lemma get_data_suggestions_reads (other_text : string -> string) (x : Brain.Machine) :
  snd (Brain.get_data_suggestions other_text x) = x.
Proof. reflexivity. Qed.

Lemma get_available_files_reads (disk : FileOps.Disk) (x : Brain.Machine) :
  snd (Brain.get_available_files disk x) = x.
Proof. reflexivity. Qed.

Lemma get_loaded_files_reads (x : Brain.Machine) : snd (Brain.get_loaded_files x) = x.
Proof. reflexivity. Qed.

Lemma only_speaks_if {A : Type} (b : bool) (m k : M Phara.t A) :
  only_speaks m -> only_speaks k -> only_speaks (if b then m else k).
Proof. now destruct b. Qed.

Lemma show_suggestions_speaks (other_text : string -> string) :
  only_speaks (show_suggestions other_text).
Proof.
  unfold show_suggestions. apply only_speaks_bind.
  - apply only_speaks_in_machine, get_data_suggestions_reads.
  - intros suggestions. apply only_speaks_if.
    + apply only_speaks_bind; [apply only_speaks_say |].
      intros _. apply only_speaks_each. intros x. apply only_speaks_say.
    + apply only_speaks_ret.
Qed.

Lemma rstrip_fixed_tail (c : ascii) (s : string) :
  rstrip (String c s) = String c s -> rstrip s = s.
Proof.
  cbn [rstrip]. destruct (rstrip s) as [|d r] eqn:E.
  - destruct (is_space c); [discriminate |]. now intros [= <-].
  - now intros [= <-].
Qed.

Lemma rstrip_fixed_space (c : ascii) (s : string) :
  rstrip (String c s) = String c s -> is_space c = true ->
  all_chars is_space s = false.
Proof.
  intros H Hc. pose proof (truthy_rstrip s) as T.
  cbn [rstrip] in H. destruct (rstrip s) as [|d r].
  - rewrite Hc in H. discriminate.
  - cbn [truthy] in T. now apply negb_true_iff.
Qed.

Lemma startswith_load (u : string) :
  startswith "load " (lower u) = true ->
  exists c1 c2 c3 c4 c5 rest,
    u = String c1 (String c2 (String c3 (String c4 (String c5 rest))))
    /\ lower (String c1 (String c2 (String c3 (String c4 "")))) = "load"
    /\ is_space c1 = false /\ is_space c2 = false /\ is_space c3 = false
    /\ is_space c4 = false /\ is_space c5 = true.
Proof.
  destruct u as [|c1 [|c2 [|c3 [|c4 [|c5 rest]]]]]; cbn [lower startswith];
    rewrite ?andb_false_r; try discriminate.
  intros H.
  repeat (apply andb_true_iff in H; let E := fresh "E" in destruct H as [E H]).
  apply Ascii.eqb_eq in E, E0, E1, E2, E3.
  exists c1, c2, c3, c4, c5, rest. split; [reflexivity |].
  split; [cbn [lower]; now rewrite <- E, <- E0, <- E1, <- E2 |].
  rewrite <- (is_space_lower c1), <- (is_space_lower c2), <- (is_space_lower c3),
    <- (is_space_lower c4), <- (is_space_lower c5).
  rewrite <- E, <- E0, <- E1, <- E2, <- E3. repeat split; reflexivity.
Qed.

(** The two parts [split(maxsplit=1)] makes of a stripped text that
    begins with "load " in any letter case. *)
Lemma load_words (u : string) :
  strip u = u -> startswith "load " (lower u) = true ->
  exists first c rest,
    u = first ++ String c rest
    /\ lower first = "load" /\ is_space c = true
    /\ truthy (lstrip rest) = true
    /\ split_once u = [first; lstrip rest].
Proof.
  intros Hs Hl.
  destruct (startswith_load u Hl)
    as (c1 & c2 & c3 & c4 & c5 & rest & -> & Hw & H1 & H2 & H3 & H4 & H5).
  exists (String c1 (String c2 (String c3 (String c4 "")))), c5, rest.
  split; [reflexivity |]. split; [exact Hw |]. split; [exact H5 |].
  assert (Hr : rstrip (String c5 rest) = String c5 rest).
  { unfold strip in Hs. cbn [lstrip] in Hs. rewrite H1 in Hs.
    do 4 apply rstrip_fixed_tail in Hs. exact Hs. }
  pose proof (rstrip_fixed_space c5 rest Hr H5) as Hb.
  split; [rewrite truthy_lstrip; now rewrite Hb |].
  destruct (lstrip_not_blank rest Hb) as (d & r & E & _).
  unfold split_once. cbn [first_split String.append].
  rewrite H1. cbn [first_split String.append].
  rewrite H2. cbn [first_split String.append].
  rewrite H3. cbn [first_split String.append].
  rewrite H4. cbn [first_split String.append].
  rewrite H5. cbn [truthy]. now rewrite E.
Qed.

Lemma command_type_load (u : string) :
  Reader.command_type u = "load" -> startswith "load " (lower u) = true.
Proof.
  unfold Reader.command_type.
  repeat match goal with
         | |- (if ?b then _ else _) = _ -> _ => destruct b eqn:?
         end; try discriminate.
  reflexivity.
Qed.

End Speaking.



(* ================================================================= *)
(** ** One pass of the chat loop *)

Section Loop.
Import PyStr Reader Phara.

Lemma command_type_values (u : string) :
  In (command_type u)
     [ "quit"; "clear"; "history"; "help"; "model"; "load"; "files"; "data_query";
       "suggestions"; "normal" ].
Proof.
  unfold command_type.
  repeat match goal with
         | |- context [if ?b then _ else _] => destruct b
         end; simpl; tauto.
Qed.

Lemma command_type_quit (u : string) :
  String.eqb (command_type u) "quit"
  = DataGuardrails.str_in (lower u) quit_words.
Proof.
  unfold command_type, quit_words.
  destruct (DataGuardrails.str_in (lower u) ["quit"; "exit"; "bye"; "goodbye"]);
    [reflexivity |].
  repeat match goal with
         | |- context [if ?b then _ else _] => destruct b
         end; reflexivity.
Qed.

Ltac literal_tests :=
  repeat match goal with
         | |- context [String.eqb ?a ?b] =>
             let v := eval vm_compute in (String.eqb a b) in
             change (String.eqb a b) with v
         end.

(** A pass on a line that is not blank ends the session exactly when the
    line is a quit command. *)
Lemma chat_loop_line (env : Env) (disk : FileOps.Disk) (other_text : string -> string)
      (float_text : Q -> string) (text : string) (rnd : nat) (s : Phara.t) :
  truthy (strip text) = true ->
  exists s',
    chat_loop env disk other_text float_text (Line text) rnd s
    = (Ok (if DataGuardrails.str_in (lower (strip text)) quit_words
           then Exits 0%Z else Returns tt), s').
Proof.
  intros Ht. rewrite <- command_type_quit.
  unfold chat_loop, catch. unfold mbind at 1. unfold in_reader, zoom.
  pose proof (get_command_input_cases (Line text) (reader s) (Brain.world (machine s)))
    as K.
  cbv beta iota in K. rewrite Ht in K. rewrite K. cbv beta iota zeta.
  set (s1 := mkPhara _ _ _ _).
  pose proof (command_type_values (strip text)) as V. cbn [In] in V.
  repeat (destruct V as [V | V]; [rewrite <- V; clear V |]); [.. | destruct V].
  all: literal_tests; cbv beta iota.
  - unfold handle_quit, mbind, say, set_running, modify, ret. eexists. reflexivity.
  - unfold mbind. destruct (handle_clear s1) as [[[] | e] s'];
      unfold say, modify, ret; eexists; reflexivity.
  - unfold mbind. destruct (handle_history s1) as [[[] | e] s'];
      unfold say, modify, ret; eexists; reflexivity.
  - unfold mbind. destruct (handle_help s1) as [[[] | e] s'];
      unfold say, modify, ret; eexists; reflexivity.
  - unfold mbind. destruct (handle_model_command env float_text (strip text) s1)
      as [[[] | e] s']; unfold say, modify, ret; eexists; reflexivity.
  - unfold mbind. destruct (handle_load_command disk other_text (strip text) s1)
      as [[[] | e] s']; unfold say, modify, ret; eexists; reflexivity.
  - unfold mbind. destruct (handle_files_command disk s1) as [[[] | e] s'];
      unfold say, modify, ret; eexists; reflexivity.
  - unfold mbind. destruct (handle_data_query_command disk (strip text) s1)
      as [[[] | e] s']; unfold say, modify, ret; eexists; reflexivity.
  - unfold mbind. destruct (handle_suggestions_command other_text s1)
      as [[[] | e] s']; unfold say, modify, ret; eexists; reflexivity.
  - unfold mbind. destruct (handle_normal_input env rnd (strip text) s1)
      as [[[] | e] s']; unfold say, modify, ret; eexists; reflexivity.
Qed.

End Loop.

